(** * Lutris launch composition, Wine version registry and process execution

    A shallow embedding of

    - [lutris/runner_interpreter.py]: [get_mangohud_conf],
      [get_launch_parameters], [get_gamescope_args],
      [_get_gamescope_fsr_option];
    - [lutris/util/wine/wine.py]: [WINE_PATHS], [get_proton_paths],
      [get_wine_path_for_version], [get_overrides_env],
      [is_installed_systemwide], [list_proton_versions], [detect_arch],
      [is_prefix_directory], [detect_prefix_arch], [get_real_executable];
    - [lutris/util/system.py]: [get_environment], [_execute], [execute],
      [execute_with_error], [path_exists], [can_find_executable],
      [find_executable], [python_identifier], [get_existing_parent],
      [path_contains], [is_removeable].

    Python objects are modelled as follows.  A [str] is a [string] whose
    characters are read as code points below 256.  A configuration [dict] is
    a [gmap string value]; a [dict] whose iteration order is observed is an
    association list with unique keys.  Exceptions, the log and the two
    pieces of mutable state the code touches (the memo of [cache_single] and
    the dictionary objects passed by reference) live in a state-and-error
    monad [M]. *)

From Stdlib Require Import NArith Ascii DecimalString.
From Stdlib Require String.
From stdpp Require Import base option list strings gmap sorting.

(** ** Python strings *)

Module Py.

Definition code_point (c : ascii) : N := N_of_ascii c.

(** [s.startswith(p)] *)
Fixpoint startswith (p s : string) : bool :=
  match p with
  | EmptyString => true
  | String a p' =>
      match s with
      | EmptyString => false
      | String b s' => Ascii.eqb a b && startswith p' s'
      end
  end.

(** [sub in s] *)
Fixpoint contains (sub s : string) : bool :=
  startswith sub s ||
  match s with
  | EmptyString => false
  | String _ s' => contains sub s'
  end.

(** [s.replace(old, new)] for a non-empty [old]: occurrences are found from
    the left and do not overlap.  [skip] counts the characters of a matched
    occurrence that are still to be dropped. *)
Fixpoint replace_from (old new : string) (skip : nat) (s : string) : string :=
  match s with
  | EmptyString => EmptyString
  | String c s' =>
      match skip with
      | S k => replace_from old new k s'
      | O =>
          if startswith old s
          then new +:+ replace_from old new (String.length old - 1) s'
          else String c (replace_from old new 0 s')
      end
  end.

(** With an empty [old], Python puts [new] before every character and at
    the end. *)
Fixpoint interleave (new s : string) : string :=
  match s with
  | EmptyString => new
  | String c s' => new +:+ String c (interleave new s')
  end.

Definition replace (old new s : string) : string :=
  match old with
  | EmptyString => interleave new s
  | _ => replace_from old new 0 s
  end.

(** [s.lower()] on code points below 256: A-Z and the accented capitals
    U+00C0..U+00DE (without the multiplication sign U+00D7) move up by 32. *)
Definition lower_char (c : ascii) : ascii :=
  let n := code_point c in
  if ((65 <=? n) && (n <=? 90) || (192 <=? n) && (n <=? 222) && negb (n =? 215))%N
  then ascii_of_N (n + 32)
  else c.

Fixpoint lower (s : string) : string :=
  match s with
  | EmptyString => EmptyString
  | String c s' => String (lower_char c) (lower s')
  end.

(** [s.split(sep)] for a separator of one character. *)
Fixpoint split (sep : ascii) (s : string) : list string :=
  match s with
  | EmptyString => [EmptyString]
  | String c s' =>
      let r := split sep s' in
      if Ascii.eqb c sep then EmptyString :: r
      else match r with
           | h :: t => String c h :: t
           | [] => [String c EmptyString]
           end
  end.

(** [sep.join(l)] *)
Definition join (sep : string) (l : list string) : string := String.concat sep l.

(** Whitespace according to [str.isspace], below 256. *)
Definition isspace (c : ascii) : bool :=
  let n := code_point c in
  ((9 <=? n) && (n <=? 13) || (28 <=? n) && (n <=? 32) || (n =? 133) || (n =? 160))%N.

Fixpoint lstrip (s : string) : string :=
  match s with
  | EmptyString => EmptyString
  | String c s' => if isspace c then lstrip s' else s
  end.

Fixpoint rstrip (s : string) : string :=
  match s with
  | EmptyString => EmptyString
  | String c s' =>
      match rstrip s' with
      | EmptyString => if isspace c then EmptyString else String c EmptyString
      | r => String c r
      end
  end.

(** [s.strip()] *)
Definition strip (s : string) : string := rstrip (lstrip s).

Definition is_decimal_digit (c : ascii) : bool :=
  let n := code_point c in ((48 <=? n) && (n <=? 57))%N.

(** [str.isnumeric] on one character: below 256 the numeric characters are
    the ten digits, the superscripts one, two and three, and the three
    vulgar fractions. *)
Definition isnumeric_char (c : ascii) : bool :=
  let n := code_point c in
  is_decimal_digit c ||
  ((n =? 178) || (n =? 179) || (n =? 185) || (n =? 188) || (n =? 189) || (n =? 190))%N.

Fixpoint all_chars (p : ascii -> bool) (s : string) : bool :=
  match s with
  | EmptyString => true
  | String c s' => p c && all_chars p s'
  end.

(** [s.isnumeric()]: every character is numeric and there is at least one. *)
Definition isnumeric (s : string) : bool :=
  match s with
  | EmptyString => false
  | _ => all_chars isnumeric_char s
  end.

Fixpoint digits_value (acc : N) (s : string) : N :=
  match s with
  | EmptyString => acc
  | String c s' => digits_value (10 * acc + (code_point c - 48))%N s'
  end.

(** [int(s)] for a string that passed [isnumeric]: the decimal digits give a
    number; a superscript or a fraction is numeric but no decimal digit, and
    [int] raises [ValueError] on it ([None] here). *)
Definition int (s : string) : option N :=
  match s with
  | EmptyString => None
  | _ => if all_chars is_decimal_digit s then Some (digits_value 0 s) else None
  end.

(** ["%d" % n] for a natural number. *)
Definition format_d (n : N) : string := NilZero.string_of_uint (N.to_uint n).

Fixpoint insert_sorted (x : string) (l : list string) : list string :=
  match l with
  | [] => [x]
  | y :: l' => if String.leb x y then x :: l else y :: insert_sorted x l'
  end.

(** [sorted(l)] on strings: code-point order. *)
Definition sorted (l : list string) : list string := foldr insert_sorted [] l.

(** [os.path.isabs] (posixpath) *)
Definition isabs (p : string) : bool := startswith "/" p.

Definition endswith_slash (s : string) : bool :=
  match String.length s with
  | O => false
  | S n => match String.get n s with Some c => Ascii.eqb c "/"%char | None => false end
  end.

(** [os.path.join(a, b)] (posixpath): an absolute [b] replaces [a]. *)
Definition path_join (a b : string) : string :=
  if isabs b then b
  else if (String.eqb a "" || endswith_slash a) then a +:+ b
  else a +:+ "/" +:+ b.

End Py.

(** ** Python values, exceptions and the execution monad *)

(** What a configuration mapping holds and what a command vector may carry:
    [None], a [bool] or a [str]. *)
Inductive value :=
| VNone
| VBool (b : bool)
| VStr (s : string).

#[global] Instance value_eq_dec : EqDecision value.
Proof. solve_decision. Defined.

(** Truth value of an object, as [if v:] and [bool(v)] take it. *)
Definition truthy (v : value) : bool :=
  match v with
  | VNone => false
  | VBool b => b
  | VStr s => negb (String.eqb s "")
  end.

(** [a or b] *)
Definition py_or (a b : value) : value := if truthy a then a else b.

(** [d.get(k)] on a configuration mapping: [None] for a missing key. *)
Definition dict_get (d : gmap string value) (k : string) : value :=
  default VNone (d !! k).

Inductive exn :=
| KeyError (key : string)
| ValueError
| TypeError
| AttributeError
| OSError
| RuntimeError (msg : string)
| MissingExecutableError (exec_name : string)
| UnspecifiedVersionError.

Inductive result (A : Type) :=
| Ok (a : A)
| Raise (e : exn).
Arguments Ok {A} a.
Arguments Raise {A} e.

Inductive level := DEBUG | INFO | WARNING | ERROR.

(** A log record: the level and the message template handed to the logger
    (the arguments interpolated into it are not kept). *)
Definition log_record : Type := level * string.

(** A [Dict[str, str]] whose values may be [None], in insertion order. *)
Notation odict := (list (string * option string)) (only parsing).

(** References to dictionary objects. *)
Definition ref : Type := nat.

(** The mutable state the modelled code reads and writes: the log, the memo
    that [cache_single] keeps for [_get_gamescope_fsr_option], and the
    dictionary objects that are passed by reference. *)
Record state := State {
  log : list log_record;
  fsr_memo : option (list string);
  dicts : ref -> odict
}.

Definition M (A : Type) : Type := state -> result A * state.

#[global] Instance M_ret : MRet M := fun A (a : A) st => (Ok a, st).

#[global] Instance M_bind : MBind M := fun A B (f : A -> M B) (m : M A) st =>
  match m st with
  | (Ok a, st') => f a st'
  | (Raise e, st') => (Raise e, st')
  end.

Definition raise {A : Type} (e : exn) : M A := fun st => (Raise e, st).

(** [try: body except <handled>: handler] *)
Definition try_except {A : Type} (body : M A) (handled : exn -> bool) (handler : M A) : M A :=
  fun st =>
    match body st with
    | (Raise e, st') => if handled e then handler st' else (Raise e, st')
    | r => r
    end.

Definition logger (lv : level) (msg : string) : M unit :=
  fun st => (Ok tt, State (log st ++ [(lv, msg)]) (fsr_memo st) (dicts st)).

Definition get_fsr_memo : M (option (list string)) :=
  fun st => (Ok (fsr_memo st), st).

Definition set_fsr_memo (v : list string) : M unit :=
  fun st => (Ok tt, State (log st) (Some v) (dicts st)).

Definition read_dict (r : ref) : M odict :=
  fun st => (Ok (dicts st r), st).

Definition write_dict (r : ref) (d : odict) : M unit :=
  fun st => (Ok tt, State (log st) (fsr_memo st) (fun r' => if Nat.eqb r' r then d else dicts st r')).

(** [d[k]]: a missing key raises [KeyError]. *)
Definition getitem (d : gmap string value) (k : string) : M value :=
  match d !! k with
  | Some v => mret v
  | None => raise (KeyError k)
  end.

(** ** The host: what the code asks of the operating system *)

(** One call of [subprocess.Popen] followed by [communicate]. *)
Record popen_call := PopenCall {
  pc_command : list string;
  pc_shell : bool;
  pc_capture_stderr : bool;
  pc_env : gmap string string;
  pc_cwd : option string;
  pc_timeout : option N
}.

Inductive popen_outcome :=
| Completed (stdout stderr : string)
| PopenOSError
| PopenTypeError
| PopenTimeoutExpired.

Record Host := {
  (** [shutil.which] *)
  which : string -> option string;
  (** [os.environ] *)
  environ : gmap string string;
  (** [os.path.exists], [os.path.islink], [os.path.isfile], [os.path.isdir],
      [os.path.expanduser], [os.stat(p).st_size] *)
  os_path_exists : string -> bool;
  os_path_islink : string -> bool;
  os_path_isfile : string -> bool;
  os_path_isdir : string -> bool;
  expanduser : string -> string;
  st_size : string -> N;
  (** [os.listdir]; [None] when it raises [OSError] *)
  listdir : string -> option (list string);
  (** [os.path.expandvars] *)
  expandvars : string -> string;
  (** [shlex.split] on a [str]; [None] when the quoting is malformed
      ([ValueError]) *)
  shlex_split : string -> option (list string);
  (** [subprocess.Popen(...).communicate(timeout)] *)
  popen : popen_call -> popen_outcome;
  (** [LINUX_SYSTEM.gamemode_available()] *)
  gamemode_available : bool;
  (** [settings.RUNNER_DIR] *)
  RUNNER_DIR : string;
  (** [get_steamapps_dirs()]; [None] when it raises *)
  get_steamapps_dirs : option (list string);
  (** Where the hash table of the set [s] holds the string [x]: the place
      depends on the hash seed of the process, so it is the host's to say *)
  hash_order : gset string -> string -> nat
}.

(** ** lutris/util/system.py *)

Section System.
Variable host : Host.

(** The [str] [""] that [_execute] returns on its error paths, or the pair
    it returns when the process ran. *)
Inductive execute_result :=
| RetStr (s : string)
| RetTuple (stdout stderr : string).

(** [a, b = r]: a tuple of two unpacks; a [str] unpacks into its characters,
    and raises [ValueError] unless it has exactly two. *)
Definition unpack2 (r : execute_result) : M (string * string) :=
  match r with
  | RetTuple a b => mret (a, b)
  | RetStr (String a (String b EmptyString)) =>
      mret (String a EmptyString, String b EmptyString)
  | RetStr _ => raise ValueError
  end.

Definition get_environment : gmap string string :=
  filter (fun kv => Py.startswith "BASH_FUNC" kv.1 = false) (environ host).

Definition path_exists (path : string) (check_symlinks exclude_empty : bool) : M bool :=
  if String.eqb path "" then mret false
  else
    let path := if Py.startswith "~" path then expanduser host path else path in
    if os_path_exists host path then
      if exclude_empty then mret (0 <? st_size host path)%N else mret true
    else if os_path_islink host path then
      _ ← logger WARNING "%s is a broken link";
      mret (negb check_symlinks)
    else mret false.

Definition can_find_executable (exec_name : string) : bool :=
  negb (String.eqb exec_name "") &&
  match which host exec_name with
  | Some exe => negb (String.eqb exe "")
  | None => false
  end.

Definition find_executable (exec_name : string) : M string :=
  match (if String.eqb exec_name "" then None else which host exec_name) with
  | Some exe =>
      if String.eqb exe "" then raise (MissingExecutableError exec_name) else mret exe
  | None => raise (MissingExecutableError exec_name)
  end.

Definition _execute (command : list string) (env : option (gmap string (option string)))
    (cwd : option string) (capture_stderr quiet shell : bool) (timeout : option N)
    : M execute_result :=
  match command with
  | [] =>
      _ ← logger ERROR "No executable provided!";
      mret (RetStr "")
  | command0 :: _ =>
      missing ← (if Py.isabs command0
                 then b ← path_exists command0 false false; mret (negb b)
                 else mret false);
      if (missing : bool) then
        _ ← logger ERROR "No executable found in %s";
        mret (RetStr "")
      else
        _ ← (if quiet then mret tt else logger DEBUG "Executing %s");
        let existing_env := get_environment in
        existing_env ←
          match env with
          | Some e =>
              if decide (e = ∅) then mret existing_env
              else
                _ ← (if quiet then mret tt else logger DEBUG "{}={}");
                mret (omap id e ∪ existing_env)
          | None => mret existing_env
          end;
        match popen host (PopenCall command shell capture_stderr existing_env cwd timeout) with
        | Completed stdout stderr =>
            let stderr := if capture_stderr then stderr else "" in
            mret (RetTuple (Py.strip stdout) (Py.strip stderr))
        | PopenOSError | PopenTypeError =>
            _ ← logger ERROR "Could not run command %s (env: %s): %s";
            mret (RetStr "")
        | PopenTimeoutExpired =>
            _ ← logger ERROR "Command %s after %s seconds";
            mret (RetStr "")
        end
  end.

Definition execute (command : list string) (env : option (gmap string (option string)))
    (cwd : option string) (quiet shell : bool) (timeout : option N) : M string :=
  r ← _execute command env cwd false quiet shell timeout;
  '(stdout, _stderr) ← unpack2 r;
  mret stdout.

Definition execute_with_error (command : list string) (env : option (gmap string (option string)))
    (cwd : option string) (quiet shell : bool) (timeout : option N) : M execute_result :=
  _execute command env cwd true quiet shell timeout.

End System.

(** ** lutris/runner_interpreter.py *)

(** The runner, as [get_launch_parameters] uses it: its [system_config]
    mapping and the mapping that [runner.get_env()] returns. *)
Record Runner := {
  system_config : gmap string value;
  get_env : gmap string string
}.

(** The [gameplay_info] mapping; a field is [None] when the key is missing
    (or, for the optional ones, holds [None]). *)
Record GameplayInfo := {
  gi_command : option (list value);
  gi_env : option (gmap string string);
  gi_ld_preload : option string;
  gi_ld_library_path : option string
}.

Definition strs (l : list string) : list value := VStr <$> l.

(** [sep.join(l)] on objects: an item that is no [str] raises [TypeError]. *)
Fixpoint join_values (sep : string) (l : list value) : option string :=
  match l with
  | [] => Some ""
  | [VStr s] => Some s
  | VStr s :: l' => (fun r => s +:+ sep +:+ r) <$> join_values sep l'
  | _ => None
  end.

(** [w, h = v.lower().split("x")] *)
Definition split_resolution (v : value) : M (string * string) :=
  match v with
  | VStr s =>
      match Py.split "x"%char (Py.lower s) with
      | [w; h] => mret (w, h)
      | _ => raise ValueError
      end
  | _ => raise AttributeError
  end.

(** [shlex.split(v)]: a [bool] is taken for a stream and fails on its missing
    [read]; [None] is refused. *)
Definition shlex_split_value (host : Host) (v : value) : M (list string) :=
  match v with
  | VStr s =>
      match shlex_split host s with
      | Some tokens => mret tokens
      | None => raise ValueError
      end
  | VBool _ => raise AttributeError
  | VNone => raise ValueError
  end.

Section RunnerInterpreter.
Variable host : Host.

Definition get_mangohud_conf (system_config : gmap string value)
    : option (list value) * option (gmap string value) :=
  let mangohud_val := if truthy (dict_get system_config "gamescope") then "0" else "1" in
  if truthy (dict_get system_config "mangohud") && can_find_executable host "mangohud"
  then (Some [VStr "mangohud"],
        Some ({[ "MANGOHUD" := VStr mangohud_val; "MANGOHUD_DLSYM" := VStr "1" ]} : gmap string value))
  else (None, None).

(** Modelled from the spec: the decorator [cache_single] (lutris.util, not
    among the sources) keeps the first result of the function for the
    lifetime of the process; a call that raises stores nothing. *)
Definition cache_single (body : M (list string)) : M (list string) :=
  memo ← get_fsr_memo;
  match memo with
  | Some cached => mret cached
  | None =>
      r ← body;
      _ ← set_fsr_memo r;
      mret r
  end.

Definition _get_gamescope_fsr_option : M (list string) :=
  cache_single (
    if can_find_executable host "gamescope" then
      r ← execute_with_error host ["gamescope"; "--help"] None None false false None;
      '(stdout, stderr) ← unpack2 r;
      let help_text := stdout +:+ stderr in
      if Py.contains "-F, --filter" help_text then mret ["-F"; "fsr"] else mret ["-U"]
    else mret ["-U"]).

Definition get_gamescope_args (launch_arguments : list value)
    (system_config : gmap string value) : M (list value) :=
  let launch_arguments := VStr "--" :: launch_arguments in
  let launch_arguments :=
    if truthy (dict_get system_config "gamescope_force_grab_cursor")
    then VStr "--force-grab-cursor" :: launch_arguments
    else launch_arguments in
  launch_arguments ←
    (if truthy (dict_get system_config "gamescope_fsr_sharpness") then
       gamescope_fsr_sharpness ← getitem system_config "gamescope_fsr_sharpness";
       let launch_arguments := gamescope_fsr_sharpness :: launch_arguments in
       let launch_arguments := VStr "--fsr-sharpness" :: launch_arguments in
       fsr_option ← _get_gamescope_fsr_option;
       mret (strs fsr_option ++ launch_arguments)
     else mret launch_arguments);
  launch_arguments ←
    (if truthy (dict_get system_config "gamescope_flags") then
       flags ← getitem system_config "gamescope_flags";
       gamescope_flags ← shlex_split_value host flags;
       mret (strs gamescope_flags ++ launch_arguments)
     else mret launch_arguments);
  launch_arguments ←
    (if truthy (dict_get system_config "gamescope_window_mode") then
       gamescope_window_mode ← getitem system_config "gamescope_window_mode";
       mret (gamescope_window_mode :: launch_arguments)
     else mret launch_arguments);
  launch_arguments ←
    (if truthy (dict_get system_config "gamescope_fps_limiter") then
       gamescope_fps_limiter ← getitem system_config "gamescope_fps_limiter";
       mret (VStr "-r" :: gamescope_fps_limiter :: launch_arguments)
     else mret launch_arguments);
  launch_arguments ←
    (if truthy (dict_get system_config "gamescope_output_res") then
       res ← getitem system_config "gamescope_output_res";
       '(output_width, output_height) ← split_resolution res;
       mret (VStr "-W" :: VStr output_width :: VStr "-H" :: VStr output_height :: launch_arguments)
     else mret launch_arguments);
  launch_arguments ←
    (if truthy (dict_get system_config "gamescope_game_res") then
       res ← getitem system_config "gamescope_game_res";
       '(game_width, game_height) ← split_resolution res;
       mret (VStr "-w" :: VStr game_width :: VStr "-h" :: VStr game_height :: launch_arguments)
     else mret launch_arguments);
  mret (VStr "gamescope" :: launch_arguments).

(** *** The stages of [get_launch_parameters], in source order *)

(** [# Steam compatibility] *)
Definition steam_stage (env : gmap string value) : M (gmap string value) :=
  match environ host !! "SteamAppId" with
  | Some app_id =>
      if String.eqb app_id "" then mret env
      else
        _ ← logger INFO "Game launched from steam (AppId: %s)";
        mret (<["LC_ALL" := VStr ""]> env)
  | None => mret env
  end.

(** [# Set correct LC_ALL depending on user settings] *)
Definition locale_stage (system_config : gmap string value) (env : gmap string value)
    : M (gmap string value) :=
  locale ← getitem system_config "locale";
  if decide (locale = VStr "") then mret env
  else mret (<["LC_ALL" := locale]> env).

(** [# Optimus] *)
Definition optimus_stage (system_config : gmap string value) (launch_arguments : list value)
    : list value :=
  let optimus := dict_get system_config "optimus" in
  if bool_decide (optimus = VStr "primusrun") && can_find_executable host "primusrun"
  then VStr "primusrun" :: launch_arguments
  else if bool_decide (optimus = VStr "optirun") && can_find_executable host "optirun"
  then VStr "optirun" :: VStr "-b" :: VStr "virtualgl" :: launch_arguments
  else if bool_decide (optimus = VStr "pvkrun") && can_find_executable host "pvkrun"
  then VStr "pvkrun" :: launch_arguments
  else launch_arguments.

(** [# MangoHud] *)
Definition mangohud_stage (system_config : gmap string value)
    (launch_arguments : list value) (env : gmap string value)
    : list value * gmap string value :=
  match get_mangohud_conf system_config with
  | (Some ((_ :: _) as mango_args), Some mango_env) =>
      (mango_args ++ launch_arguments, mango_env ∪ env)
  | _ => (launch_arguments, env)
  end.

Definition is_MissingExecutableError (e : exn) : bool :=
  match e with MissingExecutableError _ => true | _ => false end.

(** [# Libstrangle] *)
Definition libstrangle_stage (system_config : gmap string value)
    (launch_arguments : list value) : M (list value) :=
  let fps_limit := py_or (dict_get system_config "fps_limit") (VStr "") in
  if truthy fps_limit then
    try_except
      (strangle_cmd ← find_executable host "strangle";
       mret (VStr strangle_cmd :: fps_limit :: launch_arguments))
      is_MissingExecutableError
      (_ ← logger WARNING "libstrangle is not available on this system, FPS limiter disabled";
       mret launch_arguments)
  else mret launch_arguments.

(** [prefix_command] *)
Definition prefix_command_stage (system_config : gmap string value)
    (launch_arguments : list value) : M (list value) :=
  let prefix_command := py_or (dict_get system_config "prefix_command") (VStr "") in
  if truthy prefix_command then
    match prefix_command with
    | VStr s =>
        tokens ← shlex_split_value host (VStr (expandvars host s));
        mret (strs tokens ++ launch_arguments)
    | _ => raise TypeError
    end
  else mret launch_arguments.

(** [single_cpu] *)
Definition single_cpu_stage (system_config : gmap string value)
    (launch_arguments : list value) : M (list value) :=
  let single_cpu := py_or (dict_get system_config "single_cpu") (VBool false) in
  if truthy single_cpu then
    let limit_cpu_count := dict_get system_config "limit_cpu_count" in
    limit_cpu_count ←
      (if truthy limit_cpu_count then
         match limit_cpu_count with
         | VStr s =>
             if Py.isnumeric s then
               match Py.int s with
               | Some n => mret n
               | None => raise ValueError
               end
             else mret 1%N
         | _ => raise AttributeError
         end
       else mret 1%N);
    let limit_cpu_count := N.max 1 limit_cpu_count in
    _ ← logger INFO "The game will run on %d CPU core(s)";
    mret (VStr "taskset" :: VStr "-c"
          :: VStr ("0-" +:+ Py.format_d (limit_cpu_count - 1)) :: launch_arguments)
  else mret launch_arguments.

(** [env.update(runner.get_env())], [env.update(gameplay_info.get("env") or {})],
    [# LD_PRELOAD] and [# LD_LIBRARY_PATH] *)
Definition environment_stage (runner : Runner) (gameplay_info : GameplayInfo)
    (env : gmap string value) : M (gmap string value) :=
  let env := (VStr <$> get_env runner) ∪ env in
  let env := (VStr <$> default ∅ (gi_env gameplay_info)) ∪ env in
  let env :=
    match gi_ld_preload gameplay_info with
    | Some ld_preload =>
        if String.eqb ld_preload "" then env else <["LD_PRELOAD" := VStr ld_preload]> env
    | None => env
    end in
  match gi_ld_library_path gameplay_info with
  | Some game_ld_library_path =>
      if String.eqb game_ld_library_path "" then mret env
      else
        let ld_library_path := dict_get env "LD_LIBRARY_PATH" in
        match join_values ":" (filter (fun v => truthy v = true)
                                 [VStr game_ld_library_path; ld_library_path]) with
        | Some joined => mret (<["LD_LIBRARY_PATH" := VStr joined]> env)
        | None => raise TypeError
        end
  | None => mret env
  end.

(** [# Feral gamemode] *)
Definition gamemode_stage (system_config : gmap string value) (launch_arguments : list value)
    : list value :=
  if truthy (dict_get system_config "gamemode") && gamemode_available host
  then VStr "gamemoderun" :: launch_arguments
  else launch_arguments.

(** [# Gamescope] *)
Definition gamescope_stage (system_config : gmap string value) (launch_arguments : list value)
    : M (list value) :=
  if truthy (dict_get system_config "gamescope") && can_find_executable host "gamescope"
  then get_gamescope_args launch_arguments system_config
  else mret launch_arguments.

(** The command vector is followed as a value.  (The insertions in place
    also change the list that [gameplay_info] holds, up to the first stage
    that builds a new list; no property below reads that list again.) *)
Definition get_launch_parameters (runner : Runner) (gameplay_info : GameplayInfo)
    : M (list value * gmap string value) :=
  let system_config := system_config runner in
  launch_arguments ←
    match gi_command gameplay_info with
    | Some c => mret c
    | None => raise (KeyError "command")
    end;
  let env : gmap string value := {[ "DISABLE_LAYER_AMD_SWITCHABLE_GRAPHICS_1" := VStr "1" ]} in
  env ← steam_stage env;
  env ← locale_stage system_config env;
  let launch_arguments := optimus_stage system_config launch_arguments in
  let '(launch_arguments, env) := mangohud_stage system_config launch_arguments env in
  launch_arguments ← libstrangle_stage system_config launch_arguments;
  launch_arguments ← prefix_command_stage system_config launch_arguments;
  launch_arguments ← single_cpu_stage system_config launch_arguments;
  env ← environment_stage runner gameplay_info env;
  let launch_arguments := gamemode_stage system_config launch_arguments in
  launch_arguments ← gamescope_stage system_config launch_arguments;
  mret (launch_arguments, env).

End RunnerInterpreter.

(** ** lutris/util/wine/wine.py *)

(** [for x in l: acc = step(acc, x)] with effects. *)
Fixpoint for_each {A B : Type} (step : B -> A -> M B) (l : list A) (acc : B) : M B :=
  match l with
  | [] => mret acc
  | x :: l' => acc' ← step acc x; for_each step l' acc'
  end.

(** [d[k] = v] on an insertion-ordered dict: an existing key keeps its
    place, a new one goes last. *)
Fixpoint odict_setitem {V : Type} (k : string) (v : V) (d : list (string * V)) : list (string * V) :=
  match d with
  | [] => [(k, v)]
  | (k', v') :: d' =>
      if String.eqb k k' then (k, v) :: d' else (k', v') :: odict_setitem k v d'
  end.

Fixpoint odict_lookup {V : Type} (k : string) (d : list (string * V)) : option V :=
  match d with
  | [] => None
  | (k', v') :: d' => if String.eqb k k' then Some v' else odict_lookup k d'
  end.

(** [d.update(other)] *)
Definition odict_update {V : Type} (d other : list (string * V)) : list (string * V) :=
  foldl (fun acc kv => odict_setitem kv.1 kv.2 acc) d other.

Section Wine.
Variable host : Host.

Definition WINE_DIR : string := Py.path_join (RUNNER_DIR host) "wine".

Definition WINE_PATHS_static : gmap string string :=
  {[ "winehq-devel" := "/opt/wine-devel/bin/wine";
     "winehq-staging" := "/opt/wine-staging/bin/wine";
     "wine-development" := "/usr/lib/wine-development/wine";
     "system" := "wine" ]}.

(** [WINE_PATHS] after the module has been loaded: the static table and an
    entry for every system-wide installation found under [/usr/lib/]. *)
Definition WINE_PATHS : gmap string string :=
  match listdir host "/usr/lib/" with
  | Some candidates =>
      foldl (fun paths _candidate =>
               if Py.startswith "wine-" _candidate then
                 let _wine_path :=
                   Py.path_join (Py.path_join "/usr/lib/" _candidate) "bin/wine" in
                 if os_path_isfile host _wine_path
                 then <["System " +:+ _candidate := _wine_path]> paths
                 else paths
               else paths)
            WINE_PATHS_static candidates
  | None => WINE_PATHS_static
  end.

(** The paths the generator yields, in order. *)
Definition _iter_proton_locations : list string :=
  match get_steamapps_dirs host with
  | None => []
  | Some steamapp_dirs =>
      filter (fun path => os_path_isdir host path = true)
             ((fun p => Py.path_join p "common") <$> steamapp_dirs)
      ++ filter (fun path => os_path_isdir host path = true)
                ((fun p => Py.path_join p "") <$> steamapp_dirs)
  end.

(** [list(s)] of a [set] of strings: its elements, each once, in the order
    of the hash table, which is not the same from one process to the
    next. *)
Definition list_of_set (s : gset string) : list string :=
  @merge_sort string (fun x y => hash_order host s x <= hash_order host s y)
    (fun x y => decide (hash_order host s x <= hash_order host s y)) (elements s).

(** The folders are collected in a [set], and returned as [list(paths)]. *)
Definition get_proton_paths : M (list string) :=
  paths ← for_each
    (fun (paths : gset string) path =>
       match listdir host path with
       | None => raise OSError
       | Some entries =>
           let proton_versions := filter (fun p => Py.contains "Proton" p = true) entries in
           for_each
             (fun (paths : gset string) version =>
                dist ← path_exists host
                  (Py.path_join (Py.path_join path version) "dist/bin/wine") false false;
                let paths := if (dist : bool) then {[ path ]} ∪ paths else paths in
                files ← path_exists host
                  (Py.path_join (Py.path_join path version) "files/bin/wine") false false;
                mret (if (files : bool) then {[ path ]} ∪ paths else paths))
             proton_versions paths
       end)
    _iter_proton_locations ∅;
  mret (list_of_set paths).

(** The loop over [get_proton_paths()] in [get_wine_path_for_version]:
    the first runtime found, or [None] when the loop ends without a
    [return]. *)
Fixpoint find_proton_wine (proton_paths : list string) (version : string) : option string :=
  match proton_paths with
  | [] => None
  | proton_path :: rest =>
      let dist := Py.path_join (Py.path_join proton_path version) "dist/bin/wine" in
      let files := Py.path_join (Py.path_join proton_path version) "files/bin/wine" in
      if os_path_isfile host dist then Some dist
      else if os_path_isfile host files then Some files
      else find_proton_wine rest version
  end.

Definition get_wine_path_for_version (version : value) (config : option (gmap string value))
    : M value :=
  version ←
    (if negb (truthy version) && bool_decide (config ≠ None ∧ config ≠ Some ∅)
     then getitem (default ∅ config) "version"
     else mret version);
  if negb (truthy version) then raise UnspecifiedVersionError
  else
    match (match version with VStr s => WINE_PATHS !! s | _ => None end) with
    | Some build =>
        exe ← find_executable host build;
        mret (VStr exe)
    | None =>
        match version with
        | VStr version_str =>
            found ←
              (if Py.contains "Proton" version_str then
                 proton_paths ← get_proton_paths;
                 mret (find_proton_wine proton_paths version_str)
               else mret None);
            match found with
            | Some path => mret (VStr path)
            | None =>
                if String.eqb version_str "custom" then
                  match config with
                  | None =>
                      raise (RuntimeError
                        "Custom wine paths are only supported when a configuration is available.")
                  | Some config =>
                      let wine_path := dict_get config "custom_wine_path" in
                      if negb (truthy wine_path) then
                        raise (RuntimeError
                          "The 'custom' Wine version can be used only if the custom wine path is set.")
                      else mret wine_path
                  end
                else
                  mret (VStr (Py.path_join (Py.path_join WINE_DIR version_str) "bin/wine"))
            end
        | _ => raise TypeError
        end
    end.

End Wine.

(** The [OrderedDict] of buckets that [get_overrides_env] fills. *)
Definition override_buckets_init : list (string * list string) :=
  [("n,b", []); ("b,n", []); ("b", []); ("n", []); ("d", []); ("", [])].

(** [override_buckets[value].append(dll)]; [None] for the [KeyError] of a
    value that names no bucket. *)
Fixpoint bucket_append (value dll : string) (buckets : list (string * list string))
    : option (list (string * list string)) :=
  match buckets with
  | [] => None
  | (key, dlls) :: rest =>
      if String.eqb value key then Some ((key, dlls ++ [dll]) :: rest)
      else (fun r => (key, dlls) :: r) <$> bucket_append value dll rest
  end.

(** The rewriting of one override value in the loop body. *)
Definition normalize_override (value : option string) : string :=
  let value := match value with Some s => s | None => "" end in
  let value := Py.replace " " "" value in
  let value := Py.replace "builtin" "b" value in
  let value := Py.replace "native" "n" value in
  Py.replace "disabled" "" value.

Definition default_overrides : odict := [("winemenubuilder", Some "")].

(** [overrides] is the reference the caller passes: the update is made on
    the caller's object. *)
Definition get_overrides_env (overrides : ref) : M string :=
  d ← read_dict overrides;
  _ ← write_dict overrides (odict_update d default_overrides);
  items ← read_dict overrides;
  override_buckets ← for_each
    (fun buckets '(dll, value) =>
       let value := normalize_override value in
       match bucket_append value dll buckets with
       | Some buckets' => mret buckets'
       | None =>
           _ ← logger ERROR "Invalid override value %s";
           mret buckets
       end)
    items override_buckets_init;
  let override_strings :=
    omap (fun '(value, dlls) =>
            match dlls with
            | [] => None
            | _ => Some (Py.join "," (Py.sorted dlls) +:+ "=" +:+ value)
            end)
         override_buckets in
  mret (Py.join ";" override_strings).

(** ** Definitions used in the statements *)

(** The state after some more records have been logged. *)
Definition add_log (l : list log_record) (st : state) : state :=
  State (log st ++ l) (fsr_memo st) (dicts st).

(** The state after the dictionary at [r] has been replaced. *)
Definition set_dict (r : ref) (d : odict) (st : state) : state :=
  State (log st) (fsr_memo st) (fun r' => if Nat.eqb r' r then d else dicts st r').

(** *** [get_overrides_env], as the specification words it

    The DLLs are put into buckets by mode; the buckets are serialized in the
    order [n,b], [b,n], [b], [n], [d], empty, as [dll1,dll2=mode], and joined
    by semicolons. *)
Definition bucket_order : list string := ["n,b"; "b,n"; "b"; "n"; "d"; ""].

Definition bucket_members (items : odict) (mode : string) : list string :=
  (filter (fun kv => normalize_override kv.2 = mode) items).*1.

Definition serialize_bucket (items : odict) (mode : string) : option string :=
  match bucket_members items mode with
  | [] => None
  | dlls => Some (Py.join "," (Py.sorted dlls) +:+ "=" +:+ mode)
  end.

Definition serialize_overrides (items : odict) : string :=
  Py.join ";" (omap (serialize_bucket items) bucket_order).

(** *** Hosts and inputs of the examples *)

(** A host for examples: the tools named in [tools] are found under
    [/usr/bin/], no file exists, [shlex.split] splits at single spaces, and
    every process start has the outcome [outcome]. *)
Definition example_host (tools : list string) (outcome : popen_outcome) (gamemode : bool) : Host := {|
  which := fun name => if bool_decide (name ∈ tools) then Some ("/usr/bin/" +:+ name) else None;
  environ := ∅;
  os_path_exists := fun _ => false;
  os_path_islink := fun _ => false;
  os_path_isfile := fun _ => false;
  os_path_isdir := fun _ => false;
  expanduser := fun s => s;
  st_size := fun _ => 0%N;
  listdir := fun _ => None;
  expandvars := fun s => s;
  shlex_split := fun s => Some (Py.split " "%char s);
  popen := fun _ => outcome;
  gamemode_available := gamemode;
  RUNNER_DIR := "/home/user/.local/share/lutris/runners";
  get_steamapps_dirs := None;
  hash_order := fun _ _ => 0
|}.

(** A host on which nothing is installed and no process can be started. *)
Definition bare_host : Host := example_host [] PopenOSError false.

Definition init_state : state := State [] None (fun _ => []).

(** The mapping [{"d3d9": "native", "mscoree": "disabled"}]. *)
Definition d3d9_mscoree : odict := [("d3d9", Some "native"); ("mscoree", Some "disabled")].

(** The buckets after the loop of [get_overrides_env] has seen [items]. *)
Definition buckets_of (items : odict) : list (string * list string) :=
  (fun mode => (mode, bucket_members items mode)) <$> bucket_order.

(** The records the loop logs: one per entry whose value names no bucket. *)
Definition invalid_override_log (items : odict) : list log_record :=
  (fun _ => (ERROR, "Invalid override value %s")) <$>
  filter (fun kv => normalize_override kv.2 ∉ bucket_order) items.

(** *** The invariant of the Version Registry, as the specification words it

    "Version Registry never returns a path for a version string it cannot
    locate": whatever [get_wine_path_for_version] returns is a path at which
    something exists. *)
Definition returns_located_paths (host : Host) : Prop :=
  forall version config st r st',
    get_wine_path_for_version host version config st = (Ok r, st') ->
    exists p, r = VStr p /\ os_path_exists host p = true.

(** *** Records and tokens of the launch stages *)

(** The record that the FPS limiter stage logs when [strangle] is missing. *)
Definition strangle_warning : log_record :=
  (WARNING, "libstrangle is not available on this system, FPS limiter disabled").

(** The record that the CPU affinity stage logs. *)
Definition single_cpu_info : log_record := (INFO, "The game will run on %d CPU core(s)").

Definition taskset_tokens (n : N) : list value :=
  [VStr "taskset"; VStr "-c"; VStr ("0-" +:+ Py.format_d (N.max 1 n - 1))].


(** *** When the stages can be carried out

    The conditions under which no stage raises: they are what the values
    of the configuration must look like where a stage reads them. *)

(** The call that probes the help text of gamescope. *)
Definition gamescope_help_call (host : Host) : popen_call :=
  PopenCall ["gamescope"; "--help"] false true (get_environment host) None None.

(** The FSR option is at hand: it is in the memo, or gamescope is not
    installed, or its help text can be read. *)
Definition fsr_probe_ok (host : Host) (st : state) : bool :=
  match fsr_memo st with
  | Some _ => true
  | None =>
      negb (can_find_executable host "gamescope") ||
      match popen host (gamescope_help_call host) with
      | Completed _ _ => true
      | _ => false
      end
  end.

(** A resolution that is set is a [str] with exactly one [x] (in either
    case). *)
Definition resolution_ok (v : value) : bool :=
  negb (truthy v) ||
  match v with
  | VStr s => bool_decide (length (Py.split "x"%char (Py.lower s)) = 2)
  | _ => false
  end.

(** Flags that are set are a [str] that [shlex.split] accepts. *)
Definition shlex_ok (host : Host) (v : value) : bool :=
  negb (truthy v) ||
  match v with
  | VStr s => bool_decide (is_Some (shlex_split host s))
  | _ => false
  end.

Definition gamescope_args_ok (host : Host) (system_config : gmap string value) (st : state)
    : bool :=
  (negb (truthy (dict_get system_config "gamescope_fsr_sharpness")) || fsr_probe_ok host st)
  && shlex_ok host (dict_get system_config "gamescope_flags")
  && resolution_ok (dict_get system_config "gamescope_output_res")
  && resolution_ok (dict_get system_config "gamescope_game_res").

(** A prefix command that is set is a [str] whose expansion [shlex.split]
    accepts. *)
Definition prefix_command_ok (host : Host) (system_config : gmap string value) : bool :=
  match dict_get system_config "prefix_command" with
  | VStr s => String.eqb s "" || bool_decide (is_Some (shlex_split host (expandvars host s)))
  | VBool b => negb b
  | VNone => true
  end.

(** With [single_cpu] set, a [limit_cpu_count] that is set is a [str], and
    if it is numeric then it consists of decimal digits. *)
Definition limit_cpu_count_ok (system_config : gmap string value) : bool :=
  negb (truthy (dict_get system_config "single_cpu")) ||
  match dict_get system_config "limit_cpu_count" with
  | VStr s => negb (Py.isnumeric s) || Py.all_chars Py.is_decimal_digit s
  | VBool b => negb b
  | VNone => true
  end.

(** The inputs on which [get_launch_parameters] returns. *)
Definition launchable (host : Host) (runner : Runner) (gameplay_info : GameplayInfo)
    (st : state) : bool :=
  let system_config := system_config runner in
  bool_decide (is_Some (gi_command gameplay_info))
  && bool_decide (is_Some (system_config !! "locale"))
  && prefix_command_ok host system_config
  && limit_cpu_count_ok system_config
  && (negb (truthy (dict_get system_config "gamescope") && can_find_executable host "gamescope")
      || gamescope_args_ok host system_config st).

(** The tokens of the output resolution 1920x1080. *)
Definition output_1920x1080 : list value :=
  [VStr "-W"; VStr "1920"; VStr "-H"; VStr "1080"].

(** The computation returns a result from [st]. *)
Definition returns {A : Type} (m : M A) (st : state) : Prop :=
  exists a st', m st = (Ok a, st').

(** *** Judgements on computations *)

(** Every exception that [m] raises satisfies [P]. *)
Definition raises_only {A : Type} (m : M A) (P : exn -> Prop) : Prop :=
  forall st e st', m st = (Raise e, st') -> P e.

(** [ValueError], [TypeError] and [AttributeError]: what a stage raises on a
    value of the wrong shape. *)
Definition shape_error (e : exn) : Prop :=
  e = ValueError \/ e = TypeError \/ e = AttributeError.

(** Whatever the outcome, the log is the old one with records added. *)
Definition grows_log {A : Type} (m : M A) : Prop :=
  forall st r st', m st = (r, st') -> exists l, log st' = log st ++ l.

(** A [str] or nothing. *)
Definition str_or_missing (o : option value) : Prop :=
  match o with
  | Some (VStr _) | None => True
  | Some _ => False
  end.

(** *** Inputs of the examples for [get_launch_parameters] *)

(** A host with gamescope, gamemode and strangle, on which processes run
    and print nothing. *)
Definition gaming_host : Host :=
  example_host ["gamescope"; "strangle"] (Completed "" "") true.

Definition runner_with (system_config : gmap string value) : Runner :=
  {| system_config := system_config; get_env := ∅ |}.

Definition game : GameplayInfo :=
  {| gi_command := Some [VStr "/games/doom"];
     gi_env := None; gi_ld_preload := None; gi_ld_library_path := None |}.

(** The command vector of a result, [[]] when the call raised. *)
Definition command_of (r : result (list value * gmap string value) * state) : list value :=
  match r with
  | (Ok (args, _), _) => args
  | _ => []
  end.

(** *** What [str.isnumeric] accepts, as Unicode has it

    Below 256 the numeric characters are the digits 0 to 9, the
    superscripts two, three and one, and the fractions one quarter, one
    half and three quarters. *)
Definition numeric_code_point (n : N) : Prop :=
  (48 <= n <= 57)%N \/ n ∈ [178; 179; 185; 188; 189; 190]%N.

(** [s] is no number: it is empty, or one of its characters is not
    numeric. *)
Definition not_numeric (s : string) : Prop :=
  s = "" \/
  exists c, c ∈ String.list_ascii_of_string s /\ ~ numeric_code_point (Py.code_point c).

(** *** Where the Version Registry takes a path from *)

(** The version that is resolved: the one asked for, or the one of the
    configuration when none is asked for. *)
Definition resolved_version (version : value) (config : option (gmap string value))
    (version_str : string) : Prop :=
  version_str <> "" /\
  (version = VStr version_str \/
   truthy version = false /\
   exists cfg, config = Some cfg /\ cfg !! "version" = Some (VStr version_str)).

(** [path] is the Proton runtime of [version_str]: a file [dist/bin/wine] or
    [files/bin/wine] of that version under one of the Proton locations, the
    first in the order in which [get_proton_paths] lists them, and [dist]
    before [files]. *)
Definition proton_runtime (host : Host) (st : state) (version_str path : string) : Prop :=
  Py.contains "Proton" version_str = true /\
  exists proton_paths st1 proton_path,
    get_proton_paths host st = (Ok proton_paths, st1) /\
    find_proton_wine host proton_paths version_str = Some path /\
    proton_path ∈ proton_paths /\ proton_path ∈ _iter_proton_locations host /\
    (path = Py.path_join (Py.path_join proton_path version_str) "dist/bin/wine" \/
     path = Py.path_join (Py.path_join proton_path version_str) "files/bin/wine") /\
    os_path_isfile host path = true.

(** No Proton location has a runtime of [version_str]. *)
Definition no_proton_runtime (host : Host) (st : state) (version_str : string) : Prop :=
  Py.contains "Proton" version_str = false \/
  exists proton_paths st1,
    get_proton_paths host st = (Ok proton_paths, st1) /\
    find_proton_wine host proton_paths version_str = None.

(** The source of the path [r] returned for [version_str], by precedence:
    the system table and the [PATH]; else a Proton runtime; else, for
    ["custom"], the configuration; else the Lutris-managed directory, which
    is not looked at. *)
Definition wine_path_source (host : Host) (config : option (gmap string value)) (st : state)
    (version_str : string) (r : value) : Prop :=
  match WINE_PATHS host !! version_str with
  | Some build => exists exe, which host build = Some exe /\ exe <> "" /\ r = VStr exe
  | None =>
      (exists path, proton_runtime host st version_str path /\ r = VStr path) \/
      no_proton_runtime host st version_str /\
      (version_str = "custom" /\
       (exists cfg, config = Some cfg /\ r = dict_get cfg "custom_wine_path") /\
       truthy r = true \/
       version_str <> "custom" /\
       r = VStr (Py.path_join (Py.path_join (WINE_DIR host) version_str) "bin/wine"))
  end.

(** ** What each stage of [get_launch_parameters] puts in front

    The tokens that the stages which need no parsing contribute, read off
    their triggers. *)

Definition optimus_tokens (host : Host) (system_config : gmap string value) : list value :=
  let optimus := dict_get system_config "optimus" in
  if bool_decide (optimus = VStr "primusrun") && can_find_executable host "primusrun"
  then [VStr "primusrun"]
  else if bool_decide (optimus = VStr "optirun") && can_find_executable host "optirun"
  then [VStr "optirun"; VStr "-b"; VStr "virtualgl"]
  else if bool_decide (optimus = VStr "pvkrun") && can_find_executable host "pvkrun"
  then [VStr "pvkrun"]
  else [].

Definition mangohud_tokens (host : Host) (system_config : gmap string value) : list value :=
  if truthy (dict_get system_config "mangohud") && can_find_executable host "mangohud"
  then [VStr "mangohud"]
  else [].

Definition strangle_tokens (host : Host) (system_config : gmap string value) : list value :=
  if truthy (dict_get system_config "fps_limit") then
    match which host "strangle" with
    | Some exe =>
        if String.eqb exe "" then [] else [VStr exe; dict_get system_config "fps_limit"]
    | None => []
    end
  else [].

Definition gamemode_tokens (host : Host) (system_config : gmap string value) : list value :=
  if truthy (dict_get system_config "gamemode") && gamemode_available host
  then [VStr "gamemoderun"]
  else [].

(** The environment before the runner's and the game's own variables are
    merged in: the fixed entry, [LC_ALL] and the MangoHud switches. *)
Definition staged_environment (host : Host) (system_config : gmap string value)
    (locale : value) : gmap string value :=
  let base : gmap string value :=
    {[ "DISABLE_LAYER_AMD_SWITCHABLE_GRAPHICS_1" := VStr "1" ]} in
  let steam :=
    match environ host !! "SteamAppId" with
    | Some app_id => if String.eqb app_id "" then base else <["LC_ALL" := VStr ""]> base
    | None => base
    end in
  let localized := if decide (locale = VStr "") then steam else <["LC_ALL" := locale]> steam in
  if truthy (dict_get system_config "mangohud") && can_find_executable host "mangohud"
  then {[ "MANGOHUD" := VStr (if truthy (dict_get system_config "gamescope") then "0" else "1");
          "MANGOHUD_DLSYM" := VStr "1" ]} ∪ localized
  else localized.

(** The variable [k] after the merge: the game's own value if it has one,
    else the runner's, else the staged one. *)
Definition merged_variable (runner : Runner) (gameplay_info : GameplayInfo)
    (staged : gmap string value) (k : string) : option value :=
  match default ∅ (gi_env gameplay_info) !! k with
  | Some v => Some (VStr v)
  | None =>
      match get_env runner !! k with
      | Some v => Some (VStr v)
      | None => staged !! k
      end
  end.

(** The shape of a returned command vector: the game's command [c] with the
    wrappers of the stages in front, the last stage outermost. *)
Definition stage_order (host : Host) (system_config : gmap string value)
    (c args : list value) : Prop :=
  exists gamescope taskset prefix,
    args = gamescope ++ gamemode_tokens host system_config ++ taskset ++ prefix
           ++ strangle_tokens host system_config
           ++ mangohud_tokens host system_config
           ++ optimus_tokens host system_config ++ c /\
    (truthy (dict_get system_config "gamescope")
     && can_find_executable host "gamescope" = false /\ gamescope = [] \/
     truthy (dict_get system_config "gamescope")
     && can_find_executable host "gamescope" = true /\
     exists options, gamescope = VStr "gamescope" :: options ++ [VStr "--"]) /\
    (truthy (dict_get system_config "single_cpu") = false /\ taskset = [] \/
     truthy (dict_get system_config "single_cpu") = true /\
     exists n, taskset = taskset_tokens n) /\
    (truthy (dict_get system_config "prefix_command") = false /\ prefix = [] \/
     exists s tokens,
       dict_get system_config "prefix_command" = VStr s /\ s <> "" /\
       shlex_split host (expandvars host s) = Some tokens /\ prefix = strs tokens).

(** A configuration that triggers every stage which [gaming_host] supports. *)
Definition every_stage_config : gmap string value :=
  {[ "locale" := VStr "fr_FR.UTF-8"; "fps_limit" := VStr "60";
     "prefix_command" := VStr "env FOO=1"; "single_cpu" := VBool true;
     "limit_cpu_count" := VStr "2"; "gamemode" := VBool true; "gamescope" := VBool true ]}.

(** How [LD_PRELOAD] and [LD_LIBRARY_PATH] of a returned environment [env]
    come about. *)
Definition ld_variables (host : Host) (runner : Runner) (gameplay_info : GameplayInfo)
    (env : gmap string value) : Prop :=
  exists locale,
    system_config runner !! "locale" = Some locale /\
    let merged := merged_variable runner gameplay_info
                    (staged_environment host (system_config runner) locale) in
    (forall p, gi_ld_preload gameplay_info = Some p -> p <> "" ->
               env !! "LD_PRELOAD" = Some (VStr p)) /\
    (gi_ld_preload gameplay_info = None \/ gi_ld_preload gameplay_info = Some "" ->
     env !! "LD_PRELOAD" = merged "LD_PRELOAD") /\
    (forall g, gi_ld_library_path gameplay_info = Some g -> g <> "" ->
       env !! "LD_LIBRARY_PATH" =
       match merged "LD_LIBRARY_PATH" with
       | Some (VStr existing) =>
           Some (VStr (if String.eqb existing "" then g else g +:+ ":" +:+ existing))
       | _ => Some (VStr g)
       end) /\
    (gi_ld_library_path gameplay_info = None \/ gi_ld_library_path gameplay_info = Some "" ->
     env !! "LD_LIBRARY_PATH" = merged "LD_LIBRARY_PATH").

(** A game that brings its own libraries, run by a runner that has some
    too. *)
Definition game_with_libraries : GameplayInfo :=
  {| gi_command := Some [VStr "/games/doom"];
     gi_env := Some {[ "LD_PRELOAD" := "ignored.so"; "SDL_VIDEODRIVER" := "x11" ]};
     gi_ld_preload := Some "libgamemodeauto.so";
     gi_ld_library_path := Some "/games/lib" |}.

Definition runner_with_libraries : Runner :=
  {| system_config := {[ "locale" := VStr "" ]};
     get_env := {[ "LD_LIBRARY_PATH" := "/runtime/lib"; "SDL_VIDEODRIVER" := "wayland" ]} |}.

(** ** The options of gamescope, part by part *)

(** The tokens of a resolution option: none when the option is unset, else
    the two flags with the two halves of the value, split at its [x]. *)
Definition resolution_tokens (width_flag height_flag : string) (v : value)
    (tokens : list value) : Prop :=
  truthy v = false /\ tokens = [] \/
  exists s w h,
    v = VStr s /\ Py.split "x"%char (Py.lower s) = [w; h] /\
    tokens = [VStr width_flag; VStr w; VStr height_flag; VStr h].

Definition fps_limiter_tokens (system_config : gmap string value) : list value :=
  if truthy (dict_get system_config "gamescope_fps_limiter")
  then [VStr "-r"; dict_get system_config "gamescope_fps_limiter"]
  else [].

Definition window_mode_tokens (system_config : gmap string value) : list value :=
  if truthy (dict_get system_config "gamescope_window_mode")
  then [dict_get system_config "gamescope_window_mode"]
  else [].

Definition grab_cursor_tokens (system_config : gmap string value) : list value :=
  if truthy (dict_get system_config "gamescope_force_grab_cursor")
  then [VStr "--force-grab-cursor"]
  else [].

Definition flags_tokens (host : Host) (system_config : gmap string value)
    (tokens : list value) : Prop :=
  truthy (dict_get system_config "gamescope_flags") = false /\ tokens = [] \/
  exists s flags,
    dict_get system_config "gamescope_flags" = VStr s /\
    shlex_split host s = Some flags /\ tokens = strs flags.

(** What [_get_gamescope_fsr_option] returns from [st]: the memo if there is
    one; else [-U] when gamescope is not found, and otherwise [-F fsr] or
    [-U] by the help text. *)
Definition fsr_option_from (host : Host) (st : state) (fsr_option : list string) : Prop :=
  fsr_memo st = Some fsr_option \/
  fsr_memo st = None /\
  (can_find_executable host "gamescope" = false /\ fsr_option = ["-U"] \/
   can_find_executable host "gamescope" = true /\
   exists out err,
     popen host (gamescope_help_call host) = Completed out err /\
     fsr_option = if Py.contains "-F, --filter" (Py.strip out +:+ Py.strip err)
                  then ["-F"; "fsr"] else ["-U"]).

Definition fsr_tokens (host : Host) (system_config : gmap string value) (st : state)
    (tokens : list value) : Prop :=
  truthy (dict_get system_config "gamescope_fsr_sharpness") = false /\ tokens = [] \/
  truthy (dict_get system_config "gamescope_fsr_sharpness") = true /\
  exists fsr_option,
    fsr_option_from host st fsr_option /\
    tokens = strs fsr_option
             ++ [VStr "--fsr-sharpness"; dict_get system_config "gamescope_fsr_sharpness"].

(** The vector that [get_gamescope_args] builds around [launch_arguments]. *)
Definition gamescope_vector (host : Host) (system_config : gmap string value) (st : state)
    (launch_arguments la : list value) : Prop :=
  exists game_res output_res flags fsr,
    la = VStr "gamescope" :: game_res ++ output_res
         ++ fps_limiter_tokens system_config ++ window_mode_tokens system_config
         ++ flags ++ fsr ++ grab_cursor_tokens system_config
         ++ VStr "--" :: launch_arguments /\
    resolution_tokens "-w" "-h" (dict_get system_config "gamescope_game_res") game_res /\
    resolution_tokens "-W" "-H" (dict_get system_config "gamescope_output_res") output_res /\
    flags_tokens host system_config flags /\
    fsr_tokens host system_config st fsr.

(** A configuration that sets every option of gamescope. *)
Definition every_gamescope_option : gmap string value :=
  {[ "gamescope_force_grab_cursor" := VBool true; "gamescope_fsr_sharpness" := VStr "3";
     "gamescope_flags" := VStr "--rt --hdr-enabled"; "gamescope_window_mode" := VStr "-f";
     "gamescope_fps_limiter" := VStr "60"; "gamescope_output_res" := VStr "2560X1440";
     "gamescope_game_res" := VStr "1280x720" ]}.

(** A host whose gamescope documents the [--filter] option. *)
Definition gamescope_3_12_host : Host :=
  example_host ["gamescope"] (Completed "  -F, --filter  upscaler filter" "") false.

(** The exceptions that can leave [get_launch_parameters]. *)
Definition launch_exception (runner : Runner) (gameplay_info : GameplayInfo) (e : exn) : Prop :=
  e = KeyError "command" /\ gi_command gameplay_info = None \/
  e = KeyError "locale" /\ system_config runner !! "locale" = None \/
  e = ValueError \/ e = TypeError \/ e = AttributeError.

(** ** The environment of a subprocess *)

(** The variable [k] as a subprocess inherits it: the variables whose name
    starts with [BASH_FUNC] are not handed down. *)
Definition inherited_variable (host : Host) (k : string) : option string :=
  if Py.startswith "BASH_FUNC" k then None else environ host !! k.

(** The variable [k] of a subprocess started with the extra variables [env]:
    the caller's value when it gives one, else the inherited one. *)
Definition subprocess_variable (host : Host) (env : option (gmap string (option string)))
    (k : string) : option string :=
  match default ∅ env !! k with
  | Some (Some v) => Some v
  | _ => inherited_variable host k
  end.

(** The call of [subprocess.Popen] that [_execute] makes: its arguments are
    handed on as they are, and the environment is the overlay. *)
Definition subprocess_call (host : Host) (command : list string)
    (env : option (gmap string (option string))) (cwd : option string)
    (capture_stderr shell : bool) (timeout : option N) (call : popen_call) : Prop :=
  pc_command call = command /\ pc_shell call = shell /\
  pc_capture_stderr call = capture_stderr /\ pc_cwd call = cwd /\
  pc_timeout call = timeout /\
  forall k, pc_env call !! k = subprocess_variable host env k.

(** A host with a shell function in its environment, on which [env] prints
    two lines. *)
Definition bash_host : Host := {|
  which := fun name => Some ("/usr/bin/" +:+ name);
  environ := {[ "HOME" := "/home/user"; "LANG" := "C"; "BASH_FUNC_which%%" := "() {  }" ]};
  os_path_exists := fun _ => true;
  os_path_islink := fun _ => false;
  os_path_isfile := fun _ => true;
  os_path_isdir := fun _ => false;
  expanduser := fun s => s;
  st_size := fun _ => 1%N;
  listdir := fun _ => None;
  expandvars := fun s => s;
  shlex_split := fun s => Some (Py.split " "%char s);
  popen := fun _ => Completed " HOME=/tmp
LANG=C
" "warning
";
  gamemode_available := false;
  RUNNER_DIR := "/home/user/.local/share/lutris/runners";
  get_steamapps_dirs := None;
  hash_order := fun _ _ => 0
|}.

(** ** lutris/util/wine/wine.py, the lists of versions *)

Section WineVersions.
Variable host : Host.

(** The loop returns at the first build that is found; the builds are looked
    up without any effect, so the order in which [WINE_PATHS.values()] gives
    them does not show. *)
Definition is_installed_systemwide : bool :=
  existsb (can_find_executable host) (map_to_list (WINE_PATHS host)).*2.

Definition list_proton_versions : M (list string) :=
  proton_paths ← get_proton_paths host;
  for_each
    (fun (versions : list string) proton_path =>
       match listdir host proton_path with
       | None => raise OSError
       | Some entries =>
           let proton_versions := filter (fun p => Py.contains "Proton" p = true) entries in
           mret (foldl
             (fun (versions : list string) version =>
                let path := Py.path_join (Py.path_join proton_path version) "dist/bin/wine" in
                let versions :=
                  if os_path_isfile host path then versions ++ [version] else versions in
                let path := Py.path_join (Py.path_join proton_path version) "files/bin/wine" in
                if os_path_isfile host path then versions ++ [version] else versions)
             versions proton_versions)
       end)
    proton_paths [].

End WineVersions.

(** An entry of [WINE_PATHS] for a system-wide installation
    [/usr/lib/wine-*]. *)
Definition system_wine_entry (host : Host) (name build : string) : Prop :=
  exists candidates candidate,
    listdir host "/usr/lib/" = Some candidates /\ candidate ∈ candidates /\
    Py.startswith "wine-" candidate = true /\
    name = "System " +:+ candidate /\
    build = Py.path_join (Py.path_join "/usr/lib/" candidate) "bin/wine" /\
    os_path_isfile host build = true.

(** The answer of [path_exists(path)] with its default flags. *)
Definition present (host : Host) (path : string) : bool :=
  negb (String.eqb path "") &&
  (let path := if Py.startswith "~" path then expanduser host path else path in
   os_path_exists host path || os_path_islink host path).

(** The location [path] holds a Proton version with a Wine binary. *)
Definition holds_proton (host : Host) (path : string) : Prop :=
  exists entries version,
    listdir host path = Some entries /\ version ∈ entries /\
    Py.contains "Proton" version = true /\
    (present host (Py.path_join (Py.path_join path version) "dist/bin/wine") = true \/
     present host (Py.path_join (Py.path_join path version) "files/bin/wine") = true).

(** A computation whose result does not depend on the state, and which only
    adds to the log. *)
Definition stateless {A : Type} (m : M A) : Prop :=
  exists r, forall st, exists l, m st = (r, add_log l st).

(** The exceptions that can leave [get_wine_path_for_version]. *)
Definition wine_path_exception (host : Host) (e : exn) : Prop :=
  e = UnspecifiedVersionError \/ e = KeyError "version" \/
  (exists build, e = MissingExecutableError build /\ can_find_executable host build = false) \/
  e = OSError \/ (exists msg, e = RuntimeError msg) \/ e = TypeError.

(** A host with one Steam library that holds two Proton versions and a game;
    [wine-9.0] is installed system-wide, and only [wine] is on the [PATH]. *)
Definition proton_host : Host := {|
  which := fun name => if String.eqb name "wine" then Some "/usr/bin/wine" else None;
  environ := ∅;
  os_path_exists := fun p =>
    bool_decide (p ∈ ["/steam/steamapps/common/Proton 8.0/dist/bin/wine";
                      "/steam/steamapps/common/Proton - Experimental/files/bin/wine"]);
  os_path_islink := fun _ => false;
  os_path_isfile := fun p =>
    bool_decide (p ∈ ["/steam/steamapps/common/Proton 8.0/dist/bin/wine";
                      "/steam/steamapps/common/Proton - Experimental/files/bin/wine";
                      "/usr/lib/wine-9.0/bin/wine"]);
  os_path_isdir := fun p => String.eqb p "/steam/steamapps/common";
  expanduser := fun s => s;
  st_size := fun _ => 1%N;
  listdir := fun p =>
    if String.eqb p "/steam/steamapps/common"
    then Some ["Proton 8.0"; "Half-Life"; "Proton - Experimental"]
    else if String.eqb p "/usr/lib/" then Some ["wine-9.0"; "python3"]
    else None;
  expandvars := fun s => s;
  shlex_split := fun s => Some (Py.split " "%char s);
  popen := fun _ => PopenOSError;
  gamemode_available := false;
  RUNNER_DIR := "/home/user/.local/share/lutris/runners";
  get_steamapps_dirs := Some ["/steam/steamapps"];
  hash_order := fun _ _ => 0
|}.

(** ** lutris/util/system.py, [python_identifier] *)

(** [\w] in a [str] pattern, on code points below 256: the ASCII letters and
    digits, the underscore, and the letters and numeric characters of
    Latin-1. *)
Definition is_word_char (c : ascii) : bool :=
  let n := Py.code_point c in
  ((48 <=? n) && (n <=? 57) || (65 <=? n) && (n <=? 90) || (n =? 95)
   || (97 <=? n) && (n <=? 122)
   || (n =? 170) || (n =? 178) || (n =? 179) || (n =? 181) || (n =? 185) || (n =? 186)
   || (188 <=? n) && (n <=? 190)
   || (192 <=? n) && (n <=? 214) || (216 <=? n) && (n <=? 246) || (248 <=? n))%N.

(** The class of the pattern: a word character or a dash. *)
Definition is_identifier_char (c : ascii) : bool := is_word_char c || Ascii.eqb c "-".

(** How many characters the starred class takes at the start of [s]: as
    many as there are. *)
Fixpoint identifier_run (s : string) : nat :=
  match s with
  | EmptyString => 0
  | String c s' => if is_identifier_char c then S (identifier_run s') else 0
  end.

(** The length of the match of the pattern at the start of [s], if there is
    one: [${], any number of characters of the class, and [}].  The closing
    brace is no character of the class, so giving back characters of the
    run never makes a match. *)
Definition match_identifier (s : string) : option nat :=
  match s with
  | String "$" (String "{" rest) =>
      let run := identifier_run rest in
      match String.get run rest with
      | Some "}"%char => Some (run + 3)
      | _ => None
      end
  | _ => None
  end.

(** [_dashrepl] on one character of the match: [replace("-", "_")] puts one
    character for one, so every other character stays where it is. *)
Definition _dashrepl (c : ascii) : ascii := if Ascii.eqb c "-" then "_"%char else c.

(** [re.sub(pattern, _dashrepl, s)]: the matches are taken from the left and
    do not overlap.  [inside] counts the characters of the current match
    that are still to come. *)
Fixpoint sub_identifier (inside : nat) (s : string) : string :=
  match s with
  | EmptyString => EmptyString
  | String c s' =>
      match inside with
      | S k => String (_dashrepl c) (sub_identifier k s')
      | O =>
          match match_identifier s with
          | Some n => String (_dashrepl c) (sub_identifier (n - 1) s')
          | None => String c (sub_identifier 0 s')
          end
      end
  end.

Definition python_identifier (unsafe_string : value) : M value :=
  match unsafe_string with
  | VStr s => mret (VStr (sub_identifier 0 s))
  | _ =>
      _ ← logger ERROR "Cannot convert %s to a python identifier";
      mret VNone
  end.

(** [t] is [s] with some of its dashes turned into underscores. *)
Inductive dashes_replaced : string -> string -> Prop :=
| dashes_replaced_nil : dashes_replaced "" ""
| dashes_replaced_same c s t : dashes_replaced s t -> dashes_replaced (String c s) (String c t)
| dashes_replaced_dash s t : dashes_replaced s t -> dashes_replaced (String "-" s) (String "_" t).

(** ** More of Python's strings and of [posixpath] *)

Module PosixPath.

(** [s.endswith(suffix)] *)
Fixpoint endswith (suffix s : string) : bool :=
  String.eqb suffix s ||
  match s with
  | EmptyString => false
  | String _ s' => endswith suffix s'
  end.

(** [s.lstrip(ch)], [s.rstrip(ch)] and [s.strip(ch)] for one character. *)
Fixpoint lstrip_char (ch : ascii) (s : string) : string :=
  match s with
  | EmptyString => EmptyString
  | String c s' => if Ascii.eqb c ch then lstrip_char ch s' else s
  end.

Fixpoint rstrip_char (ch : ascii) (s : string) : string :=
  match s with
  | EmptyString => EmptyString
  | String c s' =>
      match rstrip_char ch s' with
      | EmptyString => if Ascii.eqb c ch then EmptyString else String c EmptyString
      | r => String c r
      end
  end.

Definition strip_char (ch : ascii) (s : string) : string := rstrip_char ch (lstrip_char ch s).

(** [p[:p.rfind("/") + 1]]: [p] up to its last slash. *)
Fixpoint dir_head (p : string) : string :=
  match p with
  | EmptyString => EmptyString
  | String c p' =>
      match dir_head p' with
      | EmptyString => if Ascii.eqb c "/" then "/" else EmptyString
      | head => String c head
      end
  end.

(** [os.path.basename]: [p[p.rfind("/") + 1:]], [p] after its last slash. *)
Fixpoint basename (p : string) : string :=
  match p with
  | EmptyString => EmptyString
  | String c p' =>
      if Py.contains "/" p' then basename p'
      else if Ascii.eqb c "/" then p' else p
  end.

(** [head == "/" * len(head)] *)
Definition all_slashes (head : string) : bool :=
  Py.all_chars (fun c => Ascii.eqb c "/") head.

(** [os.path.dirname]: the head, without its trailing slashes unless it
    consists of slashes only. *)
Definition dirname (p : string) : string :=
  let head := dir_head p in
  if negb (String.eqb head "") && negb (all_slashes head)
  then rstrip_char "/" head
  else head.

End PosixPath.

(** ** lutris/util/wine/wine.py, prefixes and executables *)

(** What opening a text file and reading its first lines gives: the lines,
    or the exception that [open] or a read raises ([OSError], or the
    [ValueError] of an undecodable byte). *)
Inductive read_outcome :=
| ReadLines (lines : list string)
| ReadError (e : exn).

Section WinePrefix.
Variable host : Host.
(** [open(path, "r", encoding="utf-8")] *)
Variable open_text : string -> read_outcome.

Definition is_prefix_directory (prefix_path : string) : bool :=
  if String.eqb prefix_path "" then false
  else
    let prefix_path := expanduser host prefix_path in
    let registry_path := Py.path_join prefix_path "system.reg" in
    os_path_isdir host prefix_path && os_path_isfile host registry_path.

(** The loop [for _line_no in range(5)]: [readline] gives the next line, and
    the empty string once the file has ended. *)
Fixpoint scan_registry (line_count : nat) (lines : list string) : option string :=
  match line_count with
  | O => None
  | S remaining =>
      let line := hd "" lines in
      if Py.contains "win64" line then Some "win64"
      else if Py.contains "win32" line then Some "win32"
      else scan_registry remaining (tl lines)
  end.

Definition detect_prefix_arch (prefix_path : string) : M string :=
  if negb (is_prefix_directory prefix_path)
  then raise (RuntimeError ("Prefix not found: " +:+ prefix_path))
  else
    let prefix_path := expanduser host prefix_path in
    let registry_path := Py.path_join prefix_path "system.reg" in
    match open_text registry_path with
    | ReadError e => raise e
    | ReadLines lines =>
        match scan_registry 5 lines with
        | Some arch => mret arch
        | None =>
            _ ← logger ERROR
                  "Failed to detect Wine prefix architecture in %s; defaulting to 32-bit.";
            mret "win32"
        end
    end.

(** The two arguments default to [None], which is as false as the empty
    string. *)
Definition detect_arch (prefix_path wine_path : option string) : M string :=
  let prefix := default "" prefix_path in
  if negb (String.eqb prefix "") && is_prefix_directory prefix
  then detect_prefix_arch prefix
  else
    let wine := default "" wine_path in
    found ← (if String.eqb wine "" then mret false
             else path_exists host (wine +:+ "64") false false);
    mret (if (found : bool) then "win64" else "win32").

End WinePrefix.

(** [working_dir] may be [None]. *)
Definition get_real_executable (windows_executable : string) (working_dir : option string)
    : string * list string * option string :=
  let exec_name := Py.lower windows_executable in
  if PosixPath.endswith ".msi" exec_name
  then ("msiexec", ["/i"; windows_executable], working_dir)
  else if PosixPath.endswith ".bat" exec_name then
    if bool_decide (working_dir = None \/ working_dir = Some "")
       || bool_decide (Some (PosixPath.dirname windows_executable) = working_dir)
    then ("cmd", ["/C"; PosixPath.basename windows_executable],
          Some (PosixPath.dirname windows_executable))
    else ("cmd", ["/C"; windows_executable], working_dir)
  else if PosixPath.endswith ".lnk" exec_name
  then ("start", ["/unix"; windows_executable], working_dir)
  else (windows_executable, [], working_dir).

(** The registry of the prefix [prefix_path]. *)
Definition registry_path (host : Host) (prefix_path : string) : string :=
  Py.path_join (expanduser host prefix_path) "system.reg".

(** The line [i] is the first that names an architecture, and it names
    [arch]; a line with both names counts for [win64]. *)
Definition first_marker (lines : list string) (i : nat) (arch : string) : Prop :=
  exists line,
    lines !! i = Some line /\
    (arch = "win64" /\ Py.contains "win64" line = true \/
     arch = "win32" /\ Py.contains "win64" line = false /\ Py.contains "win32" line = true) /\
    forall j earlier, j < i -> lines !! j = Some earlier ->
      Py.contains "win64" earlier = false /\ Py.contains "win32" earlier = false.

(** A host with a 64-bit prefix at [/games/prefix]. *)
Definition prefix_host : Host := {|
  which := fun _ => None;
  environ := ∅;
  os_path_exists := fun _ => false;
  os_path_islink := fun _ => false;
  os_path_isfile := fun p => String.eqb p "/games/prefix/system.reg";
  os_path_isdir := fun p => String.eqb p "/games/prefix";
  expanduser := fun s => s;
  st_size := fun _ => 1%N;
  listdir := fun _ => None;
  expandvars := fun s => s;
  shlex_split := fun s => Some (Py.split " "%char s);
  popen := fun _ => PopenOSError;
  gamemode_available := false;
  RUNNER_DIR := "/home/user/.local/share/lutris/runners";
  get_steamapps_dirs := None;
  hash_order := fun _ _ => 0
|}.

Definition prefix_registry (path : string) : read_outcome :=
  if String.eqb path "/games/prefix/system.reg"
  then ReadLines ["WINE REGISTRY Version 2"; ";; All keys relative to \\Machine"; "";
                  "#arch=win64"; ""; "[Software\\Classes]"]
  else ReadError OSError.

(** ** lutris/util/system.py, [get_existing_parent] *)

Section ExistingParent.
Variable host : Host.

(** The function calls itself on the directory of its argument.  [depth] is
    the number of nested calls that the interpreter's recursion limit still
    allows; beyond it the call raises [RecursionError], which is a
    [RuntimeError]. *)
Fixpoint get_existing_parent (depth : nat) (path : string) : M (option string) :=
  match depth with
  | O => raise (RuntimeError "maximum recursion depth exceeded")
  | S depth =>
      if String.eqb path "" then mret None
      else if os_path_exists host path && negb (os_path_isfile host path) then mret (Some path)
      else get_existing_parent depth (PosixPath.dirname path)
  end.

End ExistingParent.

(** [path] exists and is no file. *)
Definition existing_folder (host : Host) (path : string) : bool :=
  os_path_exists host path && negb (os_path_isfile host path).

(** A host on which [/] and [/home] are the only folders. *)
Definition home_host : Host := {|
  which := fun _ => None;
  environ := ∅;
  os_path_exists := fun p => bool_decide (p ∈ ["/"; "/home"; "/home/notes.txt"]);
  os_path_islink := fun _ => false;
  os_path_isfile := fun p => String.eqb p "/home/notes.txt";
  os_path_isdir := fun p => bool_decide (p ∈ ["/"; "/home"]);
  expanduser := fun s => s;
  st_size := fun _ => 1%N;
  listdir := fun _ => None;
  expandvars := fun s => s;
  shlex_split := fun s => Some (Py.split " "%char s);
  popen := fun _ => PopenOSError;
  gamemode_available := false;
  RUNNER_DIR := "/home/user/.local/share/lutris/runners";
  get_steamapps_dirs := None;
  hash_order := fun _ _ => 0
|}.

(** ** lutris/util/system.py, [path_contains] and [is_removeable] *)

Module PurePath.

(** A [pathlib.PurePosixPath]: its root ([""], ["/"] or ["//"]) and its
    components.  Two paths are equal when both are. *)
Definition t : Type := string * list string.

(** The root of a path string: two leading slashes, and only two, make a
    root of their own. *)
Definition splitroot (s : string) : string :=
  if Py.startswith "/" s then
    if Py.startswith "//" s && negb (Py.startswith "///" s) then "//" else "/"
  else "".

(** [Path(s)]: empty components and [.] are dropped. *)
Definition parse (s : string) : t :=
  (splitroot s, filter (fun part => part <> "" /\ part <> ".") (Py.split "/"%char s)).

(** [str(path)] *)
Definition to_str (path : t) : string :=
  match path with
  | (EmptyString, []) => "."
  | (root, parts) => root +:+ Py.join "/" parts
  end.

(** [path.parents]: the path without its last component, and so on up to
    the root. *)
Definition parents (path : t) : list t :=
  (fun n => (path.1, take n path.2)) <$> reverse (seq 0 (length path.2)).

End PurePath.

Section Paths.
Variable host : Host.
(** [os.getcwd()], and [os.path.realpath] *)
Variable getcwd : string.
Variable realpath : string -> string.
(** [gettext.gettext] *)
Variable gettext : string -> string.

(** [os.path.normpath] (posixpath) *)
Definition normpath (path : string) : string :=
  if String.eqb path "" then "."
  else
    let initial_slashes :=
      if Py.startswith "/" path then
        if Py.startswith "//" path && negb (Py.startswith "///" path) then 2 else 1
      else 0 in
    let comps := Py.split "/"%char path in
    let new_comps :=
      foldl
        (fun (new_comps : list string) comp =>
           if bool_decide (comp ∈ [""; "."]) then new_comps
           else if negb (String.eqb comp "..")
                   || (Nat.eqb initial_slashes 0 && bool_decide (new_comps = []))
                   || bool_decide (last new_comps = Some "..")
           then new_comps ++ [comp]
           else removelast new_comps)
        [] comps in
    let path := Py.join "/" new_comps in
    let path := String.concat "" (replicate initial_slashes "/") +:+ path in
    if String.eqb path "" then "." else path.

(** [os.path.abspath] *)
Definition abspath (path : string) : string :=
  normpath (if Py.isabs path then path else Py.path_join getcwd path).

(** [Path(os.path.abspath(os.path.expanduser(p)))]; anything but a [str]
    makes [expanduser] raise [TypeError]. *)
Definition resolved (p : value) : M PurePath.t :=
  match p with
  | VStr s => mret (PurePath.parse (abspath (expanduser host s)))
  | _ => raise TypeError
  end.

(** [path.resolve()] *)
Definition resolve (path : PurePath.t) : PurePath.t :=
  PurePath.parse (realpath (PurePath.to_str path)).

Definition path_contains (parent child : value) (resolve_symlinks : bool) : M bool :=
  if bool_decide (parent = VNone \/ child = VNone) then mret false
  else
    resolved_parent ← resolved parent;
    resolved_child ← resolved child;
    let resolved_parent := if resolve_symlinks then resolve resolved_parent else resolved_parent in
    let resolved_child := if resolve_symlinks then resolve resolved_child else resolved_child in
    mret (bool_decide (resolved_child = resolved_parent)
          || bool_decide (resolved_parent ∈ PurePath.parents resolved_child)).

Definition PROTECTED_HOME_FOLDERS : list string :=
  gettext <$> ["Documents"; "Downloads"; "Desktop"; "Pictures"; "Videos"; "Pictures";
               "Projects"; "Games"].

Definition is_removeable (path : string) (system_config : gmap string value) : M bool :=
  exists_ ← path_exists host path false false;
  if negb exists_ then mret false
  else
    let parts := Py.split "/"%char (PosixPath.strip_char "/" path) in
    if bool_decide (hd "" parts ∈ ["usr"; "var"; "lib"; "etc"; "boot"; "sbin"; "bin"])
    then mret false
    else if String.eqb (hd "" parts) "home"
            && ((length parts <=? 2)
                || (length parts =? 3)
                   && bool_decide (default "" (parts !! 2) ∈ PROTECTED_HOME_FOLDERS))
    then mret false
    else if bool_decide (system_config <> ∅) then
      let default_game_path := dict_get system_config "game_path" in
      inside ← path_contains (VStr path) default_game_path false;
      if (inside : bool) then mret false else mret true
    else mret true.

End Paths.

(** The components of [path] as [is_removeable] sees them. *)
Definition path_parts (path : string) : list string :=
  Py.split "/"%char (PosixPath.strip_char "/" path).

(** The folders of the system that are never removed. *)
Definition system_folders : list string := ["usr"; "var"; "lib"; "etc"; "boot"; "sbin"; "bin"].

(** A host on which every path exists, and whose home is [/home/user]. *)
Definition full_host : Host := {|
  which := fun _ => None;
  environ := ∅;
  os_path_exists := fun _ => true;
  os_path_islink := fun _ => false;
  os_path_isfile := fun _ => false;
  os_path_isdir := fun _ => true;
  expanduser := fun s =>
    match s with
    | String "~" rest => "/home/user" +:+ rest
    | _ => s
    end;
  st_size := fun _ => 1%N;
  listdir := fun _ => None;
  expandvars := fun s => s;
  shlex_split := fun s => Some (Py.split " "%char s);
  popen := fun _ => PopenOSError;
  gamemode_available := false;
  RUNNER_DIR := "/home/user/.local/share/lutris/runners";
  get_steamapps_dirs := None;
  hash_order := fun _ _ => 0
|}.

(** [name] is one path component: it has no slash in it. *)
Definition component (name : string) : Prop := Py.contains "/" name = false.

(** The paths that must never be removed: a system folder and what is in
    it, [/home], a home folder, and the protected folders of a home. *)
Definition protected_path (gettext : string -> string) (path : string) : Prop :=
  (exists folder,
     folder ∈ system_folders /\
     (path = "/" +:+ folder \/ exists rest, path = "/" +:+ folder +:+ "/" +:+ rest)) \/
  path = "/home" \/
  (exists user, component user /\ path = "/home/" +:+ user) \/
  (exists user name,
     component user /\ component name /\ name <> "" /\
     name ∈ PROTECTED_HOME_FOLDERS gettext /\
     path = "/home/" +:+ user +:+ "/" +:+ name).

(** * Properties *)

(** ** The model on concrete inputs *)

Example replace_native : Py.replace "native" "n" "native,builtin" = "n,builtin".
Proof. reflexivity. Qed.

Example replace_no_overlap : Py.replace "aa" "b" "aaa" = "ba".
Proof. reflexivity. Qed.

Example replace_empty_pattern : Py.replace "" "-" "abc" = "-a-b-c-".
Proof. reflexivity. Qed.

Example split_resolution_string : Py.split "x"%char "1920x1080" = ["1920"; "1080"].
Proof. reflexivity. Qed.

Example split_without_separator : Py.split "x"%char "bogus" = ["bogus"].
Proof. reflexivity. Qed.

Example strip_both_ends : Py.strip "  wine-8.0 " = "wine-8.0".
Proof. reflexivity. Qed.

Example isnumeric_superscript :
  Py.isnumeric "4" = true /\ Py.int "4" = Some 4%N /\
  Py.isnumeric "bogus" = false /\
  Py.isnumeric (String (ascii_of_N 178) "") = true /\ Py.int (String (ascii_of_N 178) "") = None.
Proof. repeat split; reflexivity. Qed.

Example format_d_values : Py.format_d 3 = "3" /\ Py.format_d 0 = "0" /\ Py.format_d 15 = "15".
Proof. repeat split; reflexivity. Qed.

Example path_join_twice :
  Py.path_join (Py.path_join "/r/wine" "v1") "bin/wine" = "/r/wine/v1/bin/wine".
Proof. reflexivity. Qed.

Example sorted_strings :
  Py.sorted ["mscoree"; "d3d9"; "winemenubuilder"] = ["d3d9"; "mscoree"; "winemenubuilder"].
Proof. reflexivity. Qed.

Example overrides_every_bucket :
  fst (get_overrides_env 0 (State [] None (fun _ =>
         [("a", Some "disabled"); ("b", Some "d"); ("c", Some "native");
          ("e", Some "builtin"); ("f", Some "builtin, native"); ("g", Some "native,builtin");
          ("h", Some "bogus"); ("c2", Some "n")])))
  = Ok "g=n,b;f=b,n;e=b;c,c2=n;b=d;a,winemenubuilder=".
Proof. reflexivity. Qed.

Example launch_every_stage :
  command_of (get_launch_parameters gaming_host
    (runner_with {[ "locale" := VStr "fr_FR.UTF-8"; "fps_limit" := VStr "60";
                    "prefix_command" := VStr "env FOO=1"; "single_cpu" := VBool true;
                    "limit_cpu_count" := VStr "2"; "gamemode" := VBool true;
                    "gamescope" := VBool true; "gamescope_game_res" := VStr "1280x720" ]})
    game init_state)
  = VStr <$> ["gamescope"; "-w"; "1280"; "-h"; "720"; "--"; "gamemoderun";
              "taskset"; "-c"; "0-1"; "env"; "FOO=1"; "/usr/bin/strangle"; "60"; "/games/doom"].
Proof. reflexivity. Qed.


(** ** The monad *)

Lemma bind_run {A B : Type} (m : M A) (f : A -> M B) (st : state) :
  (m ≫= f) st =
  match m st with
  | (Ok a, st') => f a st'
  | (Raise e, st') => (Raise e, st')
  end.
Proof. reflexivity. Qed.

Lemma bind_Ok_inv {A B : Type} (m : M A) (f : A -> M B) st b st' :
  (m ≫= f) st = (Ok b, st') ->
  exists a st1, m st = (Ok a, st1) /\ f a st1 = (Ok b, st').
Proof.
  rewrite bind_run. destruct (m st) as [[a|e] st1]; intros H; [eauto | discriminate].
Qed.

Lemma bind_Raise_inv {A B : Type} (m : M A) (f : A -> M B) st e st' :
  (m ≫= f) st = (Raise e, st') ->
  m st = (Raise e, st') \/ exists a st1, m st = (Ok a, st1) /\ f a st1 = (Raise e, st').
Proof.
  rewrite bind_run. destruct (m st) as [[a|e1] st1]; intros H; [right; eauto | left; congruence].
Qed.

Lemma add_log_nil st : add_log [] st = st.
Proof. destruct st. unfold add_log. simpl. by rewrite app_nil_r. Qed.

Lemma add_log_app l1 l2 st : add_log l2 (add_log l1 st) = add_log (l1 ++ l2) st.
Proof. unfold add_log. simpl. by rewrite app_assoc. Qed.

Lemma logger_run lv msg st : logger lv msg st = (Ok tt, add_log [(lv, msg)] st).
Proof. reflexivity. Qed.

Lemma mret_Ok_inv {A : Type} (a b : A) (st st' : state) :
  (mret a : M A) st = (Ok b, st') -> a = b /\ st = st'.
Proof. by intros [= -> ->]. Qed.

Lemma getitem_Ok_inv (d : gmap string value) (k : string) (v : value) (st st' : state) :
  getitem d k st = (Ok v, st') -> d !! k = Some v /\ st = st'.
Proof. unfold getitem. destruct (d !! k); [by intros [= -> ->] | discriminate]. Qed.

Lemma returns_bind {A B : Type} (m : M A) (f : A -> M B) (st : state) :
  returns m st ->
  (forall a st1, m st = (Ok a, st1) -> returns (f a) st1) ->
  returns (m ≫= f) st.
Proof.
  intros (a & st1 & Hm) Hf. destruct (Hf a st1 Hm) as (b & st2 & Hb).
  exists b, st2. by rewrite bind_run, Hm.
Qed.

Lemma returns_ret {A : Type} (a : A) (st : state) : returns (mret a) st.
Proof. by exists a, st. Qed.

Lemma bind_cong_run {A B : Type} (m m' : M A) (f g : A -> M B) (st : state) :
  m st = m' st -> (forall a st1, f a st1 = g a st1) -> (m ≫= f) st = (m' ≫= g) st.
Proof.
  intros Hm Hfg. rewrite !bind_run, Hm. destruct (m' st) as [[a|e] st1]; [apply Hfg | done].
Qed.

(** ** [get_overrides_env] *)

Section Overrides.

Lemma bucket_append_fmap (f : string -> list string) (keys : list string) (v dll : string) :
  NoDup keys ->
  bucket_append v dll ((fun k => (k, f k)) <$> keys) =
  if decide (v ∈ keys)
  then Some ((fun k => (k, f k ++ if decide (v = k) then [dll] else [])) <$> keys)
  else None.
Proof.
  induction keys as [|k keys IH]; intros Hnd.
  - destruct (decide (v ∈ [])) as [Hin|_]; [by apply elem_of_nil in Hin | done].
  - apply NoDup_cons in Hnd as [Hk Hnd]. cbn [fmap list_fmap bucket_append].
    destruct (String.eqb_spec v k) as [->|Hne].
    + rewrite decide_True; [|by left].
      rewrite decide_True; [|done]. do 2 f_equal.
      apply list_fmap_ext. intros i k' Hk'.
      rewrite decide_False; [by rewrite app_nil_r|].
      intros ->. apply Hk. by eapply list_elem_of_lookup_2.
    + rewrite IH; [|done]. rewrite (decide_False (P := v = k)); [|done].
      rewrite app_nil_r.
      destruct (decide (v ∈ keys)) as [Hin|Hin].
      * rewrite decide_True; [done | by right].
      * rewrite decide_False; [done|]. intros [->|?]%elem_of_cons; done.
Qed.

Lemma bucket_order_NoDup : NoDup bucket_order.
Proof. apply (bool_decide_unpack _). by vm_compute. Qed.

Lemma bucket_members_snoc (pre : odict) (dll : string) (value : option string) (mode : string) :
  bucket_members (pre ++ [(dll, value)]) mode =
  bucket_members pre mode ++ if decide (normalize_override value = mode) then [dll] else [].
Proof.
  unfold bucket_members. rewrite filter_app, fmap_app. f_equal.
  rewrite filter_cons, filter_nil. simpl. by case_decide.
Qed.

Lemma invalid_override_log_snoc (pre : odict) (dll : string) (value : option string) :
  invalid_override_log (pre ++ [(dll, value)]) =
  invalid_override_log pre ++
  if decide (normalize_override value ∈ bucket_order) then []
  else [(ERROR, "Invalid override value %s")].
Proof.
  unfold invalid_override_log. rewrite filter_app, fmap_app. f_equal.
  rewrite filter_cons, filter_nil. simpl. by repeat case_decide.
Qed.

(** The loop keeps, for every mode, the DLLs seen so far in that mode, and
    logs an error for each value that names no bucket. *)
Lemma fill_buckets_run (items pre : odict) (st : state) :
  for_each
    (fun buckets '(dll, value) =>
       let value := normalize_override value in
       match bucket_append value dll buckets with
       | Some buckets' => mret buckets'
       | None =>
           _ ← logger ERROR "Invalid override value %s";
           mret buckets
       end)
    items (buckets_of pre) (add_log (invalid_override_log pre) st)
  = (Ok (buckets_of (pre ++ items)), add_log (invalid_override_log (pre ++ items)) st).
Proof.
  revert pre. induction items as [|[dll value] items IH]; intros pre.
  - simpl. by rewrite app_nil_r.
  - cbn [for_each]. rewrite bind_run.
    assert (Hstep : buckets_of (pre ++ [(dll, value)]) =
      (fun k => (k, bucket_members pre k ++
                    if decide (normalize_override value = k) then [dll] else [])) <$> bucket_order).
    { unfold buckets_of. apply list_fmap_ext. intros i k _. by rewrite bucket_members_snoc. }
    cbv zeta. unfold buckets_of at 1.
    rewrite (bucket_append_fmap (bucket_members pre)); [|apply bucket_order_NoDup].
    specialize (IH (pre ++ [(dll, value)])).
    rewrite invalid_override_log_snoc in IH. rewrite <- app_assoc in IH. simpl in IH.
    destruct (decide (normalize_override value ∈ bucket_order)) as [Hin|Hin].
    + rewrite app_nil_r in IH. rewrite <- Hstep. exact IH.
    + rewrite bind_run, logger_run, add_log_app.
      assert (Hsame : buckets_of (pre ++ [(dll, value)]) = buckets_of pre).
      { rewrite Hstep. unfold buckets_of. apply list_fmap_ext. intros i k Hk.
        rewrite decide_False; [by rewrite app_nil_r|].
        intros <-. apply Hin. by eapply list_elem_of_lookup_2. }
      rewrite <- Hsame. exact IH.
Qed.

Lemma serialize_buckets_of (items : odict) :
  omap (fun '(value, dlls) =>
          match dlls with
          | [] => None
          | _ => Some (Py.join "," (Py.sorted dlls) +:+ "=" +:+ value)
          end) (buckets_of items)
  = omap (serialize_bucket items) bucket_order.
Proof.
  unfold buckets_of, bucket_order, serialize_bucket. simpl.
  repeat (destruct (bucket_members items _); simpl); reflexivity.
Qed.

(** What one call does: the caller's dictionary gets the default entry, and
    the result is the serialization of the dictionary so updated. *)
Lemma get_overrides_env_run (overrides : ref) (st : state) :
  let items := odict_update (dicts st overrides) default_overrides in
  get_overrides_env overrides st =
  (Ok (serialize_overrides items),
   add_log (invalid_override_log items) (set_dict overrides items st)).
Proof.
  intros items. unfold get_overrides_env.
  rewrite bind_run. unfold read_dict at 1, write_dict. cbn beta iota.
  rewrite bind_run. cbn beta iota. rewrite bind_run.
  change (State (log st) (fsr_memo st) _) with (set_dict overrides items st).
  unfold read_dict. cbn beta iota. rewrite bind_run.
  assert (Hd : dicts (set_dict overrides items st) overrides = items).
  { unfold set_dict. simpl. by rewrite Nat.eqb_refl. }
  rewrite Hd.
  pose proof (fill_buckets_run items [] (set_dict overrides items st)) as Hrun.
  change (invalid_override_log []) with (@nil log_record) in Hrun.
  rewrite add_log_nil in Hrun. simpl app in Hrun.
  change (buckets_of []) with override_buckets_init in Hrun.
  cbv zeta in Hrun. rewrite Hrun. cbn beta iota.
  unfold serialize_overrides. by rewrite serialize_buckets_of.
Qed.

Lemma odict_lookup_setitem {V : Type} (k k' : string) (v : V) (d : list (string * V)) :
  odict_lookup k' (odict_setitem k v d) = if decide (k' = k) then Some v else odict_lookup k' d.
Proof.
  induction d as [|[k0 v0] d IH]; simpl.
  - destruct (String.eqb_spec k' k); by case_decide.
  - destruct (String.eqb_spec k k0) as [->|Hne]; simpl.
    + destruct (String.eqb_spec k' k0); by case_decide.
    + rewrite IH. destruct (String.eqb_spec k' k0) as [->|]; [|done].
      by rewrite decide_False.
Qed.

End Overrides.

(** C1, as amended.  For the mapping [{"d3d9": "native", "mscoree": "disabled"}]
    (in either insertion order) [get_overrides_env] returns exactly
    ["d3d9=n;mscoree,winemenubuilder="]: the value ["disabled"] is rewritten
    to the empty mode and the default entry [winemenubuilder] is added, so
    both land in the empty bucket.  For every mapping the result has the
    buckets in the order n,b / b,n / b / n / d / empty, each serialized as
    the sorted DLLs joined by commas, [=] and the mode, and the groups are
    joined by semicolons. *)
Theorem get_overrides_env_d3d9_mscoree (overrides : ref) (st : state) :
  (exists st', get_overrides_env overrides st =
     (Ok (serialize_overrides (odict_update (dicts st overrides) default_overrides)), st')) /\
  (dicts st overrides = d3d9_mscoree \/ dicts st overrides = reverse d3d9_mscoree ->
   fst (get_overrides_env overrides st) = Ok "d3d9=n;mscoree,winemenubuilder=").
Proof.
  split.
  - eexists. apply get_overrides_env_run.
  - intros Hd. rewrite get_overrides_env_run. simpl fst.
    destruct Hd as [-> | ->]; reflexivity.
Qed.

Lemma get_overrides_env_d3d9_mscoree_witness :
  fst (get_overrides_env 0 (State [] None (fun _ => d3d9_mscoree)))
  = Ok "d3d9=n;mscoree,winemenubuilder=".
Proof.
  apply (proj2 (get_overrides_env_d3d9_mscoree 0 (State [] None (fun _ => d3d9_mscoree)))).
  left. reflexivity.
Defined.

(** C1, as stated, fails: the call does not return ["d3d9=n;mscoree=d"]. *)
Lemma get_overrides_env_not_mscoree_d :
  fst (get_overrides_env 0 (State [] None (fun _ => d3d9_mscoree))) <> Ok "d3d9=n;mscoree=d".
Proof. vm_compute. discriminate. Qed.

(** C10.  [get_overrides_env] mutates its argument: after every call the
    dictionary object the caller passed holds the caller's entries updated
    with the default entry, so ["winemenubuilder"] maps to the empty string
    in it; every other key and every other dictionary object is as before. *)
Theorem get_overrides_env_mutates_argument (overrides : ref) (st : state) :
  exists s st',
    get_overrides_env overrides st = (Ok s, st') /\
    dicts st' overrides = odict_update (dicts st overrides) default_overrides /\
    odict_lookup "winemenubuilder" (dicts st' overrides) = Some (Some "") /\
    (forall k, k <> "winemenubuilder" ->
               odict_lookup k (dicts st' overrides) = odict_lookup k (dicts st overrides)) /\
    (forall r, r <> overrides -> dicts st' r = dicts st r).
Proof.
  eexists _, _. split; [apply get_overrides_env_run|].
  assert (Hd : forall d, dicts (add_log (invalid_override_log d) (set_dict overrides d st)) overrides = d).
  { intros d. simpl. by rewrite Nat.eqb_refl. }
  rewrite Hd. unfold odict_update, default_overrides. simpl foldl.
  repeat split.
  - rewrite odict_lookup_setitem. by rewrite decide_True.
  - intros k Hk. rewrite odict_lookup_setitem. by rewrite decide_False.
  - intros r Hr. simpl. apply Nat.eqb_neq in Hr. by rewrite Hr.
Qed.

(** ** [_execute], [execute] and [execute_with_error] *)

(** On a failed start or a timeout [_execute] logs an error and returns the
    [str] [""], not a pair. *)
Lemma _execute_failed_start host command0 rest env cwd capture_stderr quiet shell timeout st :
  Py.isabs command0 = false ->
  (forall out err, popen host
     (PopenCall (command0 :: rest) shell capture_stderr
        (match env with
         | Some e => if decide (e = ∅) then get_environment host
                     else omap id e ∪ get_environment host
         | None => get_environment host
         end) cwd timeout) <> Completed out err) ->
  exists l msg,
    _execute host (command0 :: rest) env cwd capture_stderr quiet shell timeout st
    = (Ok (RetStr ""), add_log (l ++ [(ERROR, msg)]) st).
Proof.
  intros Habs Hfail. unfold _execute. rewrite Habs.
  rewrite bind_run. cbn [mret M_ret]. cbn beta iota.
  rewrite bind_run.
  set (l1 := if quiet then [] else [(DEBUG, "Executing %s")]).
  assert (H1 : (if quiet then mret () else logger DEBUG "Executing %s") st = (Ok tt, add_log l1 st)).
  { unfold l1. destruct quiet; [by rewrite add_log_nil | done]. }
  rewrite H1. cbn beta iota. rewrite bind_run.
  destruct env as [e|].
  - destruct (decide (e = ∅)) as [He|He].
    + cbn [mret M_ret]. cbn beta iota.
      destruct (popen host _) eqn:Hp.
      * exfalso. by eapply Hfail.
      * rewrite bind_run, logger_run, add_log_app. by eexists _, _.
      * rewrite bind_run, logger_run, add_log_app. by eexists _, _.
      * rewrite bind_run, logger_run, add_log_app. by eexists _, _.
    + rewrite bind_run.
      set (l2 := if quiet then [] else [(DEBUG, "{}={}")]).
      assert (H2 : (if quiet then mret () else logger DEBUG "{}={}") (add_log l1 st)
                   = (Ok tt, add_log (l1 ++ l2) st)).
      { unfold l2. destruct quiet; rewrite <- add_log_app; [by rewrite add_log_nil | done]. }
      rewrite H2. cbn [mret M_ret]. cbn beta iota.
      destruct (popen host _) eqn:Hp.
      * exfalso. by eapply Hfail.
      * rewrite bind_run, logger_run, add_log_app. by eexists _, _.
      * rewrite bind_run, logger_run, add_log_app. by eexists _, _.
      * rewrite bind_run, logger_run, add_log_app. by eexists _, _.
  - cbn [mret M_ret]. cbn beta iota.
    destruct (popen host _) eqn:Hp.
    + exfalso. by eapply Hfail.
    + rewrite bind_run, logger_run, add_log_app. by eexists _, _.
    + rewrite bind_run, logger_run, add_log_app. by eexists _, _.
    + rewrite bind_run, logger_run, add_log_app. by eexists _, _.
Qed.

(** [execute] unpacks that [""] into two names, which raises. *)
Lemma execute_failed_start host command0 rest env cwd quiet shell timeout st :
  Py.isabs command0 = false ->
  (forall out err, popen host
     (PopenCall (command0 :: rest) shell false
        (match env with
         | Some e => if decide (e = ∅) then get_environment host
                     else omap id e ∪ get_environment host
         | None => get_environment host
         end) cwd timeout) <> Completed out err) ->
  exists st', execute host (command0 :: rest) env cwd quiet shell timeout st
              = (Raise ValueError, st').
Proof.
  intros Habs Hfail. unfold execute. rewrite bind_run.
  destruct (_execute_failed_start host command0 rest env cwd false quiet shell timeout st
              Habs Hfail) as (l & msg & ->).
  cbn. by eexists.
Qed.

(** C2 (the code departs from the claim).  On a host where no process can be
    started, and on one where every process times out, [execute] raises
    [ValueError] to its caller instead of returning empty output:
    [_execute] logs the error and returns the [str] [""], which [execute]
    cannot unpack into [stdout, _stderr].  [execute_with_error] hands the
    same [""] to its caller in place of a pair. *)
Theorem execute_raises_on_failed_start :
  execute bare_host ["gamescope"; "--help"] None None false false None init_state
  = (Raise ValueError,
     add_log [(DEBUG, "Executing %s");
              (ERROR, "Could not run command %s (env: %s): %s")] init_state)
  /\ execute (example_host [] PopenTimeoutExpired false)
       ["gamescope"; "--help"] None None false false (Some 5%N) init_state
     = (Raise ValueError,
        add_log [(DEBUG, "Executing %s"); (ERROR, "Command %s after %s seconds")] init_state)
  /\ execute_with_error bare_host ["gamescope"; "--help"] None None false false None init_state
     = (Ok (RetStr ""),
        add_log [(DEBUG, "Executing %s");
                 (ERROR, "Could not run command %s (env: %s): %s")] init_state).
Proof. repeat split; reflexivity. Qed.

(** ** The Version Registry *)

Section Registry.
Variable host : Host.

(** Every name in [WINE_PATHS] is one of the four static ones or starts
    with ["System "]. *)
Lemma WINE_PATHS_keys (name build : string) :
  WINE_PATHS host !! name = Some build ->
  WINE_PATHS_static !! name = Some build \/ Py.startswith "System " name = true.
Proof.
  unfold WINE_PATHS. destruct (listdir host "/usr/lib/") as [candidates|]; [|by left].
  generalize WINE_PATHS_static as static.
  induction candidates as [|c candidates IH]; intros static; [by left|].
  cbn [foldl]. intros H. apply IH in H as [H|H]; [|by right].
  destruct (Py.startswith "wine-" c); [|by left].
  destruct (os_path_isfile host _); [|by left].
  apply lookup_insert_Some in H as [[<- _]|[_ H]]; [right; reflexivity | by left].
Qed.

Lemma WINE_PATHS_custom : WINE_PATHS host !! "custom" = None.
Proof.
  destruct (WINE_PATHS host !! "custom") as [build|] eqn:H; [|done].
  apply WINE_PATHS_keys in H as [H|H]; [|discriminate H].
  vm_compute in H. discriminate H.
Qed.

Lemma find_executable_Ok (exec_name exe : string) st st' :
  find_executable host exec_name st = (Ok exe, st') ->
  which host exec_name = Some exe /\ exe <> "" /\ st' = st.
Proof.
  unfold find_executable. destruct (String.eqb exec_name ""); [discriminate|].
  destruct (which host exec_name) as [e|]; [|discriminate].
  destruct (String.eqb_spec e ""); [discriminate|].
  intros [= -> ->]. done.
Qed.

Lemma find_proton_wine_Some (proton_paths : list string) (version path : string) :
  find_proton_wine host proton_paths version = Some path ->
  os_path_isfile host path = true /\
  exists proton_path,
    proton_path ∈ proton_paths /\
    (path = Py.path_join (Py.path_join proton_path version) "dist/bin/wine" \/
     path = Py.path_join (Py.path_join proton_path version) "files/bin/wine").
Proof.
  induction proton_paths as [|p rest IH]; [discriminate|]. cbn [find_proton_wine].
  destruct (os_path_isfile host (Py.path_join (Py.path_join p version) "dist/bin/wine")) eqn:Hd.
  { intros [= <-]. split; [done|]. exists p. split; [by left | by left]. }
  destruct (os_path_isfile host (Py.path_join (Py.path_join p version) "files/bin/wine")) eqn:Hf.
  { intros [= <-]. split; [done|]. exists p. split; [by left | by right]. }
  intros H. apply IH in H as (? & p' & ? & ?). split; [done|]. exists p'. split; [by right | done].
Qed.

Lemma path_join_relative_nonempty (a b : string) :
  Py.isabs b = false -> b <> "" -> Py.path_join a b <> "".
Proof.
  intros Hb Hne. unfold Py.path_join. rewrite Hb.
  destruct (String.eqb a "" || Py.endswith_slash a); destruct a as [|c a];
    first [exact Hne | change (String c ?s +:+ ?t) with (String c (s +:+ t)); discriminate
          | change ("" +:+ "/" +:+ b) with (String "/" b); discriminate].
Qed.

End Registry.

(** C5.  Resolving the version ["custom"] fails with a [RuntimeError] when no
    configuration is supplied and when the configuration's
    [custom_wine_path] is missing or empty, so no empty path is returned;
    with a non-empty [custom_wine_path] that path is returned.  The same
    holds when ["custom"] is the configuration's own [version]. *)
Theorem get_wine_path_for_version_custom (host : Host) (st : state) :
  (exists msg, get_wine_path_for_version host (VStr "custom") None st
               = (Raise (RuntimeError msg), st)) /\
  (forall config, truthy (dict_get config "custom_wine_path") = false ->
     exists msg, get_wine_path_for_version host (VStr "custom") (Some config) st
                 = (Raise (RuntimeError msg), st)) /\
  (forall config wine_path,
     config !! "custom_wine_path" = Some (VStr wine_path) -> wine_path <> "" ->
     get_wine_path_for_version host (VStr "custom") (Some config) st
     = (Ok (VStr wine_path), st)) /\
  (forall config version,
     truthy version = false -> config !! "version" = Some (VStr "custom") ->
     get_wine_path_for_version host version (Some config) st
     = get_wine_path_for_version host (VStr "custom") (Some config) st).
Proof.
  assert (Hrun : forall config,
    get_wine_path_for_version host (VStr "custom") config st =
    match config with
    | None => (Raise (RuntimeError
        "Custom wine paths are only supported when a configuration is available."), st)
    | Some config =>
        if negb (truthy (dict_get config "custom_wine_path"))
        then (Raise (RuntimeError
          "The 'custom' Wine version can be used only if the custom wine path is set."), st)
        else (Ok (dict_get config "custom_wine_path"), st)
    end).
  { intros config. unfold get_wine_path_for_version. rewrite bind_run.
    cbn [truthy String.eqb Ascii.eqb negb andb mret M_ret]. cbn beta iota.
    rewrite WINE_PATHS_custom. rewrite bind_run.
    change (Py.contains "Proton" "custom") with false. cbn beta iota.
    cbn [mret M_ret]. cbn beta iota.
    change (String.eqb "custom" "custom") with true. cbn beta iota.
    destruct config as [config|]; [|done].
    by destruct (truthy (dict_get config "custom_wine_path")). }
  repeat split.
  - eexists. apply (Hrun None).
  - intros config Hempty. rewrite (Hrun (Some config)), Hempty. by eexists.
  - intros config wine_path Hcfg Hne. rewrite (Hrun (Some config)).
    unfold dict_get. rewrite Hcfg. simpl.
    destruct (String.eqb_spec wine_path ""); done.
  - intros config version Hv Hcfg. rewrite (Hrun (Some config)).
    unfold get_wine_path_for_version at 1. rewrite bind_run, Hv.
    rewrite bool_decide_true.
    2:{ split; [done|]. intros [= ->]. by rewrite lookup_empty in Hcfg. }
    cbn [negb andb]. change (default ∅ (Some config)) with config.
    unfold getitem. rewrite Hcfg.
    cbn [mret M_ret]. cbn beta iota.
    cbn [truthy String.eqb Ascii.eqb negb andb mret M_ret]. cbn beta iota.
    rewrite WINE_PATHS_custom. rewrite bind_run.
    change (Py.contains "Proton" "custom") with false. cbn beta iota.
    cbn [mret M_ret]. cbn beta iota.
    change (String.eqb "custom" "custom") with true. cbn beta iota.
    by destruct (truthy (dict_get config "custom_wine_path")).
Qed.

Lemma get_wine_path_for_version_custom_witness :
  get_wine_path_for_version bare_host (VStr "custom")
    (Some {[ "custom_wine_path" := VStr "/opt/wine-tkg/bin/wine" ]}) init_state
  = (Ok (VStr "/opt/wine-tkg/bin/wine"), init_state).
Proof.
  apply (proj1 (proj2 (proj2 (get_wine_path_for_version_custom bare_host init_state)))).
  - reflexivity.
  - discriminate.
Defined.

(** ** The system table and the Proton locations *)

Section VersionRegistry.
Variable host : Host.

(** One step of the loop that fills [WINE_PATHS]. *)
Local Notation registry_step :=
  (fun (paths : gmap string string) _candidate =>
     if Py.startswith "wine-" _candidate then
       let _wine_path := Py.path_join (Py.path_join "/usr/lib/" _candidate) "bin/wine" in
       if os_path_isfile host _wine_path
       then <["System " +:+ _candidate := _wine_path]> paths
       else paths
     else paths).

Lemma registry_fold_inv (candidates : list string) (paths : gmap string string)
    (name build : string) :
  foldl registry_step paths candidates !! name = Some build ->
  paths !! name = Some build \/
  exists candidate,
    candidate ∈ candidates /\ Py.startswith "wine-" candidate = true /\
    name = "System " +:+ candidate /\
    build = Py.path_join (Py.path_join "/usr/lib/" candidate) "bin/wine" /\
    os_path_isfile host build = true.
Proof.
  revert paths. induction candidates as [|c candidates IH]; intros paths; [by left|].
  cbn [foldl]. intros H. apply IH in H as [H|(c' & Hin & H)].
  - destruct (Py.startswith "wine-" c) eqn:Hc; [|by left].
    destruct (os_path_isfile host (Py.path_join (Py.path_join "/usr/lib/" c) "bin/wine"))
      eqn:Hf; [|by left].
    apply lookup_insert_Some in H as [[<- <-]|[_ H]]; [|by left].
    right. exists c. split_and!; [by left | done..].
  - right. exists c'. split; [by right | done].
Qed.

Lemma registry_fold_other (candidates : list string) (paths : gmap string string)
    (name : string) :
  Py.startswith "System " name = false ->
  foldl registry_step paths candidates !! name = paths !! name.
Proof.
  intros Hname. revert paths.
  induction candidates as [|c candidates IH]; intros paths; [done|].
  cbn [foldl]. rewrite IH.
  destruct (Py.startswith "wine-" c); [|done].
  destruct (os_path_isfile host _); [|done].
  apply lookup_insert_ne. intros <-. discriminate Hname.
Qed.

Lemma registry_fold_keeps (candidates : list string) (paths : gmap string string)
    (candidate : string) :
  paths !! ("System " +:+ candidate)
  = Some (Py.path_join (Py.path_join "/usr/lib/" candidate) "bin/wine") ->
  foldl registry_step paths candidates !! ("System " +:+ candidate)
  = Some (Py.path_join (Py.path_join "/usr/lib/" candidate) "bin/wine").
Proof.
  revert paths. induction candidates as [|c candidates IH]; intros paths Hp; [done|].
  cbn [foldl]. apply IH.
  destruct (Py.startswith "wine-" c); [|done].
  destruct (os_path_isfile host _); [|done].
  destruct (decide (c = candidate)) as [->|Hne]; [by rewrite lookup_insert_eq|].
  rewrite lookup_insert_ne; [done|]. intros Heq. by apply String.app_inj in Heq.
Qed.

Lemma registry_fold_adds (candidates : list string) (paths : gmap string string)
    (candidate : string) :
  candidate ∈ candidates -> Py.startswith "wine-" candidate = true ->
  os_path_isfile host (Py.path_join (Py.path_join "/usr/lib/" candidate) "bin/wine") = true ->
  foldl registry_step paths candidates !! ("System " +:+ candidate)
  = Some (Py.path_join (Py.path_join "/usr/lib/" candidate) "bin/wine").
Proof.
  intros Hin Hc Hf. revert paths.
  induction candidates as [|c candidates IH]; intros paths; [by apply elem_of_nil in Hin|].
  apply elem_of_cons in Hin as [<-|Hin]; [|by apply IH].
  cbn [foldl]. apply registry_fold_keeps. rewrite Hc, Hf. by rewrite lookup_insert_eq.
Qed.

End VersionRegistry.

Section ProtonLocations.
Variable host : Host.

Lemma path_exists_present (path : string) st :
  exists l, path_exists host path false false st = (Ok (present host path), add_log l st).
Proof.
  unfold path_exists, present. destruct (String.eqb path ""); cbn [negb andb].
  { exists []. by rewrite add_log_nil. }
  destruct (os_path_exists host _); cbn [orb].
  { exists []. by rewrite add_log_nil. }
  destruct (os_path_islink host _).
  - rewrite bind_run, logger_run. by eexists.
  - exists []. by rewrite add_log_nil.
Qed.

(** The loop over the Proton versions of one location. *)
Local Notation version_step path :=
  (fun (paths : gset string) version =>
     dist ← path_exists host
       (Py.path_join (Py.path_join path version) "dist/bin/wine") false false;
     let paths := if (dist : bool) then {[ path ]} ∪ paths else paths in
     files ← path_exists host
       (Py.path_join (Py.path_join path version) "files/bin/wine") false false;
     mret (if (files : bool) then {[ path ]} ∪ paths else paths)).

Lemma version_loop_run (path : string) (versions : list string) (paths : gset string) st :
  exists (found : gset string) l,
    for_each (version_step path) versions paths st = (Ok found, add_log l st) /\
    forall q, q ∈ found <->
      q ∈ paths \/
      q = path /\ exists version,
        version ∈ versions /\
        (present host (Py.path_join (Py.path_join path version) "dist/bin/wine") = true \/
         present host (Py.path_join (Py.path_join path version) "files/bin/wine") = true).
Proof.
  revert paths st. induction versions as [|v versions IH]; intros paths st.
  { exists paths, []. rewrite add_log_nil. split; [done|]. intros q. split; [by left|].
    intros [H|(_ & v & Hv & _)]; [done | by apply elem_of_nil in Hv]. }
  cbn [for_each]. rewrite bind_run.
  destruct (path_exists_present (Py.path_join (Py.path_join path v) "dist/bin/wine") st)
    as [l1 H1].
  rewrite bind_run, H1. cbn beta iota. rewrite bind_run.
  destruct (path_exists_present (Py.path_join (Py.path_join path v) "files/bin/wine")
              (add_log l1 st)) as [l2 H2].
  rewrite H2. cbn beta iota. unfold mret at 1, M_ret at 1. cbn beta iota.
  set (dist := present host (Py.path_join (Py.path_join path v) "dist/bin/wine")) in *.
  set (files := present host (Py.path_join (Py.path_join path v) "files/bin/wine")) in *.
  match goal with
  | |- context [for_each _ versions ?acc ?s] =>
      destruct (IH acc s) as (found & l3 & Hrun & Hfound)
  end.
  exists found, (l1 ++ l2 ++ l3). split; [by rewrite <- !add_log_app, <- Hrun|].
  intros q. rewrite Hfound. split.
  - intros [H|(-> & v' & Hv' & H)].
    + destruct files eqn:Hf, dist eqn:Hd; set_unfold in H;
        try (destruct H as [->|H]); try (destruct H as [->|H]);
        first [ by left
              | right; split; [done|]; exists v; split; [by left|];
                first [ by left | by right ] ].
    + right. split; [done|]. exists v'. split; [by right | done].
  - intros [H|(-> & v' & Hv' & H)].
    + left. destruct files, dist; set_solver.
    + apply elem_of_cons in Hv' as [->|Hv'].
      * left. fold dist files in H. destruct H as [H|H]; rewrite H.
        -- destruct files; set_solver.
        -- set_solver.
      * right. split; [done|]. by exists v'.
Qed.

Local Notation location_step :=
  (fun (paths : gset string) path =>
     match listdir host path with
     | None => raise OSError
     | Some entries =>
         let proton_versions := filter (fun p => Py.contains "Proton" p = true) entries in
         for_each (version_step path) proton_versions paths
     end).

Lemma location_loop_run (locations : list string) (paths : gset string) st :
  (exists (found : gset string) l,
     for_each location_step locations paths st = (Ok found, add_log l st) /\
     forall q, q ∈ found <-> q ∈ paths \/ q ∈ locations /\ holds_proton host q) \/
  (exists l,
     for_each location_step locations paths st = (Raise OSError, add_log l st) /\
     exists path, path ∈ locations /\ listdir host path = None).
Proof.
  revert paths st. induction locations as [|p locations IH]; intros paths st.
  { left. exists paths, []. rewrite add_log_nil. split; [done|]. intros q. split; [by left|].
    intros [H|[H _]]; [done | by apply elem_of_nil in H]. }
  cbn [for_each]. rewrite bind_run.
  destruct (listdir host p) as [entries|] eqn:Hentries.
  2:{ right. exists []. rewrite add_log_nil. split; [done|]. exists p. split; [by left | done]. }
  destruct (version_loop_run p (filter (fun p => Py.contains "Proton" p = true) entries)
              paths st) as (found1 & l1 & Hrun1 & Hfound1).
  cbv beta iota zeta in Hrun1 |- *. rewrite Hrun1.
  assert (Hhere : forall q, q ∈ found1 <-> q ∈ paths \/ q = p /\ holds_proton host p).
  { intros q. rewrite Hfound1. unfold holds_proton. rewrite Hentries. split.
    - intros [H|(-> & v & Hv & H)]; [by left|]. right. split; [done|].
      apply list_elem_of_filter in Hv as [Hc Hv]. by exists entries, v.
    - intros [H|(-> & es & v & [= <-] & Hv & Hc & H)]; [by left|]. right. split; [done|].
      exists v. split; [|done]. by apply list_elem_of_filter. }
  destruct (IH found1 (add_log l1 st))
    as [(found & l2 & Hrun2 & Hfound)|(l2 & Hrun2 & path & Hpath & Hnone)].
  - left. exists found, (l1 ++ l2). split; [by rewrite <- add_log_app, <- Hrun2|].
    intros q. rewrite Hfound, Hhere. split.
    + intros [[H|[-> H]]|[H1 H2]]; [by left | right; split; [by left|done]
                                     | right; split; [by right|done]].
    + intros [H|[H1 H2]]; [by left; left|].
      apply elem_of_cons in H1 as [->|H1]; [left; by right | right; by split].
  - right. exists (l1 ++ l2). split; [by rewrite <- add_log_app, <- Hrun2|].
    exists path. split; [by right | done].
Qed.

Lemma list_of_set_Permutation (s : gset string) : list_of_set host s ≡ₚ elements s.
Proof. apply merge_sort_Permutation. Qed.

Lemma elem_of_list_of_set (s : gset string) (x : string) : x ∈ list_of_set host s <-> x ∈ s.
Proof. by rewrite list_of_set_Permutation, elem_of_elements. Qed.

Lemma NoDup_list_of_set (s : gset string) : NoDup (list_of_set host s).
Proof. rewrite list_of_set_Permutation. apply NoDup_elements. Qed.

Lemma get_proton_paths_run st :
  (exists (found : gset string) l,
     get_proton_paths host st = (Ok (list_of_set host found), add_log l st) /\
     forall q, q ∈ found <-> q ∈ _iter_proton_locations host /\ holds_proton host q) \/
  (exists l,
     get_proton_paths host st = (Raise OSError, add_log l st) /\
     exists path, path ∈ _iter_proton_locations host /\ listdir host path = None).
Proof.
  destruct (location_loop_run (_iter_proton_locations host) ∅ st)
    as [(found & l & Hrun & Hfound)|(l & Hrun & Hnone)].
  - left. exists found, l. split; [|intros q; rewrite Hfound; set_solver].
    transitivity
      (match for_each location_step (_iter_proton_locations host) ∅ st with
       | (Ok a, st1) => (Ok (list_of_set host a), st1)
       | (Raise e, st1) => (Raise e, st1)
       end); [reflexivity | by rewrite Hrun].
  - right. exists l. split; [|done].
    transitivity
      (match for_each location_step (_iter_proton_locations host) ∅ st with
       | (Ok a, st1) => (Ok (list_of_set host a), st1)
       | (Raise e, st1) => (Raise e, st1)
       end); [reflexivity | by rewrite Hrun].
Qed.

Lemma _iter_proton_locations_isdir (path : string) :
  path ∈ _iter_proton_locations host -> os_path_isdir host path = true.
Proof.
  unfold _iter_proton_locations. destruct (get_steamapps_dirs host); [|by intros ?%elem_of_nil].
  intros [H|H]%elem_of_app; by apply list_elem_of_filter in H as [? _].
Qed.

Lemma find_proton_wine_complete (proton_paths : list string) (proton_path version : string) :
  proton_path ∈ proton_paths ->
  os_path_isfile host
    (Py.path_join (Py.path_join proton_path version) "dist/bin/wine") = true \/
  os_path_isfile host
    (Py.path_join (Py.path_join proton_path version) "files/bin/wine") = true ->
  exists path, find_proton_wine host proton_paths version = Some path.
Proof.
  intros Hin Hfile. induction proton_paths as [|p proton_paths IH];
    [by apply elem_of_nil in Hin|].
  cbn [find_proton_wine].
  destruct (os_path_isfile host (Py.path_join (Py.path_join p version) "dist/bin/wine"))
    eqn:Hd; [by eexists|].
  destruct (os_path_isfile host (Py.path_join (Py.path_join p version) "files/bin/wine"))
    eqn:Hf; [by eexists|].
  apply elem_of_cons in Hin as [->|Hin]; [|by apply IH].
  destruct Hfile; congruence.
Qed.

Lemma contains_nonempty (sub s : string) : sub <> "" -> Py.contains sub s = true -> s <> "".
Proof. intros Hsub Hc ->. by destruct sub. Qed.

End ProtonLocations.


(** C6, as stated, fails: on a host where no file exists, a version that is
    installed nowhere resolves to a path, by the fallback to the
    Lutris-managed directory. *)
Lemma registry_returns_unlocated_path : ~ returns_located_paths bare_host.
Proof.
  intros H.
  destruct (H (VStr "lutris-7.2-x86_64") None init_state
              (VStr "/home/user/.local/share/lutris/runners/wine/lutris-7.2-x86_64/bin/wine")
              init_state) as (p & _ & Hp).
  - by vm_compute.
  - discriminate Hp.
Qed.

Section RegistrySources.
Variable host : Host.

(** No build of [WINE_PATHS] is the empty path. *)
Lemma WINE_PATHS_build_nonempty (name build : string) :
  WINE_PATHS host !! name = Some build -> build <> "".
Proof.
  unfold WINE_PATHS. destruct (listdir host "/usr/lib/") as [candidates|].
  - intros [H|(c & _ & _ & _ & -> & _)]%registry_fold_inv.
    + unfold WINE_PATHS_static in H.
      apply lookup_insert_Some in H as [[_ <-]|[_ H]]; [done|].
      apply lookup_insert_Some in H as [[_ <-]|[_ H]]; [done|].
      apply lookup_insert_Some in H as [[_ <-]|[_ H]]; [done|].
      by apply lookup_singleton_Some in H as [_ <-].
    + by apply path_join_relative_nonempty.
  - intros H. unfold WINE_PATHS_static in H.
    apply lookup_insert_Some in H as [[_ <-]|[_ H]]; [done|].
    apply lookup_insert_Some in H as [[_ <-]|[_ H]]; [done|].
    apply lookup_insert_Some in H as [[_ <-]|[_ H]]; [done|].
    by apply lookup_singleton_Some in H as [_ <-].
Qed.

(** The version that the lookups are made for. *)
Lemma resolved_version_run (version : value) (config : option (gmap string value))
    (version_str : string) st :
  resolved_version version config version_str ->
  (if negb (truthy version) && bool_decide (config ≠ None ∧ config ≠ Some ∅)
   then getitem (default ∅ config) "version"
   else mret version) st = (Ok (VStr version_str), st).
Proof.
  intros [Hne [->|(Hfalse & cfg & -> & Hcfg)]].
  - assert (Ht : truthy (VStr version_str) = true).
    { cbn. by destruct (String.eqb_spec version_str ""). }
    by rewrite Ht.
  - rewrite Hfalse. cbn [negb andb]. rewrite bool_decide_true.
    + unfold getitem. change (default ∅ (Some cfg)) with cfg. by rewrite Hcfg.
    + split; [done|]. intros [= ->]. by rewrite lookup_empty in Hcfg.
Qed.

Lemma resolved_version_inv (version : value) (config : option (gmap string value))
    (v : value) st st' :
  (if negb (truthy version) && bool_decide (config ≠ None ∧ config ≠ Some ∅)
   then getitem (default ∅ config) "version"
   else mret version) st = (Ok v, st') ->
  st' = st /\
  forall version_str, v = VStr version_str -> version_str <> "" ->
                      resolved_version version config version_str.
Proof.
  intros Hv. destruct (truthy version) eqn:Htr; cbn [negb andb] in Hv.
  - apply mret_Ok_inv in Hv as [-> ->]. split; [done|]. intros s -> Hs. split; [done | by left].
  - case_bool_decide as Hc; cbn [andb] in Hv.
    + pose proof Hv as Hst. unfold getitem in Hst.
      destruct (default ∅ config !! "version"); [|discriminate Hst]. injection Hst as _ Hst.
      apply getitem_Ok_inv in Hv as [Hv _]. split; [done|]. intros s -> Hs.
      split; [done|]. right. split; [done|].
      destruct config as [cfg|]; [|by destruct Hc]. by exists cfg.
    + apply mret_Ok_inv in Hv as [-> ->]. split; [done|]. intros s -> Hs.
      cbn in Htr. by destruct (String.eqb_spec s "").
Qed.

Lemma get_wine_path_for_version_resolved (version : value)
    (config : option (gmap string value)) (version_str : string) st :
  resolved_version version config version_str ->
  get_wine_path_for_version host version config st =
  match WINE_PATHS host !! version_str with
  | Some build =>
      (exe ← find_executable host build; mret (VStr exe)) st
  | None =>
      (found ←
         (if Py.contains "Proton" version_str then
            proton_paths ← get_proton_paths host;
            mret (find_proton_wine host proton_paths version_str)
          else mret None);
       match found with
       | Some path => mret (VStr path)
       | None =>
           if String.eqb version_str "custom" then
             match config with
             | None =>
                 raise (RuntimeError
                   "Custom wine paths are only supported when a configuration is available.")
             | Some config =>
                 let wine_path := dict_get config "custom_wine_path" in
                 if negb (truthy wine_path) then
                   raise (RuntimeError
                     "The 'custom' Wine version can be used only if the custom wine path is set.")
                 else mret wine_path
             end
           else
             mret (VStr (Py.path_join (Py.path_join (WINE_DIR host) version_str) "bin/wine"))
       end) st
  end.
Proof.
  intros Hres. unfold get_wine_path_for_version.
  rewrite bind_run, (resolved_version_run _ _ _ _ Hres).
  assert (Ht : truthy (VStr version_str) = true).
  { cbn. destruct Hres as [Hne _]. by destruct (String.eqb_spec version_str ""). }
  rewrite Ht. cbn [negb]. by destruct (WINE_PATHS host !! version_str).
Qed.

End RegistrySources.

(** C6, as amended.  [get_wine_path_for_version] signals failure or returns a
    non-empty path, and what it returns is exactly this, by precedence: for
    a name of [WINE_PATHS], the executable that the [PATH] lookup finds for
    its build; else, for a version with [Proton] in its name, the runtime
    that is a file under a Proton location, the first in the order of
    [get_proton_paths]; else, for ["custom"], the configured path as it is;
    else the path [<WINE_DIR>/<version>/bin/wine], returned without a check
    that the version is installed there.  Conversely, every such source
    makes the call return that path. *)
Theorem get_wine_path_for_version_sources (host : Host) (version : value)
    (config : option (gmap string value)) (st : state) :
  (forall r st',
     get_wine_path_for_version host version config st = (Ok r, st') ->
     truthy r = true /\
     exists version_str,
       resolved_version version config version_str /\
       wine_path_source host config st version_str r) /\
  (forall version_str r,
     resolved_version version config version_str ->
     wine_path_source host config st version_str r ->
     exists st', get_wine_path_for_version host version config st = (Ok r, st')).
Proof.
  split.
  - intros r st' H. pose proof H as Hrun. unfold get_wine_path_for_version in H.
    apply bind_Ok_inv in H as (v & st1 & Hv & H).
    apply resolved_version_inv in Hv as [-> Hv].
    destruct (truthy v) eqn:Htv; [|discriminate H]. cbn [negb] in H.
    destruct v as [|b|version_str]; [discriminate Htv | discriminate H |].
    assert (Hne : version_str <> "") by (by intros ->).
    specialize (Hv version_str eq_refl Hne).
    rewrite (get_wine_path_for_version_resolved host _ _ _ _ Hv) in Hrun.
    clear H. destruct (WINE_PATHS host !! version_str) as [build|] eqn:Hpaths.
    + apply bind_Ok_inv in Hrun as (exe & st2 & Hexe & Hrun).
      apply mret_Ok_inv in Hrun as [<- _].
      apply find_executable_Ok in Hexe as (Hw & Hexe & _).
      split; [by simpl; destruct (String.eqb_spec exe "")|].
      exists version_str. split; [done|]. unfold wine_path_source. rewrite Hpaths.
      by exists exe.
    + apply bind_Ok_inv in Hrun as (found & st2 & Hfound & Hrun).
      assert (Hproton :
        match found with
        | Some path => proton_runtime host st version_str path
        | None => no_proton_runtime host st version_str
        end).
      { destruct (Py.contains "Proton" version_str) eqn:Hc.
        - apply bind_Ok_inv in Hfound as (proton_paths & st3 & Hpp & Hfound).
          apply mret_Ok_inv in Hfound as [Hfound _].
          destruct found as [path|]; [|right; by exists proton_paths, st3].
          split; [done|].
          pose proof Hfound as Hfile.
          apply find_proton_wine_Some in Hfile as [Hfile (pp & Hin & Hshape)].
          exists proton_paths, st3, pp. split_and!; [done..| |done|done].
          destruct (get_proton_paths_run host st)
            as [(set & l & Hset & Hlocs)|(l & Hraise & _)]; [|congruence].
          rewrite Hset in Hpp. injection Hpp as <- _.
          apply elem_of_list_of_set in Hin. by apply Hlocs in Hin as [? _].
        - apply mret_Ok_inv in Hfound as [<- _]. by left. }
      destruct found as [path|].
      * apply mret_Ok_inv in Hrun as [<- _]. split.
        { destruct Hproton as (_ & _ & _ & pp & _ & _ & _ & _ & Hshape & _).
          simpl. destruct (String.eqb_spec path "") as [->|]; [|done].
          destruct Hshape as [Hs|Hs]; symmetry in Hs;
            by apply path_join_relative_nonempty in Hs. }
        exists version_str. split; [done|]. unfold wine_path_source. rewrite Hpaths.
        left. by exists path.
      * destruct (String.eqb_spec version_str "custom") as [->|Hcustom].
        -- destruct config as [cfg|]; [|discriminate Hrun]. cbv zeta in Hrun.
           destruct (truthy (dict_get cfg "custom_wine_path")) eqn:Hwp; [|discriminate Hrun].
           apply mret_Ok_inv in Hrun as [<- _]. split; [done|].
           exists "custom". split; [done|]. unfold wine_path_source. rewrite Hpaths.
           right. split; [done|]. left.
           split_and!; [done | by exists cfg | done].
        -- apply mret_Ok_inv in Hrun as [<- _]. split.
           { simpl. destruct (String.eqb_spec
               (Py.path_join (Py.path_join (WINE_DIR host) version_str) "bin/wine") "")
               as [Hs|]; [|done]. by apply path_join_relative_nonempty in Hs. }
           exists version_str. split; [done|]. unfold wine_path_source. rewrite Hpaths.
           right. split; [done|]. by right.
  - intros version_str r Hres Hsource.
    rewrite (get_wine_path_for_version_resolved host _ _ _ _ Hres).
    unfold wine_path_source in Hsource.
    destruct (WINE_PATHS host !! version_str) as [build|] eqn:Hpaths.
    + destruct Hsource as (exe & Hw & Hexe & ->). exists st.
      pose proof (WINE_PATHS_build_nonempty host _ _ Hpaths) as Hbuild.
      rewrite bind_run. unfold find_executable.
      destruct (String.eqb_spec build ""); [done|]. rewrite Hw.
      by destruct (String.eqb_spec exe "").
    + destruct Hsource as [(path & (Hc & pps & st1 & pp & Hpp & Hfound & _) & ->)|[Hno Hsource]].
      * exists st1. by rewrite Hc, !bind_run, Hpp, Hfound.
      * assert (Hfound : exists st1,
          (if Py.contains "Proton" version_str then
             proton_paths ← get_proton_paths host;
             mret (find_proton_wine host proton_paths version_str)
           else mret None) st = (Ok None, st1)).
        { destruct (Py.contains "Proton" version_str) eqn:Hc; [|by exists st].
          destruct Hno as [Hc'|(pps & st1 & Hpp & Hfound)]; [congruence|].
          exists st1. by rewrite bind_run, Hpp, Hfound. }
        destruct Hfound as [st1 Hfound]. exists st1. rewrite bind_run, Hfound.
        destruct Hsource as [(-> & (cfg & -> & ->) & Htruthy)|[Hcustom ->]].
        -- cbn [String.eqb Ascii.eqb Bool.eqb]. by rewrite Htruthy.
        -- by destruct (String.eqb_spec version_str "custom").
Qed.

Lemma get_wine_path_for_version_sources_witness :
  truthy (VStr "/home/user/.local/share/lutris/runners/wine/lutris-7.2-x86_64/bin/wine") = true /\
  exists version_str,
    resolved_version (VStr "lutris-7.2-x86_64") None version_str /\
    wine_path_source bare_host None init_state version_str
      (VStr "/home/user/.local/share/lutris/runners/wine/lutris-7.2-x86_64/bin/wine").
Proof.
  apply (proj1 (get_wine_path_for_version_sources bare_host (VStr "lutris-7.2-x86_64") None
                  init_state) _ init_state).
  by vm_compute.
Defined.

(** ** Which exceptions a computation can raise *)


Section RaisesOnly.
Context {A B : Type}.
Implicit Types (P : exn -> Prop).

Lemma raises_only_ret (a : A) P : raises_only (mret a) P.
Proof. intros st e st' H. discriminate H. Qed.

Lemma raises_only_raise (e : exn) P : P e -> raises_only (raise e : M A) P.
Proof. intros HP st e' st' [= <- _]. exact HP. Qed.

Lemma raises_only_bind (m : M A) (f : A -> M B) P :
  raises_only m P -> (forall a, raises_only (f a) P) -> raises_only (m ≫= f) P.
Proof.
  intros Hm Hf st e st' H. apply bind_Raise_inv in H as [H|(a & st1 & _ & H)].
  - by eapply Hm.
  - by eapply Hf.
Qed.

Lemma raises_only_weaken (m : M A) P (Q : exn -> Prop) :
  raises_only m P -> (forall e, P e -> Q e) -> raises_only m Q.
Proof. intros Hm HPQ st e st' H. eapply HPQ, Hm, H. Qed.

Lemma raises_only_try_except (body handler : M A) (handled : exn -> bool) P :
  raises_only body (fun e => handled e = false -> P e) ->
  raises_only handler P ->
  raises_only (try_except body handled handler) P.
Proof.
  intros Hb Hh st e st'. unfold try_except.
  destruct (body st) as [[a|e1] st1] eqn:Hbody; [discriminate|].
  destruct (handled e1) eqn:He1.
  - apply Hh.
  - intros [= <- _]. eapply Hb; eauto.
Qed.

End RaisesOnly.

Lemma raises_only_logger lv msg P : raises_only (logger lv msg) P.
Proof. intros st e st' H. discriminate H. Qed.

(** A guarded subscript never raises. *)
Lemma getitem_truthy (d : gmap string value) (k : string) :
  truthy (dict_get d k) = true -> getitem d k = mret (dict_get d k).
Proof.
  unfold dict_get, getitem. destruct (d !! k); [done | discriminate].
Qed.


#[local] Hint Unfold shape_error : core.

Ltac raises_step :=
  first
    [ apply raises_only_ret
    | apply raises_only_logger
    | apply raises_only_raise; auto
    | apply raises_only_bind; [|intros ?] ].

Ltac raises_auto := repeat first [ raises_step | progress case_match ].

Section StageExceptions.
Variable host : Host.

Lemma _execute_raises command env cwd capture_stderr quiet shell timeout P :
  raises_only (_execute host command env cwd capture_stderr quiet shell timeout) P.
Proof.
  unfold _execute, path_exists. raises_auto.
Qed.

Lemma unpack2_raises r : raises_only (unpack2 r) shape_error.
Proof. unfold unpack2. raises_auto. Qed.

Lemma _get_gamescope_fsr_option_raises :
  raises_only (_get_gamescope_fsr_option host) shape_error.
Proof.
  unfold _get_gamescope_fsr_option, cache_single, get_fsr_memo, set_fsr_memo.
  apply raises_only_bind; [by intros ? ? ? ?|]. intros memo.
  destruct memo; [raises_auto|].
  apply raises_only_bind; [|intros ?; apply raises_only_bind; [by intros ? ? ? ?|intros _; raises_auto]].
  case_match; [|raises_auto].
  apply raises_only_bind; [apply _execute_raises|]. intros r.
  apply raises_only_bind; [apply unpack2_raises|]. intros [? ?]. raises_auto.
Qed.

Lemma split_resolution_raises v : raises_only (split_resolution v) shape_error.
Proof. unfold split_resolution. raises_auto. Qed.

Lemma shlex_split_value_raises v : raises_only (shlex_split_value host v) shape_error.
Proof. unfold shlex_split_value. raises_auto. Qed.

Lemma get_gamescope_args_raises launch_arguments system_config :
  raises_only (get_gamescope_args host launch_arguments system_config) shape_error.
Proof.
  unfold get_gamescope_args.
  repeat (apply raises_only_bind; [|intros ?]); try apply raises_only_ret;
    (destruct (truthy (dict_get system_config _)) eqn:Ht; [|apply raises_only_ret]);
    rewrite (getitem_truthy _ _ Ht);
    repeat first
      [ apply raises_only_ret
      | apply _get_gamescope_fsr_option_raises
      | apply split_resolution_raises
      | apply shlex_split_value_raises
      | apply raises_only_bind; [|intros ?]
      | match goal with |- raises_only (let '(_, _) := ?p in _) _ => destruct p end ].
Qed.

Lemma gamescope_stage_raises system_config launch_arguments :
  raises_only (gamescope_stage host system_config launch_arguments) shape_error.
Proof.
  unfold gamescope_stage. case_match; [apply get_gamescope_args_raises | apply raises_only_ret].
Qed.

Lemma steam_stage_raises env P : raises_only (steam_stage host env) P.
Proof. unfold steam_stage. raises_auto. Qed.

Lemma locale_stage_raises system_config env :
  raises_only (locale_stage system_config env)
    (fun e => e = KeyError "locale" /\ system_config !! "locale" = None).
Proof.
  unfold locale_stage, getitem.
  destruct (system_config !! "locale") eqn:Hl; raises_auto.
Qed.

Lemma libstrangle_stage_raises system_config launch_arguments P :
  raises_only (libstrangle_stage host system_config launch_arguments) P.
Proof.
  unfold libstrangle_stage. case_match; [|apply raises_only_ret].
  apply raises_only_try_except; [|raises_auto].
  apply raises_only_bind; [|intros ?; apply raises_only_ret].
  unfold find_executable. raises_auto; cbn; discriminate.
Qed.

Lemma prefix_command_stage_raises system_config launch_arguments :
  raises_only (prefix_command_stage host system_config launch_arguments) shape_error.
Proof.
  unfold prefix_command_stage. case_match; [|apply raises_only_ret].
  case_match; try (apply raises_only_raise; auto).
  apply raises_only_bind; [apply shlex_split_value_raises | intros ?; apply raises_only_ret].
Qed.

Lemma single_cpu_stage_raises system_config launch_arguments :
  raises_only (single_cpu_stage system_config launch_arguments) shape_error.
Proof. unfold single_cpu_stage. raises_auto. Qed.

Lemma environment_stage_raises runner gameplay_info env :
  raises_only (environment_stage runner gameplay_info env) shape_error.
Proof. unfold environment_stage. raises_auto. Qed.

(** The exceptions of [get_launch_parameters]: a [KeyError] for a missing
    ["command"] or ["locale"], and otherwise only an error about the shape
    of a value. *)
Lemma get_launch_parameters_raises runner gameplay_info :
  raises_only (get_launch_parameters host runner gameplay_info)
    (fun e =>
       e = KeyError "command" /\ gi_command gameplay_info = None \/
       e = KeyError "locale" /\ system_config runner !! "locale" = None \/
       shape_error e).
Proof.
  unfold get_launch_parameters.
  apply raises_only_bind.
  { destruct (gi_command gameplay_info); [apply raises_only_ret|].
    apply raises_only_raise. by left. }
  intros c. apply raises_only_bind; [apply steam_stage_raises|]. intros env1.
  apply raises_only_bind.
  { eapply raises_only_weaken; [apply locale_stage_raises|]. intros e He. by right; left. }
  intros env2. destruct (mangohud_stage _ _ _ _) as [la env3].
  apply raises_only_bind; [apply libstrangle_stage_raises|]. intros la1.
  apply raises_only_bind.
  { eapply raises_only_weaken; [apply prefix_command_stage_raises|]. auto. }
  intros la2. apply raises_only_bind.
  { eapply raises_only_weaken; [apply single_cpu_stage_raises|]. auto. }
  intros la3. apply raises_only_bind.
  { eapply raises_only_weaken; [apply environment_stage_raises|]. auto. }
  intros env4. apply raises_only_bind.
  { eapply raises_only_weaken; [apply gamescope_stage_raises|]. auto. }
  intros la4. apply raises_only_ret.
Qed.

End StageExceptions.

(** ** The stages of [get_launch_parameters], one by one *)

Section Stages.
Variable host : Host.
Implicit Types (system_config : gmap string value) (launch_arguments : list value).
Implicit Types (env : gmap string value) (st : state).

Lemma steam_stage_run env st :
  exists env' l,
    steam_stage host env st = (Ok env', add_log l st) /\
    (forall k, k <> "LC_ALL" -> env' !! k = env !! k).
Proof.
  unfold steam_stage. destruct (environ host !! "SteamAppId") as [app_id|].
  - destruct (String.eqb app_id "").
    + exists env, []. by rewrite add_log_nil.
    + eexists _, _. split; [reflexivity|]. intros k Hk. by rewrite lookup_insert_ne.
  - exists env, []. by rewrite add_log_nil.
Qed.

Lemma locale_stage_Some system_config env st locale :
  system_config !! "locale" = Some locale ->
  locale_stage system_config env st =
  (Ok (if decide (locale = VStr "") then env else <["LC_ALL" := locale]> env), st).
Proof.
  intros H. unfold locale_stage, getitem. rewrite H, bind_run.
  unfold mret, M_ret. by case_decide.
Qed.

Lemma locale_stage_None system_config env st :
  system_config !! "locale" = None ->
  locale_stage system_config env st = (Raise (KeyError "locale"), st).
Proof. intros H. unfold locale_stage, getitem. by rewrite H. Qed.

Lemma py_or_truthy (a b : value) : truthy a = true -> py_or a b = a.
Proof. unfold py_or. by intros ->. Qed.

Lemma py_or_falsy (a b : value) : truthy a = false -> py_or a b = b.
Proof. unfold py_or. by intros ->. Qed.

Lemma truthy_py_or_false (a b : value) :
  truthy b = false -> truthy (py_or a b) = truthy a.
Proof. unfold py_or. destruct (truthy a) eqn:Ha; congruence. Qed.

Lemma find_executable_found exec_name exe st :
  which host exec_name = Some exe -> exec_name <> "" -> exe <> "" ->
  find_executable host exec_name st = (Ok exe, st).
Proof.
  intros Hw Hn He. unfold find_executable.
  destruct (String.eqb_spec exec_name ""); [done|]. rewrite Hw.
  by destruct (String.eqb_spec exe "").
Qed.

Lemma find_executable_missing exec_name st :
  can_find_executable host exec_name = false ->
  find_executable host exec_name st = (Raise (MissingExecutableError exec_name), st).
Proof.
  unfold can_find_executable, find_executable.
  destruct (String.eqb exec_name ""); [done|]. cbn [negb andb].
  destruct (which host exec_name) as [exe|]; [|done].
  by destruct (String.eqb exe "").
Qed.

Lemma can_find_executable_true exec_name :
  can_find_executable host exec_name = true ->
  exists exe, which host exec_name = Some exe /\ exec_name <> "" /\ exe <> "".
Proof.
  unfold can_find_executable.
  destruct (String.eqb_spec exec_name ""); [done|]. cbn [negb andb].
  destruct (which host exec_name) as [exe|]; [|done].
  destruct (String.eqb_spec exe ""); [done|]. by exists exe.
Qed.

Lemma libstrangle_stage_off system_config launch_arguments st :
  truthy (dict_get system_config "fps_limit") = false ->
  libstrangle_stage host system_config launch_arguments st = (Ok launch_arguments, st).
Proof.
  intros H. unfold libstrangle_stage. by rewrite truthy_py_or_false, H.
Qed.

Lemma libstrangle_stage_found system_config launch_arguments st exe :
  truthy (dict_get system_config "fps_limit") = true ->
  which host "strangle" = Some exe -> exe <> "" ->
  libstrangle_stage host system_config launch_arguments st =
  (Ok (VStr exe :: dict_get system_config "fps_limit" :: launch_arguments), st).
Proof.
  intros H Hw He. unfold libstrangle_stage. rewrite py_or_truthy, H by done.
  unfold try_except. rewrite bind_run.
  by rewrite (find_executable_found "strangle" exe).
Qed.

Lemma libstrangle_stage_missing system_config launch_arguments st :
  truthy (dict_get system_config "fps_limit") = true ->
  can_find_executable host "strangle" = false ->
  libstrangle_stage host system_config launch_arguments st =
  (Ok launch_arguments, add_log [strangle_warning] st).
Proof.
  intros H Hc. unfold libstrangle_stage. rewrite py_or_truthy, H by done.
  unfold try_except. rewrite bind_run.
  by rewrite (find_executable_missing "strangle").
Qed.

(** The stage never fails: it returns the vector with or without the two
    tokens in front. *)
Lemma libstrangle_stage_total system_config launch_arguments st :
  exists la l,
    libstrangle_stage host system_config launch_arguments st = (Ok la, add_log l st) /\
    exists pre, la = pre ++ launch_arguments.
Proof.
  destruct (truthy (dict_get system_config "fps_limit")) eqn:H.
  - destruct (can_find_executable host "strangle") eqn:Hc.
    + apply can_find_executable_true in Hc as (exe & Hw & _ & He).
      eexists _, []. rewrite add_log_nil. split; [by apply libstrangle_stage_found|].
      by eexists [_; _].
    + eexists _, _. split; [by apply libstrangle_stage_missing|]. by exists [].
  - eexists _, []. rewrite add_log_nil. split; [by apply libstrangle_stage_off|]. by exists [].
Qed.

Lemma shlex_split_value_Ok_inv v tokens st st' :
  shlex_split_value host v st = (Ok tokens, st') ->
  st' = st /\ exists s, v = VStr s /\ shlex_split host s = Some tokens.
Proof.
  unfold shlex_split_value. destruct v as [| |s]; [discriminate..|].
  destruct (shlex_split host s) eqn:Hs; [|discriminate].
  intros [= <- <-]. split; [done|]. by exists s.
Qed.

Lemma prefix_command_stage_Ok_inv system_config launch_arguments st la st' :
  prefix_command_stage host system_config launch_arguments st = (Ok la, st') ->
  st' = st /\ exists tokens, la = strs tokens ++ launch_arguments.
Proof.
  unfold prefix_command_stage.
  destruct (truthy (py_or (dict_get system_config "prefix_command") (VStr ""))).
  - destruct (py_or (dict_get system_config "prefix_command") (VStr "")) as [| |s];
      [discriminate..|]. intros H.
    apply bind_Ok_inv in H as (tokens & st1 & H1 & H).
    apply shlex_split_value_Ok_inv in H1 as [-> _].
    apply mret_Ok_inv in H as [<- <-]. split; [done|]. by exists tokens.
  - intros [= <- <-]. split; [done|]. by exists [].
Qed.

Lemma single_cpu_stage_off system_config launch_arguments st :
  truthy (dict_get system_config "single_cpu") = false ->
  single_cpu_stage system_config launch_arguments st = (Ok launch_arguments, st).
Proof.
  intros H. unfold single_cpu_stage. by rewrite truthy_py_or_false, H.
Qed.

Lemma single_cpu_stage_parsed system_config launch_arguments st s n :
  truthy (dict_get system_config "single_cpu") = true ->
  dict_get system_config "limit_cpu_count" = VStr s ->
  Py.isnumeric s = true -> Py.int s = Some n ->
  single_cpu_stage system_config launch_arguments st =
  (Ok (taskset_tokens n ++ launch_arguments), add_log [single_cpu_info] st).
Proof.
  intros H Hl Hnum Hint. unfold single_cpu_stage.
  rewrite truthy_py_or_false, H, Hl by done.
  assert (Hs : truthy (VStr s) = true) by by destruct s.
  rewrite Hs, Hnum, Hint. reflexivity.
Qed.

Lemma single_cpu_stage_unparsed system_config launch_arguments st :
  truthy (dict_get system_config "single_cpu") = true ->
  (truthy (dict_get system_config "limit_cpu_count") = false \/
   exists s, dict_get system_config "limit_cpu_count" = VStr s /\ Py.isnumeric s = false) ->
  single_cpu_stage system_config launch_arguments st =
  (Ok (taskset_tokens 1 ++ launch_arguments), add_log [single_cpu_info] st).
Proof.
  intros H Hl. unfold single_cpu_stage. rewrite truthy_py_or_false, H by done.
  destruct Hl as [Hl|(s & Hl & Hnum)].
  - by rewrite Hl.
  - rewrite Hl, Hnum. by destruct (truthy (VStr s)).
Qed.

Lemma single_cpu_stage_Ok_inv system_config launch_arguments st la st' :
  single_cpu_stage system_config launch_arguments st = (Ok la, st') ->
  truthy (dict_get system_config "single_cpu") = false /\ la = launch_arguments /\ st' = st \/
  truthy (dict_get system_config "single_cpu") = true /\
  exists n, la = taskset_tokens n ++ launch_arguments /\ st' = add_log [single_cpu_info] st.
Proof.
  destruct (truthy (dict_get system_config "single_cpu")) eqn:H.
  - intros Hrun. right. split; [done|].
    destruct (truthy (dict_get system_config "limit_cpu_count")) eqn:Hl.
    + destruct (dict_get system_config "limit_cpu_count") as [|b|s] eqn:Hv.
      * discriminate Hl.
      * unfold single_cpu_stage in Hrun.
        rewrite truthy_py_or_false, H, Hv in Hrun by done. simpl in Hl. subst b.
        discriminate Hrun.
      * destruct (Py.isnumeric s) eqn:Hnum.
        -- destruct (Py.int s) as [n|] eqn:Hint.
           ++ rewrite (single_cpu_stage_parsed _ _ _ s n) in Hrun by done.
              injection Hrun as <- <-. by exists n.
           ++ unfold single_cpu_stage in Hrun.
              rewrite truthy_py_or_false, H, Hv, Hl, Hnum, Hint in Hrun by done.
              discriminate Hrun.
        -- rewrite single_cpu_stage_unparsed in Hrun; [|done|right; by exists s].
           injection Hrun as <- <-. by exists 1%N.
    + rewrite single_cpu_stage_unparsed in Hrun; [|done|by left].
      injection Hrun as <- <-. by exists 1%N.
  - rewrite single_cpu_stage_off by done. intros [= <- <-]. by left.
Qed.

Lemma environment_stage_Ok_inv runner gameplay_info env st env' st' :
  environment_stage runner gameplay_info env st = (Ok env', st') -> st' = st.
Proof.
  unfold environment_stage. repeat case_match; by intros [= _ <-].
Qed.

End Stages.

(** ** [get_gamescope_args] *)

Section Gamescope.
Variable host : Host.
Implicit Types (system_config : gmap string value) (launch_arguments : list value).
Implicit Types (st : state).

Lemma optional_step_Ok_inv (cond : bool) (body : M (list value)) launch_arguments st la st' :
  (if cond then body else mret launch_arguments) st = (Ok la, st') ->
  cond = false /\ la = launch_arguments /\ st' = st \/
  cond = true /\ body st = (Ok la, st').
Proof.
  destruct cond; [by right|]. intros H. apply mret_Ok_inv in H as [<- <-]. by left.
Qed.

Lemma split_resolution_Ok_inv v w h st st' :
  split_resolution v st = (Ok (w, h), st') ->
  st' = st /\ exists s, v = VStr s /\ Py.split "x"%char (Py.lower s) = [w; h].
Proof.
  unfold split_resolution. destruct v as [| |s]; [discriminate..|].
  destruct (Py.split "x"%char (Py.lower s)) as [|w' [|h' [|? ?]]] eqn:Hs; try discriminate.
  intros [= <- <- <-]. split; [done|]. by exists s.
Qed.

(** The shape of what [get_gamescope_args] returns: [gamescope], the game
    resolution, the output resolution, the other options, [--], and the
    command it was given. *)
Lemma get_gamescope_args_Ok_inv launch_arguments system_config st la st' :
  get_gamescope_args host launch_arguments system_config st = (Ok la, st') ->
  exists game_res output_res options,
    la = VStr "gamescope" :: game_res ++ output_res ++ options ++ VStr "--" :: launch_arguments /\
    (truthy (dict_get system_config "gamescope_output_res") = false /\ output_res = [] \/
     exists s w h,
       dict_get system_config "gamescope_output_res" = VStr s /\
       Py.split "x"%char (Py.lower s) = [w; h] /\
       output_res = [VStr "-W"; VStr w; VStr "-H"; VStr h]).
Proof.
  unfold get_gamescope_args. intros H.
  apply bind_Ok_inv in H as (la1 & st1 & H1 & H).
  apply bind_Ok_inv in H as (la2 & st2 & H2 & H).
  apply bind_Ok_inv in H as (la3 & st3 & H3 & H).
  apply bind_Ok_inv in H as (la4 & st4 & H4 & H).
  apply bind_Ok_inv in H as (la5 & st5 & H5 & H).
  apply bind_Ok_inv in H as (la6 & st6 & H6 & H).
  apply mret_Ok_inv in H as [<- _].
  assert (E1 : exists o1, la1 = o1 ++ VStr "--" :: launch_arguments).
  { apply optional_step_Ok_inv in H1 as [(_ & -> & _)|[Ht H1]].
    - destruct (truthy (dict_get system_config "gamescope_force_grab_cursor"));
        [by exists [VStr "--force-grab-cursor"] | by exists []].
    - rewrite (getitem_truthy _ _ Ht) in H1.
      apply bind_Ok_inv in H1 as (v & ? & Hv & H1). apply mret_Ok_inv in Hv as [<- <-].
      apply bind_Ok_inv in H1 as (opt & ? & _ & H1). apply mret_Ok_inv in H1 as [<- _].
      destruct (truthy (dict_get system_config "gamescope_force_grab_cursor")).
      + eexists (strs opt ++ [_; _; _]). by rewrite <- app_assoc.
      + eexists (strs opt ++ [_; _]). by rewrite <- app_assoc. }
  destruct E1 as [o1 ->].
  assert (E2 : exists o2, la2 = o2 ++ VStr "--" :: launch_arguments).
  { apply optional_step_Ok_inv in H2 as [(_ & -> & _)|[Ht H2]]; [by exists o1|].
    rewrite (getitem_truthy _ _ Ht) in H2.
    apply bind_Ok_inv in H2 as (v & ? & Hv & H2). apply mret_Ok_inv in Hv as [<- <-].
    apply bind_Ok_inv in H2 as (flags & ? & _ & H2). apply mret_Ok_inv in H2 as [<- _].
    exists (strs flags ++ o1). by rewrite <- app_assoc. }
  destruct E2 as [o2 ->].
  assert (E3 : exists o3, la3 = o3 ++ VStr "--" :: launch_arguments).
  { apply optional_step_Ok_inv in H3 as [(_ & -> & _)|[Ht H3]]; [by exists o2|].
    rewrite (getitem_truthy _ _ Ht) in H3.
    apply bind_Ok_inv in H3 as (v & ? & Hv & H3). apply mret_Ok_inv in Hv as [<- <-].
    apply mret_Ok_inv in H3 as [<- _]. by eexists (_ :: o2). }
  destruct E3 as [o3 ->].
  assert (E4 : exists o4, la4 = o4 ++ VStr "--" :: launch_arguments).
  { apply optional_step_Ok_inv in H4 as [(_ & -> & _)|[Ht H4]]; [by exists o3|].
    rewrite (getitem_truthy _ _ Ht) in H4.
    apply bind_Ok_inv in H4 as (v & ? & Hv & H4). apply mret_Ok_inv in Hv as [<- <-].
    apply mret_Ok_inv in H4 as [<- _]. by eexists (_ :: _ :: o3). }
  destruct E4 as [o4 ->].
  assert (E5 : exists output_res, la5 = output_res ++ o4 ++ VStr "--" :: launch_arguments /\
    (truthy (dict_get system_config "gamescope_output_res") = false /\ output_res = [] \/
     exists s w h,
       dict_get system_config "gamescope_output_res" = VStr s /\
       Py.split "x"%char (Py.lower s) = [w; h] /\
       output_res = [VStr "-W"; VStr w; VStr "-H"; VStr h])).
  { apply optional_step_Ok_inv in H5 as [(Ht & -> & _)|[Ht H5]].
    - exists []. split; [done | by left].
    - rewrite (getitem_truthy _ _ Ht) in H5.
      apply bind_Ok_inv in H5 as (v & ? & Hv & H5). apply mret_Ok_inv in Hv as [<- <-].
      apply bind_Ok_inv in H5 as ([w h] & ? & Hs & H5). apply mret_Ok_inv in H5 as [<- _].
      apply split_resolution_Ok_inv in Hs as [_ (s & Hs & Hsplit)].
      eexists [_; _; _; _]. split; [done|]. right. by exists s, w, h. }
  destruct E5 as (output_res & -> & Hout).
  assert (E6 : exists game_res, la6 = game_res ++ output_res ++ o4 ++ VStr "--" :: launch_arguments).
  { apply optional_step_Ok_inv in H6 as [(_ & -> & _)|[Ht H6]]; [by exists []|].
    rewrite (getitem_truthy _ _ Ht) in H6.
    apply bind_Ok_inv in H6 as (v & ? & Hv & H6). apply mret_Ok_inv in Hv as [<- <-].
    apply bind_Ok_inv in H6 as ([w h] & ? & Hs & H6). apply mret_Ok_inv in H6 as [<- _].
    by eexists [_; _; _; _]. }
  destruct E6 as (game_res & ->).
  by exists game_res, output_res, o4.
Qed.

(** Which letter cases of ["1920x1080"] there are. *)
Lemma lower_1920x1080 (s : string) :
  Py.lower s = "1920x1080" <-> s = "1920x1080" \/ s = "1920X1080".
Proof.
  split; [|by intros [-> | ->]].
  assert (Hdigit : forall c d : ascii,
    Py.lower_char c = d -> (Py.code_point d <? 65)%N = true -> c = d).
  { intros c d <- Hlt. revert Hlt.
    destruct c as [[] [] [] [] [] [] [] []]; vm_compute; congruence. }
  assert (Hx : forall c : ascii,
    Py.lower_char c = "x"%char -> c = "x"%char \/ c = "X"%char).
  { intros c. destruct c as [[] [] [] [] [] [] [] []]; vm_compute; intros Hc;
      first [discriminate Hc | by left | by right]. }
  intros H.
  destruct s as [|c1 [|c2 [|c3 [|c4 [|c5 [|c6 [|c7 [|c8 [|c9 [|? ?]]]]]]]]]];
    try discriminate H.
  cbn [Py.lower] in H. injection H as H1 H2 H3 H4 H5 H6 H7 H8 H9.
  apply Hdigit in H1, H2, H3, H4, H6, H7, H8, H9; try reflexivity. subst.
  destruct (Hx _ H5) as [-> | ->]; [by left | by right].
Qed.

End Gamescope.

(** ** When the stages return *)

Lemma dict_get_insert_ne (d : gmap string value) (k k' : string) (v : value) :
  k <> k' -> dict_get (<[k := v]> d) k' = dict_get d k'.
Proof. intros H. unfold dict_get. by rewrite lookup_insert_ne. Qed.

Lemma getitem_insert_ne (d : gmap string value) (k k' : string) (v : value) :
  k <> k' -> getitem (<[k := v]> d) k' = getitem d k'.
Proof. intros H. unfold getitem. by rewrite lookup_insert_ne. Qed.

Section GamescopeReturns.
Variable host : Host.
Implicit Types (system_config : gmap string value) (launch_arguments : list value).
Implicit Types (st : state).

Lemma _execute_completed command0 rest cwd capture_stderr shell timeout st out err :
  Py.isabs command0 = false ->
  popen host (PopenCall (command0 :: rest) shell capture_stderr (get_environment host)
                cwd timeout) = Completed out err ->
  _execute host (command0 :: rest) None cwd capture_stderr false shell timeout st =
  (Ok (RetTuple (Py.strip out) (Py.strip (if capture_stderr then err else ""))),
   add_log [(DEBUG, "Executing %s")] st).
Proof.
  intros Habs Hp. unfold _execute. rewrite Habs.
  rewrite bind_run. unfold mret at 1, M_ret. cbn beta iota.
  rewrite bind_run, logger_run. cbn beta iota.
  rewrite bind_run. unfold mret at 1, M_ret. cbn beta iota.
  by rewrite Hp.
Qed.

Lemma _get_gamescope_fsr_option_returns st :
  fsr_probe_ok host st = true -> returns (_get_gamescope_fsr_option host) st.
Proof.
  unfold fsr_probe_ok, returns, _get_gamescope_fsr_option, cache_single.
  rewrite bind_run. unfold get_fsr_memo. cbn beta iota.
  destruct (fsr_memo st) as [cached|]; [by eexists _, _|].
  destruct (can_find_executable host "gamescope"); cbn [negb orb].
  - intros Hp. unfold execute_with_error, gamescope_help_call in *.
    destruct (popen host _) as [out err| | |] eqn:Hpopen; [|discriminate..].
    rewrite !bind_run. rewrite (_execute_completed _ _ _ _ _ _ _ out err) by done.
    cbn beta iota. rewrite bind_run. unfold unpack2, mret at 1, M_ret. cbn beta iota.
    destruct (Py.contains _ _); by eexists _, _.
  - intros _. by eexists _, _.
Qed.

Lemma split_resolution_returns v st :
  truthy v = true -> resolution_ok v = true -> returns (split_resolution v) st.
Proof.
  unfold resolution_ok. intros ->. cbn [negb orb].
  destruct v as [| |s]; [discriminate..|]. intros Hlen%bool_decide_eq_true.
  unfold split_resolution.
  destruct (Py.split "x"%char (Py.lower s)) as [|w [|h [|? ?]]]; try discriminate Hlen.
  by eexists _, _.
Qed.

Lemma shlex_split_value_returns v st :
  truthy v = true -> shlex_ok host v = true -> returns (shlex_split_value host v) st.
Proof.
  unfold shlex_ok. intros ->. cbn [negb orb].
  destruct v as [| |s]; [discriminate..|]. intros [tokens Hs]%bool_decide_eq_true.
  unfold shlex_split_value. rewrite Hs. by eexists _, _.
Qed.

Lemma get_gamescope_args_returns launch_arguments system_config st :
  gamescope_args_ok host system_config st = true ->
  returns (get_gamescope_args host launch_arguments system_config) st.
Proof.
  unfold gamescope_args_ok. intros Hok.
  apply andb_prop in Hok as [Hok Hgame]. apply andb_prop in Hok as [Hok Hout].
  apply andb_prop in Hok as [Hfsr Hflags].
  unfold get_gamescope_args.
  apply returns_bind.
  { destruct (truthy (dict_get system_config "gamescope_fsr_sharpness")) eqn:Ht;
      [|apply returns_ret].
    rewrite (getitem_truthy _ _ Ht). apply returns_bind; [apply returns_ret|].
    intros v st1 Hv. apply mret_Ok_inv in Hv as [<- <-].
    apply returns_bind; [by apply _get_gamescope_fsr_option_returns|].
    intros; apply returns_ret. }
  intros la1 st1 _. apply returns_bind.
  { destruct (truthy (dict_get system_config "gamescope_flags")) eqn:Ht; [|apply returns_ret].
    rewrite (getitem_truthy _ _ Ht). apply returns_bind; [apply returns_ret|].
    intros v st2 Hv. apply mret_Ok_inv in Hv as [<- <-].
    apply returns_bind; [by apply shlex_split_value_returns|].
    intros; apply returns_ret. }
  intros la2 st2 _. apply returns_bind.
  { destruct (truthy (dict_get system_config "gamescope_window_mode")) eqn:Ht;
      [|apply returns_ret].
    rewrite (getitem_truthy _ _ Ht). apply returns_bind; [apply returns_ret|].
    intros; apply returns_ret. }
  intros la3 st3 _. apply returns_bind.
  { destruct (truthy (dict_get system_config "gamescope_fps_limiter")) eqn:Ht;
      [|apply returns_ret].
    rewrite (getitem_truthy _ _ Ht). apply returns_bind; [apply returns_ret|].
    intros; apply returns_ret. }
  intros la4 st4 _. apply returns_bind.
  { destruct (truthy (dict_get system_config "gamescope_output_res")) eqn:Ht;
      [|apply returns_ret].
    rewrite (getitem_truthy _ _ Ht). apply returns_bind; [apply returns_ret|].
    intros v st5 Hv. apply mret_Ok_inv in Hv as [<- <-].
    apply returns_bind; [by apply split_resolution_returns|].
    intros [w h] ? _. apply returns_ret. }
  intros la5 st5 _. apply returns_bind.
  { destruct (truthy (dict_get system_config "gamescope_game_res")) eqn:Ht;
      [|apply returns_ret].
    rewrite (getitem_truthy _ _ Ht). apply returns_bind; [apply returns_ret|].
    intros v st6 Hv. apply mret_Ok_inv in Hv as [<- <-].
    apply returns_bind; [by apply split_resolution_returns|].
    intros [w h] ? _. apply returns_ret. }
  intros la6 st6 _. apply returns_ret.
Qed.

(** The output resolution is read through [lower()]: a configuration whose
    [gamescope_output_res] differs from ["1920x1080"] in letter case only
    gives the very same outcome. *)
Lemma get_gamescope_args_res_case launch_arguments system_config res st :
  Py.lower res = "1920x1080" ->
  system_config !! "gamescope_output_res" = Some (VStr res) ->
  get_gamescope_args host launch_arguments system_config st =
  get_gamescope_args host launch_arguments
    (<["gamescope_output_res" := VStr "1920x1080"]> system_config) st.
Proof.
  intros Hlower Hres. unfold get_gamescope_args.
  assert (Hget : forall k, k <> "gamescope_output_res" ->
    dict_get (<["gamescope_output_res" := VStr "1920x1080"]> system_config) k
    = dict_get system_config k /\
    getitem (<["gamescope_output_res" := VStr "1920x1080"]> system_config) k
    = getitem system_config k).
  { intros k Hk. by rewrite dict_get_insert_ne, getitem_insert_ne. }
  destruct (Hget "gamescope_force_grab_cursor") as [-> _]; [done|].
  destruct (Hget "gamescope_fsr_sharpness") as [-> ->]; [done|].
  destruct (Hget "gamescope_flags") as [-> ->]; [done|].
  destruct (Hget "gamescope_window_mode") as [-> ->]; [done|].
  destruct (Hget "gamescope_fps_limiter") as [-> ->]; [done|].
  destruct (Hget "gamescope_game_res") as [-> ->]; [done|].
  clear Hget.
  do 4 (apply bind_cong_run; [reflexivity | intros ? ?]).
  apply bind_cong_run; [|reflexivity].
  assert (Ht : truthy (VStr res) = true) by by destruct res.
  unfold dict_get, getitem. rewrite lookup_insert_eq, Hres.
  change (default VNone (Some ?v)) with v. rewrite Ht.
  change (truthy (VStr "1920x1080")) with true. cbn iota.
  rewrite !bind_run. unfold mret at 1 3, M_ret. cbn beta iota.
  rewrite !bind_run. unfold split_resolution. by rewrite Hlower.
Qed.

End GamescopeReturns.

(** ** The log only grows *)


Lemma grows_log_ret {A : Type} (a : A) : grows_log (mret a).
Proof. intros st r st' [= _ <-]. exists []. by rewrite app_nil_r. Qed.

Lemma grows_log_raise {A : Type} (e : exn) : grows_log (raise e : M A).
Proof. intros st r st' [= _ <-]. exists []. by rewrite app_nil_r. Qed.

Lemma grows_log_logger lv msg : grows_log (logger lv msg).
Proof. intros st r st' [= _ <-]. by eexists. Qed.

Lemma grows_log_bind {A B : Type} (m : M A) (f : A -> M B) :
  grows_log m -> (forall a, grows_log (f a)) -> grows_log (m ≫= f).
Proof.
  intros Hm Hf st r st'. rewrite bind_run.
  destruct (m st) as [[a|e] st1] eqn:Hrun; apply Hm in Hrun as [l1 Hl1].
  - intros [l2 Hl2]%Hf. exists (l1 ++ l2). by rewrite Hl2, Hl1, app_assoc.
  - intros [= _ <-]. by exists l1.
Qed.

Lemma grows_log_try_except {A : Type} (body handler : M A) (handled : exn -> bool) :
  grows_log body -> grows_log handler -> grows_log (try_except body handled handler).
Proof.
  intros Hb Hh st r st'. unfold try_except.
  destruct (body st) as [[a|e] st1] eqn:Hrun; apply Hb in Hrun as [l1 Hl1].
  - intros [= _ <-]. by exists l1.
  - destruct (handled e).
    + intros [l2 Hl2]%Hh. exists (l1 ++ l2). by rewrite Hl2, Hl1, app_assoc.
    + intros [= _ <-]. by exists l1.
Qed.

Lemma grows_log_get_fsr_memo : grows_log get_fsr_memo.
Proof. intros st r st' [= _ <-]. exists []. by rewrite app_nil_r. Qed.

Lemma grows_log_set_fsr_memo v : grows_log (set_fsr_memo v).
Proof. intros st r st' [= _ <-]. exists []. by rewrite app_nil_r. Qed.

Ltac grows_step :=
  first
    [ apply grows_log_ret
    | apply grows_log_raise
    | apply grows_log_logger
    | apply grows_log_get_fsr_memo
    | apply grows_log_set_fsr_memo
    | apply grows_log_try_except
    | apply grows_log_bind; [|intros ?] ].

Ltac grows_auto := repeat first [ grows_step | progress case_match ].

Lemma grows_log_get_gamescope_args host launch_arguments system_config :
  grows_log (get_gamescope_args host launch_arguments system_config).
Proof.
  unfold get_gamescope_args, _get_gamescope_fsr_option, cache_single, execute_with_error,
    _execute, path_exists, unpack2, getitem, split_resolution, shlex_split_value.
  grows_auto.
Qed.

(** ** [get_launch_parameters] as a whole *)

Section Pipeline.
Variable host : Host.
Implicit Types (runner : Runner) (gameplay_info : GameplayInfo) (st : state).

(** The trace of a call that returns: the command is there, the locale is
    there, and the command vector went through the FPS limiter, the prefix
    command, the CPU affinity, gamemode and gamescope, in this order. *)
Lemma get_launch_parameters_Ok_inv runner gameplay_info st args env st' :
  get_launch_parameters host runner gameplay_info st = (Ok (args, env), st') ->
  let system_config := system_config runner in
  exists c env0 l1 la1 st2 la2 la3 st3,
    gi_command gameplay_info = Some c /\
    is_Some (system_config !! "locale") /\
    libstrangle_stage host system_config
      (mangohud_stage host system_config (optimus_stage host system_config c) env0).1
      (add_log l1 st) = (Ok la1, st2) /\
    prefix_command_stage host system_config la1 st2 = (Ok la2, st2) /\
    single_cpu_stage system_config la2 st2 = (Ok la3, st3) /\
    gamescope_stage host system_config (gamemode_stage host system_config la3) st3
    = (Ok args, st').
Proof.
  unfold get_launch_parameters. intros H. cbv zeta.
  apply bind_Ok_inv in H as (c & st0 & Hc & H).
  destruct (gi_command gameplay_info) as [c'|] eqn:Hcmd; [|discriminate Hc].
  apply mret_Ok_inv in Hc as [-> <-].
  apply bind_Ok_inv in H as (env1 & st1 & Hsteam & H).
  destruct (steam_stage_run host {[ "DISABLE_LAYER_AMD_SWITCHABLE_GRAPHICS_1" := VStr "1" ]} st)
    as (env1' & l1 & Hsteam' & _).
  rewrite Hsteam' in Hsteam. injection Hsteam as <- <-.
  apply bind_Ok_inv in H as (env2 & st1 & Hlocale & H).
  destruct (system_config runner !! "locale") as [locale|] eqn:Hloc.
  2:{ rewrite locale_stage_None in Hlocale by done. discriminate Hlocale. }
  rewrite (locale_stage_Some _ _ _ locale) in Hlocale by done.
  injection Hlocale as <- <-.
  destruct (mangohud_stage host (system_config runner)
              (optimus_stage host (system_config runner) c) _) as [la0 env3] eqn:Hmango.
  apply bind_Ok_inv in H as (la1 & st2 & Hstrangle & H).
  apply bind_Ok_inv in H as (la2 & st2' & Hprefix & H).
  pose proof Hprefix as Hst. apply prefix_command_stage_Ok_inv in Hst as [-> _].
  apply bind_Ok_inv in H as (la3 & st3 & Hcpu & H).
  apply bind_Ok_inv in H as (env4 & st3' & Henv & H).
  apply environment_stage_Ok_inv in Henv as ->.
  apply bind_Ok_inv in H as (la4 & st4 & Hscope & H).
  apply mret_Ok_inv in H as [[= <- <-] <-].
  eexists c, _, l1, la1, st2, la2, la3, st3.
  rewrite Hmango. by repeat split.
Qed.

(** The later stages only put tokens in front. *)
Lemma gamescope_stage_Ok_inv system_config launch_arguments st la st' :
  gamescope_stage host system_config launch_arguments st = (Ok la, st') ->
  exists outer, la = outer ++ launch_arguments.
Proof.
  unfold gamescope_stage. case_match.
  - intros (game_res & output_res & options & -> & _)%get_gamescope_args_Ok_inv.
    exists (VStr "gamescope" :: game_res ++ output_res ++ options ++ [VStr "--"]).
    cbn [app]. f_equal. by rewrite <- !app_assoc.
  - intros [-> _]%mret_Ok_inv. by exists [].
Qed.

Lemma gamemode_stage_prepends system_config launch_arguments :
  exists outer, gamemode_stage host system_config launch_arguments = outer ++ launch_arguments.
Proof.
  unfold gamemode_stage. case_match; [by exists [VStr "gamemoderun"] | by exists []].
Qed.

Lemma get_launch_parameters_after_libstrangle la1 st2 la2 la3 st3 system_config args st' :
  prefix_command_stage host system_config la1 st2 = (Ok la2, st2) ->
  single_cpu_stage system_config la2 st2 = (Ok la3, st3) ->
  gamescope_stage host system_config (gamemode_stage host system_config la3) st3
  = (Ok args, st') ->
  (exists outer, args = outer ++ la1) /\
  (exists l, log st' = log st2 ++ l).
Proof.
  intros Hprefix Hcpu Hscope.
  apply prefix_command_stage_Ok_inv in Hprefix as [_ [tokens ->]].
  pose proof Hscope as [o3 ->]%gamescope_stage_Ok_inv.
  destruct (gamemode_stage_prepends system_config la3) as [o2 Hmode]. rewrite Hmode.
  assert (Hlog : exists l, log st' = log st3 ++ l).
  { revert Hscope. unfold gamescope_stage. case_match.
    - apply grows_log_get_gamescope_args.
    - intros [_ <-]%mret_Ok_inv. exists []. by rewrite app_nil_r. }
  apply single_cpu_stage_Ok_inv in Hcpu as [(_ & -> & ->)|(_ & n & -> & ->)].
  - split; [|done]. exists (o3 ++ o2 ++ strs tokens). by rewrite <- !app_assoc.
  - split.
    + exists (o3 ++ o2 ++ taskset_tokens n ++ strs tokens). by rewrite <- !app_assoc.
    + destruct Hlog as [l Hl]. exists ([single_cpu_info] ++ l). rewrite Hl. simpl.
      by rewrite <- app_assoc.
Qed.

End Pipeline.

Section PipelineReturns.
Variable host : Host.
Implicit Types (runner : Runner) (gameplay_info : GameplayInfo) (st : state).
Implicit Types (system_config env : gmap string value) (launch_arguments : list value).

Lemma prefix_command_stage_returns system_config launch_arguments st :
  prefix_command_ok host system_config = true ->
  returns (prefix_command_stage host system_config launch_arguments) st.
Proof.
  unfold prefix_command_ok, prefix_command_stage.
  destruct (truthy (dict_get system_config "prefix_command")) eqn:Ht.
  - rewrite py_or_truthy, Ht by done.
    destruct (dict_get system_config "prefix_command") as [|[]|s]; try discriminate.
    simpl in Ht. destruct (String.eqb s ""); [discriminate Ht|]. cbn [orb].
    intros [tokens Hs]%bool_decide_eq_true.
    apply returns_bind; [|intros; apply returns_ret].
    unfold shlex_split_value. rewrite Hs. apply returns_ret.
  - intros _. rewrite py_or_falsy by done. apply returns_ret.
Qed.

Lemma int_decimal_digits (s : string) :
  Py.isnumeric s = true -> Py.all_chars Py.is_decimal_digit s = true ->
  exists n, Py.int s = Some n.
Proof.
  unfold Py.isnumeric, Py.int. destruct s; [discriminate|]. intros _ ->. by eexists.
Qed.

Lemma single_cpu_stage_returns system_config launch_arguments st :
  limit_cpu_count_ok system_config = true ->
  returns (single_cpu_stage system_config launch_arguments) st.
Proof.
  unfold limit_cpu_count_ok, returns.
  destruct (truthy (dict_get system_config "single_cpu")) eqn:Hcpu; cbn [negb orb].
  2:{ intros _. rewrite single_cpu_stage_off by done. by eexists _, _. }
  destruct (dict_get system_config "limit_cpu_count") as [|b|s] eqn:Hl.
  - intros _. rewrite single_cpu_stage_unparsed; [by eexists _, _|done|]. left. by rewrite Hl.
  - destruct b; [discriminate|]. intros _.
    rewrite single_cpu_stage_unparsed; [by eexists _, _|done|]. left. by rewrite Hl.
  - destruct (Py.isnumeric s) eqn:Hnum; cbn [negb orb].
    + intros Hd. destruct (int_decimal_digits s Hnum Hd) as [n Hn].
      rewrite (single_cpu_stage_parsed _ _ _ s n) by done. by eexists _, _.
    + intros _. rewrite single_cpu_stage_unparsed; [by eexists _, _|done|].
      right. by exists s.
Qed.


Lemma environment_stage_returns runner gameplay_info env st :
  str_or_missing (env !! "LD_LIBRARY_PATH") ->
  returns (environment_stage runner gameplay_info env) st.
Proof.
  intros Henv. unfold environment_stage.
  destruct (gi_ld_library_path gameplay_info) as [g|]; [|apply returns_ret].
  destruct (String.eqb_spec g "") as [|Hg]; [apply returns_ret|].
  set (env' := match gi_ld_preload gameplay_info with
               | Some ld_preload => _
               | None => _
               end).
  assert (Hld : str_or_missing (env' !! "LD_LIBRARY_PATH")).
  { assert (Hmerge : str_or_missing
      (((VStr <$> default ∅ (gi_env gameplay_info)) ∪ ((VStr <$> get_env runner) ∪ env))
         !! "LD_LIBRARY_PATH")).
    { rewrite !lookup_union, !lookup_fmap.
      revert Henv.
      destruct (default ∅ (gi_env gameplay_info) !! "LD_LIBRARY_PATH");
        destruct (get_env runner !! "LD_LIBRARY_PATH");
        destruct (env !! "LD_LIBRARY_PATH") as [[]|]; by cbv. }
    unfold env'. destruct (gi_ld_preload gameplay_info) as [p|]; [|exact Hmerge].
    destruct (String.eqb p ""); [exact Hmerge|].
    rewrite lookup_insert_ne by done. exact Hmerge. }
  assert (Hgt : truthy (VStr g) = true) by by destruct g.
  unfold dict_get, returns.
  destruct (env' !! "LD_LIBRARY_PATH") as [[|b|s]|]; try done;
    cbn [default from_option id]; rewrite filter_cons_True by done.
  - destruct (truthy (VStr s)) eqn:Hs.
    + rewrite filter_cons_True by done. by eexists _, _.
    + rewrite filter_cons_False by by rewrite Hs. by eexists _, _.
  - rewrite filter_cons_False by done. by eexists _, _.
Qed.

Lemma mangohud_stage_lookup system_config launch_arguments env k :
  k <> "MANGOHUD" -> k <> "MANGOHUD_DLSYM" ->
  (mangohud_stage host system_config launch_arguments env).2 !! k = env !! k.
Proof.
  intros H1 H2. unfold mangohud_stage, get_mangohud_conf.
  destruct (truthy (dict_get system_config "mangohud") && can_find_executable host "mangohud");
    [|done]. cbn [snd].
  rewrite lookup_union, lookup_insert_ne, lookup_singleton_ne by done.
  by destruct (env !! k).
Qed.

(** On launchable inputs the call returns. *)
Lemma get_launch_parameters_returns runner gameplay_info st :
  launchable host runner gameplay_info st = true ->
  returns (get_launch_parameters host runner gameplay_info) st.
Proof.
  unfold launchable. intros H.
  apply andb_prop in H as [H Hscope]. apply andb_prop in H as [H Hcpu].
  apply andb_prop in H as [H Hprefix]. apply andb_prop in H as [Hcmd Hloc].
  apply bool_decide_eq_true in Hcmd as [c Hcmd].
  apply bool_decide_eq_true in Hloc as [locale Hloc].
  unfold get_launch_parameters. rewrite Hcmd.
  apply returns_bind; [apply returns_ret|]. intros ? ? [<- <-]%mret_Ok_inv.
  destruct (steam_stage_run host {[ "DISABLE_LAYER_AMD_SWITCHABLE_GRAPHICS_1" := VStr "1" ]} st)
    as (env1 & l1 & Hsteam & Hsteam_env).
  apply returns_bind; [by eexists _, _|]. intros ? ? Hs. rewrite Hsteam in Hs.
  injection Hs as <- <-.
  apply returns_bind.
  { unfold returns. rewrite (locale_stage_Some _ _ _ locale) by done. by eexists _, _. }
  intros env2 ? Hl. rewrite (locale_stage_Some _ _ _ locale) in Hl by done.
  injection Hl as <- <-.
  destruct (mangohud_stage host (system_config runner)
              (optimus_stage host (system_config runner) c) _) as [la0 env3] eqn:Hmango.
  assert (Henv3 : env3 !! "LD_LIBRARY_PATH" = None).
  { change env3 with (la0, env3).2. rewrite <- Hmango.
    rewrite mangohud_stage_lookup by done.
    case_decide; [|rewrite lookup_insert_ne by done]; by rewrite Hsteam_env. }
  destruct (libstrangle_stage_total host (system_config runner) la0 (add_log l1 st))
    as (la1 & l2 & Hstrangle & _).
  apply returns_bind; [by eexists _, _|]. intros ? ? Hs. rewrite Hstrangle in Hs.
  injection Hs as <- <-. rewrite add_log_app.
  apply returns_bind; [by apply prefix_command_stage_returns|].
  intros la2 ? [-> _]%prefix_command_stage_Ok_inv.
  apply returns_bind; [by apply single_cpu_stage_returns|].
  intros la3 st3 Hst3.
  assert (Hmemo : exists l, st3 = add_log l st).
  { apply single_cpu_stage_Ok_inv in Hst3 as [(_ & _ & ->)|(_ & n & _ & ->)].
    - by eexists.
    - rewrite add_log_app. by eexists. }
  destruct Hmemo as [l3 ->].
  apply returns_bind; [apply environment_stage_returns; by rewrite Henv3|].
  intros env4 ? ->%environment_stage_Ok_inv.
  apply returns_bind; [|intros; apply returns_ret].
  unfold gamescope_stage.
  destruct (truthy (dict_get (system_config runner) "gamescope")
            && can_find_executable host "gamescope"); [|apply returns_ret].
  cbn [negb orb] in Hscope. by apply get_gamescope_args_returns.
Qed.

End PipelineReturns.

(** ** The launchable inputs are exactly those on which the call returns *)

Section ReturnsExactly.
Variable host : Host.
Implicit Types (runner : Runner) (gameplay_info : GameplayInfo) (st : state).
Implicit Types (system_config : gmap string value) (launch_arguments : list value).

Lemma prefix_command_stage_Ok_ok system_config launch_arguments st la st' :
  prefix_command_stage host system_config launch_arguments st = (Ok la, st') ->
  prefix_command_ok host system_config = true.
Proof.
  unfold prefix_command_ok.
  destruct (truthy (dict_get system_config "prefix_command")) eqn:Ht.
  - unfold prefix_command_stage. rewrite py_or_truthy, Ht by done.
    destruct (dict_get system_config "prefix_command") as [|[]|s]; try discriminate.
    intros H. apply bind_Ok_inv in H as (tokens & st1 & H & _).
    apply shlex_split_value_Ok_inv in H as [_ (s' & [= <-] & Hs)].
    rewrite Hs. rewrite bool_decide_true by done. apply orb_true_r.
  - intros _. by destruct (dict_get system_config "prefix_command") as [|[]|[]].
Qed.

Lemma single_cpu_stage_Ok_ok system_config launch_arguments st la st' :
  single_cpu_stage system_config launch_arguments st = (Ok la, st') ->
  limit_cpu_count_ok system_config = true.
Proof.
  unfold limit_cpu_count_ok, single_cpu_stage.
  rewrite truthy_py_or_false by done.
  destruct (truthy (dict_get system_config "single_cpu")); [|done]. cbn [negb orb].
  destruct (dict_get system_config "limit_cpu_count") as [|[]|s]; try done.
  destruct (truthy (VStr s)) eqn:Hs.
  - destruct (Py.isnumeric s) eqn:Hnum; [|done]. cbn [negb orb].
    unfold Py.int. destruct s; [discriminate|].
    by destruct (Py.all_chars Py.is_decimal_digit _).
  - intros _. by destruct s.
Qed.

Lemma _get_gamescope_fsr_option_Ok_ok st fsr_option st' :
  _get_gamescope_fsr_option host st = (Ok fsr_option, st') ->
  fsr_probe_ok host st = true.
Proof.
  unfold fsr_probe_ok, _get_gamescope_fsr_option, cache_single.
  rewrite bind_run. unfold get_fsr_memo. cbn beta iota.
  destruct (fsr_memo st); [done|].
  destruct (can_find_executable host "gamescope"); [|done]. cbn [negb orb].
  unfold gamescope_help_call.
  destruct (popen host _) as [out err| | |] eqn:Hp; [done|..];
    (destruct (_execute_failed_start host "gamescope" ["--help"] None None true false false
                 None st eq_refl) as (l & msg & Hrun);
     [intros out err; by rewrite Hp|]);
    rewrite !bind_run; unfold execute_with_error; rewrite Hrun; discriminate.
Qed.

Lemma get_gamescope_args_Ok_ok launch_arguments system_config st la st' :
  get_gamescope_args host launch_arguments system_config st = (Ok la, st') ->
  gamescope_args_ok host system_config st = true.
Proof.
  unfold get_gamescope_args, gamescope_args_ok. intros H.
  apply bind_Ok_inv in H as (la1 & st1 & H1 & H).
  apply bind_Ok_inv in H as (la2 & st2 & H2 & H).
  apply bind_Ok_inv in H as (la3 & st3 & _ & H).
  apply bind_Ok_inv in H as (la4 & st4 & _ & H).
  apply bind_Ok_inv in H as (la5 & st5 & H5 & H).
  apply bind_Ok_inv in H as (la6 & st6 & H6 & _).
  repeat (apply andb_true_intro; split).
  - apply optional_step_Ok_inv in H1 as [(-> & _)|[Ht H1]]; [done|].
    rewrite Ht, (getitem_truthy _ _ Ht) in *. cbn [negb orb].
    apply bind_Ok_inv in H1 as (v & ? & Hv & H1). apply mret_Ok_inv in Hv as [<- <-].
    apply bind_Ok_inv in H1 as (opt & ? & H1 & _).
    by apply _get_gamescope_fsr_option_Ok_ok in H1.
  - unfold shlex_ok.
    apply optional_step_Ok_inv in H2 as [(-> & _)|[Ht H2]]; [done|].
    rewrite Ht, (getitem_truthy _ _ Ht) in *. cbn [negb orb].
    apply bind_Ok_inv in H2 as (v & ? & Hv & H2). apply mret_Ok_inv in Hv as [<- <-].
    apply bind_Ok_inv in H2 as (flags & ? & H2 & _).
    apply shlex_split_value_Ok_inv in H2 as [_ (s & -> & Hs)].
    by rewrite bool_decide_true.
  - unfold resolution_ok.
    apply optional_step_Ok_inv in H5 as [(-> & _)|[Ht H5]]; [done|].
    rewrite Ht, (getitem_truthy _ _ Ht) in *. cbn [negb orb].
    apply bind_Ok_inv in H5 as (v & ? & Hv & H5). apply mret_Ok_inv in Hv as [<- <-].
    apply bind_Ok_inv in H5 as ([w h] & ? & H5 & _).
    apply split_resolution_Ok_inv in H5 as [_ (s & -> & Hs)].
    by rewrite Hs, bool_decide_true.
  - unfold resolution_ok.
    apply optional_step_Ok_inv in H6 as [(-> & _)|[Ht H6]]; [done|].
    rewrite Ht, (getitem_truthy _ _ Ht) in *. cbn [negb orb].
    apply bind_Ok_inv in H6 as (v & ? & Hv & H6). apply mret_Ok_inv in Hv as [<- <-].
    apply bind_Ok_inv in H6 as ([w h] & ? & H6 & _).
    apply split_resolution_Ok_inv in H6 as [_ (s & -> & Hs)].
    by rewrite Hs, bool_decide_true.
Qed.

(** [get_gamescope_args] returns exactly when the options it reads are well
    formed. *)
Lemma get_gamescope_args_returns_iff launch_arguments system_config st :
  returns (get_gamescope_args host launch_arguments system_config) st <->
  gamescope_args_ok host system_config st = true.
Proof.
  split.
  - intros (la & st' & H). by eapply get_gamescope_args_Ok_ok.
  - apply get_gamescope_args_returns.
Qed.

(** [get_launch_parameters] returns exactly on the launchable inputs. *)
Lemma get_launch_parameters_returns_iff runner gameplay_info st :
  returns (get_launch_parameters host runner gameplay_info) st <->
  launchable host runner gameplay_info st = true.
Proof.
  split; [|apply get_launch_parameters_returns].
  intros ([args env] & st' & Hrun).
  apply get_launch_parameters_Ok_inv in Hrun
    as (c & env0 & l1 & la1 & st2 & la2 & la3 & st3 & Hc & Hloc & H1 & H2 & H3 & H4).
  unfold launchable. rewrite Hc.
  rewrite !bool_decide_true by done. cbn [andb].
  rewrite (prefix_command_stage_Ok_ok _ _ _ _ _ H2).
  rewrite (single_cpu_stage_Ok_ok _ _ _ _ _ H3). cbn [andb].
  unfold gamescope_stage in H4.
  destruct (truthy (dict_get (system_config runner) "gamescope")
            && can_find_executable host "gamescope"); [|done]. cbn [negb orb].
  apply get_gamescope_args_Ok_ok in H4.
  destruct (libstrangle_stage_total host (system_config runner)
              (mangohud_stage host (system_config runner)
                 (optimus_stage host (system_config runner) c) env0).1 (add_log l1 st))
    as (la1' & l2 & H1' & _).
  rewrite H1' in H1. injection H1 as _ <-.
  apply single_cpu_stage_Ok_inv in H3 as [(_ & _ & ->)|(_ & n & _ & ->)]; exact H4.
Qed.

End ReturnsExactly.

(** ** Properties of [get_launch_parameters] *)

Section LaunchProperties.
Variable host : Host.
Implicit Types (runner : Runner) (gameplay_info : GameplayInfo) (st : state).

Lemma prefix_command_stage_off system_config launch_arguments st :
  truthy (dict_get system_config "prefix_command") = false ->
  prefix_command_stage host system_config launch_arguments st = (Ok launch_arguments, st).
Proof.
  intros H. unfold prefix_command_stage. by rewrite truthy_py_or_false, H.
Qed.

Lemma gamescope_stage_off system_config launch_arguments st :
  truthy (dict_get system_config "gamescope") && can_find_executable host "gamescope" = false ->
  gamescope_stage host system_config launch_arguments st = (Ok launch_arguments, st).
Proof. intros H. unfold gamescope_stage. by rewrite H. Qed.

End LaunchProperties.

(** C9.  [get_launch_parameters] subscripts the configuration with
    ["locale"]: when the key is missing the call raises [KeyError] and
    returns nothing (for ["locale"], or for ["command"] when the gameplay
    info has no command, which is looked up first).  No other key is
    required: with ["locale"] and a command present no [KeyError] is ever
    raised, and a configuration that holds nothing but ["locale"] makes the
    call return the command as it is. *)
Theorem get_launch_parameters_locale_KeyError (host : Host) (runner : Runner)
    (gameplay_info : GameplayInfo) (st : state) :
  (system_config runner !! "locale" = None ->
   exists st',
     get_launch_parameters host runner gameplay_info st =
     (Raise (KeyError (if gi_command gameplay_info then "locale" else "command")), st')) /\
  (is_Some (system_config runner !! "locale") -> is_Some (gi_command gameplay_info) ->
   forall key st',
     get_launch_parameters host runner gameplay_info st <> (Raise (KeyError key), st')) /\
  (forall locale c,
     system_config runner = {[ "locale" := locale ]} -> gi_command gameplay_info = Some c ->
     exists env st',
       get_launch_parameters host runner gameplay_info st = (Ok (c, env), st')).
Proof.
  split_and!.
  - intros Hloc. unfold get_launch_parameters.
    destruct (gi_command gameplay_info) as [c|]; [|by eexists].
    rewrite bind_run. unfold mret at 1, M_ret. cbn beta iota. rewrite bind_run.
    destruct (steam_stage_run host {[ "DISABLE_LAYER_AMD_SWITCHABLE_GRAPHICS_1" := VStr "1" ]} st)
      as (env1 & l1 & -> & _).
    cbn beta iota. rewrite bind_run, locale_stage_None by done. by eexists.
  - intros [locale Hloc] [c Hc] key st' Hrun.
    apply get_launch_parameters_raises in Hrun as [[_ H]|[[_ H]|[H|[H|H]]]]; congruence.
  - intros locale c Hcfg Hc.
    assert (Hget : forall k, k <> "locale" -> dict_get (system_config runner) k = VNone).
    { intros k Hk. unfold dict_get. by rewrite Hcfg, lookup_singleton_ne. }
    destruct (get_launch_parameters_returns host runner gameplay_info st) as ([args env] & st' & Hrun).
    { unfold launchable, prefix_command_ok, limit_cpu_count_ok.
      rewrite Hc, Hcfg, lookup_singleton_eq.
      rewrite <- Hcfg, !Hget by done.
      rewrite !bool_decide_true by done. done. }
    exists env, st'. rewrite Hrun. do 2 f_equal.
    apply get_launch_parameters_Ok_inv in Hrun
      as (c' & env0 & l1 & la1 & st2 & la2 & la3 & st3 & Hc' & _ & H1 & H2 & H3 & H4).
    rewrite Hc in Hc'. injection Hc' as <-.
    rewrite libstrangle_stage_off in H1 by by rewrite Hget.
    rewrite prefix_command_stage_off in H2 by by rewrite Hget.
    rewrite single_cpu_stage_off in H3 by by rewrite Hget.
    rewrite gamescope_stage_off in H4 by by rewrite Hget.
    injection H1 as <- _. injection H2 as <-. injection H3 as <- _. injection H4 as <- _.
    unfold gamemode_stage, mangohud_stage, get_mangohud_conf, optimus_stage.
    rewrite !Hget by done. reflexivity.
Qed.

Lemma get_launch_parameters_locale_KeyError_witness :
  exists st',
    get_launch_parameters bare_host (runner_with {[ "gamemode" := VBool true ]}) game init_state
    = (Raise (KeyError "locale"), st').
Proof.
  apply (proj1 (get_launch_parameters_locale_KeyError bare_host
                  (runner_with {[ "gamemode" := VBool true ]}) game init_state)).
  reflexivity.
Defined.

(** C3.  With gamemode enabled and available: whenever the gamescope stage
    is not applied (gamescope disabled, or the tool missing) the returned
    command vector begins with [gamemoderun]; whenever gamescope is enabled
    and found, the vector is [gamescope], its options, [--] and then
    [gamemoderun].  In both cases token 0 comes from the last stage applied.
    The call returns exactly on the launchable inputs. *)
Theorem gamemoderun_position (host : Host) (runner : Runner)
    (gameplay_info : GameplayInfo) (st : state) :
  truthy (dict_get (system_config runner) "gamemode") = true ->
  gamemode_available host = true ->
  (returns (get_launch_parameters host runner gameplay_info) st <->
   launchable host runner gameplay_info st = true) /\
  (forall args env st',
     get_launch_parameters host runner gameplay_info st = (Ok (args, env), st') ->
     (truthy (dict_get (system_config runner) "gamescope")
      && can_find_executable host "gamescope" = false ->
      exists rest, args = VStr "gamemoderun" :: rest) /\
     (truthy (dict_get (system_config runner) "gamescope") = true ->
      can_find_executable host "gamescope" = true ->
      exists options rest,
        args = VStr "gamescope" :: options ++ VStr "--" :: VStr "gamemoderun" :: rest)).
Proof.
  intros Hmode Havail. split; [apply get_launch_parameters_returns_iff|].
  intros args env st' Hrun.
  apply get_launch_parameters_Ok_inv in Hrun
    as (c & env0 & l1 & la1 & st2 & la2 & la3 & st3 & _ & _ & _ & _ & _ & Hscope).
  unfold gamemode_stage in Hscope. rewrite Hmode, Havail in Hscope. cbn [andb] in Hscope.
  split.
  - intros Hoff. rewrite gamescope_stage_off in Hscope by done.
    injection Hscope as <- _. by exists la3.
  - intros Hon Hfound. unfold gamescope_stage in Hscope. rewrite Hon, Hfound in Hscope.
    cbn [andb] in Hscope.
    apply get_gamescope_args_Ok_inv in Hscope as (game_res & output_res & options & -> & _).
    exists (game_res ++ output_res ++ options), la3. by rewrite <- !app_assoc.
Qed.

Lemma gamemoderun_position_witness :
  exists options rest,
    [VStr "gamescope"; VStr "-W"; VStr "1920"; VStr "-H"; VStr "1080"; VStr "--";
     VStr "gamemoderun"; VStr "/games/doom"]
    = VStr "gamescope" :: options ++ VStr "--" :: VStr "gamemoderun" :: rest.
Proof.
  refine (proj2 (proj2 (gamemoderun_position gaming_host
    (runner_with {[ "locale" := VStr ""; "gamemode" := VBool true; "gamescope" := VBool true;
                    "gamescope_output_res" := VStr "1920x1080" ]})
    game init_state _ _) _
    {[ "DISABLE_LAYER_AMD_SWITCHABLE_GRAPHICS_1" := VStr "1" ]} init_state _) _ _);
    by vm_compute.
Defined.

Lemma isnumeric_char_numeric (c : ascii) :
  Py.isnumeric_char c = true -> numeric_code_point (Py.code_point c).
Proof.
  unfold Py.isnumeric_char, Py.is_decimal_digit, numeric_code_point.
  rewrite !orb_true_iff, andb_true_iff, !N.leb_le, !N.eqb_eq.
  intros [?|[[[[[H|H]|H]|H]|H]|H]]; [by left|right; rewrite H..].
  - by left.
  - right. by left.
  - do 2 right. by left.
  - do 3 right. by left.
  - do 4 right. by left.
  - do 5 right. by left.
Qed.

Lemma all_chars_elem_of (p : ascii -> bool) (s : string) (c : ascii) :
  Py.all_chars p s = true -> c ∈ String.list_ascii_of_string s -> p c = true.
Proof.
  induction s as [|d s IH]; cbn [Py.all_chars String.list_ascii_of_string].
  - by intros _ ?%elem_of_nil.
  - intros [Hd Hs]%andb_true_iff [->|Hin]%elem_of_cons; [done | by apply IH].
Qed.

(** What is no number by the table of Unicode is none for [isnumeric]. *)
Lemma not_numeric_isnumeric (s : string) : not_numeric s -> Py.isnumeric s = false.
Proof.
  intros [->|(c & Hin & Hc)]; [done|].
  destruct (Py.isnumeric s) eqn:Hs; [|done]. destruct Hc.
  apply isnumeric_char_numeric. destruct s as [|d s]; [done|].
  by apply (all_chars_elem_of _ (String d s)).
Qed.

(** C4.  With [single_cpu] true, the CPU affinity stage puts
    [taskset -c 0-3] in front of the command vector for
    [limit_cpu_count = "4"], and [taskset -c 0-0] for ["bogus"], as for any
    [limit_cpu_count] that is unset, empty or has a character that is not
    numeric: the count falls back to 1, and nothing is raised.  With
    neither gamemode nor gamescope applied, [get_launch_parameters] then
    returns, provided the command, the locale and the prefix command are
    there and well formed, and the vector it returns has that exact prefix.
    The call returns exactly on the launchable inputs. *)
Theorem taskset_prefix (host : Host) (runner : Runner)
    (gameplay_info : GameplayInfo) (st : state) :
  system_config runner !! "single_cpu" = Some (VBool true) ->
  truthy (dict_get (system_config runner) "gamemode") && gamemode_available host = false ->
  truthy (dict_get (system_config runner) "gamescope")
  && can_find_executable host "gamescope" = false ->
  (forall launch_arguments st0,
     system_config runner !! "limit_cpu_count" = Some (VStr "4") ->
     single_cpu_stage (system_config runner) launch_arguments st0
     = (Ok ([VStr "taskset"; VStr "-c"; VStr "0-3"] ++ launch_arguments),
        add_log [single_cpu_info] st0)) /\
  (forall launch_arguments st0,
     system_config runner !! "limit_cpu_count" = Some (VStr "bogus") ->
     single_cpu_stage (system_config runner) launch_arguments st0
     = (Ok ([VStr "taskset"; VStr "-c"; VStr "0-0"] ++ launch_arguments),
        add_log [single_cpu_info] st0)) /\
  (forall launch_arguments st0,
     system_config runner !! "limit_cpu_count" = None \/
     (exists s, system_config runner !! "limit_cpu_count" = Some (VStr s) /\ not_numeric s) ->
     single_cpu_stage (system_config runner) launch_arguments st0
     = (Ok ([VStr "taskset"; VStr "-c"; VStr "0-0"] ++ launch_arguments),
        add_log [single_cpu_info] st0)) /\
  (is_Some (gi_command gameplay_info) ->
   is_Some (system_config runner !! "locale") ->
   prefix_command_ok host (system_config runner) = true ->
   (system_config runner !! "limit_cpu_count" = Some (VStr "4") ->
    exists args env st' rest,
      get_launch_parameters host runner gameplay_info st = (Ok (args, env), st') /\
      args = [VStr "taskset"; VStr "-c"; VStr "0-3"] ++ rest) /\
   (system_config runner !! "limit_cpu_count" = Some (VStr "bogus") \/
    system_config runner !! "limit_cpu_count" = None \/
    (exists s, system_config runner !! "limit_cpu_count" = Some (VStr s) /\ not_numeric s) ->
    exists args env st' rest,
      get_launch_parameters host runner gameplay_info st = (Ok (args, env), st') /\
      args = [VStr "taskset"; VStr "-c"; VStr "0-0"] ++ rest)) /\
  (returns (get_launch_parameters host runner gameplay_info) st <->
   launchable host runner gameplay_info st = true) /\
  (forall args env st',
     get_launch_parameters host runner gameplay_info st = (Ok (args, env), st') ->
     (system_config runner !! "limit_cpu_count" = Some (VStr "4") ->
      exists rest, args = [VStr "taskset"; VStr "-c"; VStr "0-3"] ++ rest) /\
     (system_config runner !! "limit_cpu_count" = Some (VStr "bogus") ->
      exists rest, args = [VStr "taskset"; VStr "-c"; VStr "0-0"] ++ rest) /\
     (truthy (dict_get (system_config runner) "limit_cpu_count") = false \/
      (exists s, system_config runner !! "limit_cpu_count" = Some (VStr s) /\
                 Py.isnumeric s = false) ->
      exists rest, args = [VStr "taskset"; VStr "-c"; VStr "0-0"] ++ rest)).
Proof.
  intros Hcpu Hmode Hscope.
  assert (Hsingle : truthy (dict_get (system_config runner) "single_cpu") = true).
  { unfold dict_get. by rewrite Hcpu. }
  assert (Hfour : forall launch_arguments st0,
    system_config runner !! "limit_cpu_count" = Some (VStr "4") ->
    single_cpu_stage (system_config runner) launch_arguments st0
    = (Ok ([VStr "taskset"; VStr "-c"; VStr "0-3"] ++ launch_arguments),
       add_log [single_cpu_info] st0)).
  { intros la st0 Hl. apply (single_cpu_stage_parsed _ _ _ "4" 4); try done.
    unfold dict_get. by rewrite Hl. }
  assert (Hfallback : forall launch_arguments st0,
    truthy (dict_get (system_config runner) "limit_cpu_count") = false \/
    (exists s, system_config runner !! "limit_cpu_count" = Some (VStr s) /\
               Py.isnumeric s = false) ->
    single_cpu_stage (system_config runner) launch_arguments st0
    = (Ok ([VStr "taskset"; VStr "-c"; VStr "0-0"] ++ launch_arguments),
       add_log [single_cpu_info] st0)).
  { intros la st0 Hl. apply single_cpu_stage_unparsed; [done|].
    destruct Hl as [Hl|(s & Hl & Hs)]; [by left|]. right. exists s.
    unfold dict_get. by rewrite Hl. }
  assert (Hunset : system_config runner !! "limit_cpu_count" = Some (VStr "bogus") \/
    system_config runner !! "limit_cpu_count" = None \/
    (exists s, system_config runner !! "limit_cpu_count" = Some (VStr s) /\ not_numeric s) ->
    truthy (dict_get (system_config runner) "limit_cpu_count") = false \/
    (exists s, system_config runner !! "limit_cpu_count" = Some (VStr s) /\
               Py.isnumeric s = false)).
  { intros [Hl|[Hl|(s & Hl & Hs)]].
    - right. by exists "bogus".
    - left. unfold dict_get. by rewrite Hl.
    - right. exists s. split; [done | by apply not_numeric_isnumeric]. }
  assert (Hprefix : forall args env st' tokens,
    get_launch_parameters host runner gameplay_info st = (Ok (args, env), st') ->
    (forall la st0, single_cpu_stage (system_config runner) la st0
                    = (Ok (tokens ++ la), add_log [single_cpu_info] st0)) ->
    exists rest, args = tokens ++ rest).
  { intros args env st' tokens Hrun Hstage.
    apply get_launch_parameters_Ok_inv in Hrun
      as (c & env0 & l1 & la1 & st2 & la2 & la3 & st3 & _ & _ & _ & _ & H3 & H4).
    rewrite gamescope_stage_off in H4 by done. injection H4 as <- _.
    unfold gamemode_stage. rewrite Hmode.
    rewrite Hstage in H3. injection H3 as <- _. by exists la2. }
  assert (Hreturns : is_Some (gi_command gameplay_info) ->
    is_Some (system_config runner !! "locale") ->
    prefix_command_ok host (system_config runner) = true ->
    limit_cpu_count_ok (system_config runner) = true ->
    exists args env st',
      get_launch_parameters host runner gameplay_info st = (Ok (args, env), st')).
  { intros Hc Hloc Hp Hl.
    assert (Hok : launchable host runner gameplay_info st = true).
    { unfold launchable. cbv zeta. rewrite !bool_decide_true by done.
      by rewrite Hp, Hl, Hscope. }
    apply get_launch_parameters_returns_iff in Hok as ([args env] & st' & Hrun).
    by exists args, env, st'. }
  split_and!; [exact Hfour | | | | apply get_launch_parameters_returns_iff |].
  - intros la st0 Hl. apply Hfallback, Hunset. by left.
  - intros la st0 Hl. apply Hfallback, Hunset. by right.
  - intros Hc Hloc Hp. split.
    + intros Hl. destruct (Hreturns Hc Hloc Hp) as (args & env & st' & Hrun).
      { unfold limit_cpu_count_ok, dict_get. by rewrite Hl, orb_true_r. }
      destruct (Hprefix _ _ _ [VStr "taskset"; VStr "-c"; VStr "0-3"] Hrun) as [rest Hrest].
      { intros la st0. by apply Hfour. }
      by exists args, env, st', rest.
    + intros Hl%Hunset. destruct (Hreturns Hc Hloc Hp) as (args & env & st' & Hrun).
      { unfold limit_cpu_count_ok. rewrite Hsingle. cbn [negb orb].
        destruct Hl as [Hl|(s & Hl & Hs)].
        - by destruct (dict_get (system_config runner) "limit_cpu_count") as [|[]|[]].
        - unfold dict_get. rewrite Hl.
          change (negb (Py.isnumeric s) || Py.all_chars Py.is_decimal_digit s = true).
          by rewrite Hs. }
      destruct (Hprefix _ _ _ [VStr "taskset"; VStr "-c"; VStr "0-0"] Hrun) as [rest Hrest].
      { intros la st0. by apply Hfallback. }
      by exists args, env, st', rest.
  - intros args env st' Hrun. split_and!.
    + intros Hl. apply (Hprefix _ _ _ _ Hrun). intros la st0. by apply Hfour.
    + intros Hl. apply (Hprefix _ _ _ _ Hrun). intros la st0.
      apply Hfallback, Hunset. by left.
    + intros Hl. apply (Hprefix _ _ _ _ Hrun). intros la st0. by apply Hfallback.
Qed.

Lemma taskset_prefix_witness :
  (exists args env st' rest,
     get_launch_parameters gaming_host
       (runner_with {[ "locale" := VStr ""; "single_cpu" := VBool true;
                       "limit_cpu_count" := VStr "4" ]}) game init_state
     = (Ok (args, env), st') /\
     args = [VStr "taskset"; VStr "-c"; VStr "0-3"] ++ rest) /\
  (exists args env st' rest,
     get_launch_parameters gaming_host
       (runner_with {[ "locale" := VStr ""; "single_cpu" := VBool true;
                       "limit_cpu_count" := VStr "bogus" ]}) game init_state
     = (Ok (args, env), st') /\
     args = [VStr "taskset"; VStr "-c"; VStr "0-0"] ++ rest).
Proof.
  split.
  - refine (proj1 (proj1 (proj2 (proj2 (proj2 (taskset_prefix gaming_host
      (runner_with {[ "locale" := VStr ""; "single_cpu" := VBool true;
                      "limit_cpu_count" := VStr "4" ]})
      game init_state _ _ _)))) _ _ _) _); first [by vm_compute | by eexists].
  - refine (proj2 (proj1 (proj2 (proj2 (proj2 (taskset_prefix gaming_host
      (runner_with {[ "locale" := VStr ""; "single_cpu" := VBool true;
                      "limit_cpu_count" := VStr "bogus" ]})
      game init_state _ _ _)))) _ _ _) (or_introl _)); first [by vm_compute | by eexists].
Defined.


(** C7.  With [gamescope_output_res] equal to ["1920x1080"] in any letter
    case (that is, ["1920x1080"] or ["1920X1080"], the two strings that
    [lower] maps to it): [get_gamescope_args] returns whenever the other
    options are well formed, and what it returns is [gamescope], the game
    resolution if any, the consecutive tokens [-W 1920 -H 1080], the other
    options, [--] and the command; with no other option set, it is
    [gamescope -W 1920 -H 1080 --] and the command.  The outcome is the one
    for ["1920x1080"] itself.  So does the command vector of
    [get_launch_parameters] when gamescope is enabled and found. *)
Theorem gamescope_output_res_1920x1080 (host : Host) (cfg : gmap string value)
    (res : string) (st : state) :
  res = "1920x1080" \/ res = "1920X1080" ->
  cfg !! "gamescope_output_res" = Some (VStr res) ->
  (forall s, Py.lower s = "1920x1080" <-> s = "1920x1080" \/ s = "1920X1080") /\
  (forall launch_arguments st0,
     get_gamescope_args host launch_arguments {[ "gamescope_output_res" := VStr res ]} st0
     = (Ok (VStr "gamescope" :: output_1920x1080 ++ VStr "--" :: launch_arguments), st0)) /\
  (forall launch_arguments,
     negb (truthy (dict_get cfg "gamescope_fsr_sharpness")) || fsr_probe_ok host st = true ->
     shlex_ok host (dict_get cfg "gamescope_flags") = true ->
     resolution_ok (dict_get cfg "gamescope_game_res") = true ->
     exists la st' game_res options,
       get_gamescope_args host launch_arguments cfg st = (Ok la, st') /\
       la = VStr "gamescope" :: game_res ++ output_1920x1080 ++ options
            ++ VStr "--" :: launch_arguments) /\
  (forall launch_arguments,
     get_gamescope_args host launch_arguments cfg st =
     get_gamescope_args host launch_arguments
       (<["gamescope_output_res" := VStr "1920x1080"]> cfg) st) /\
  (forall launch_arguments,
     returns (get_gamescope_args host launch_arguments cfg) st <->
     gamescope_args_ok host cfg st = true) /\
  (forall launch_arguments la st',
     get_gamescope_args host launch_arguments cfg st = (Ok la, st') ->
     exists game_res options,
       la = VStr "gamescope" :: game_res ++ output_1920x1080 ++ options
            ++ VStr "--" :: launch_arguments) /\
  (forall runner gameplay_info args env st0 st',
     cfg = system_config runner ->
     truthy (dict_get cfg "gamescope") = true ->
     can_find_executable host "gamescope" = true ->
     get_launch_parameters host runner gameplay_info st0 = (Ok (args, env), st') ->
     exists game_res options rest,
       args = VStr "gamescope" :: game_res ++ output_1920x1080 ++ options ++ VStr "--" :: rest).
Proof.
  intros Hcase Hres.
  assert (Hlower : Py.lower res = "1920x1080") by (by destruct Hcase as [-> | ->]).
  assert (Hshape : forall launch_arguments la st0 st',
    get_gamescope_args host launch_arguments cfg st0 = (Ok la, st') ->
    exists game_res options,
      la = VStr "gamescope" :: game_res ++ output_1920x1080 ++ options
           ++ VStr "--" :: launch_arguments).
  { intros launch_arguments la st0 st' Hrun.
    apply get_gamescope_args_Ok_inv in Hrun
      as (game_res & output_res & options & -> & [[Hfalse _]|(s & w & h & Hs & Hsplit & ->)]).
    - unfold dict_get in Hfalse. rewrite Hres in Hfalse. simpl in Hfalse.
      destruct res; discriminate.
    - unfold dict_get in Hs. rewrite Hres in Hs. injection Hs as <-.
      rewrite Hlower in Hsplit. injection Hsplit as <- <-. by exists game_res, options. }
  split_and!.
  - intros s. split; [apply lower_1920x1080 | by intros [-> | ->]].
  - intros launch_arguments st0. by destruct Hcase as [-> | ->].
  - intros launch_arguments Hfsr Hflags Hgame.
    assert (Hok : gamescope_args_ok host cfg st = true).
    { unfold gamescope_args_ok. rewrite Hfsr, Hflags, Hgame. cbn [andb].
      unfold dict_get. rewrite Hres. by destruct Hcase as [-> | ->]. }
    apply (get_gamescope_args_returns_iff host launch_arguments) in Hok as (la & st' & Hrun).
    destruct (Hshape _ _ _ _ Hrun) as (game_res & options & Hla).
    by exists la, st', game_res, options.
  - intros launch_arguments. by apply (get_gamescope_args_res_case host _ _ res).
  - intros launch_arguments. apply get_gamescope_args_returns_iff.
  - intros launch_arguments la st'. apply Hshape.
  - intros runner gameplay_info args env st0 st' -> Hon Hfound Hrun.
    apply get_launch_parameters_Ok_inv in Hrun
      as (c & env0 & l1 & la1 & st2 & la2 & la3 & st3 & _ & _ & _ & _ & _ & Hscope).
    unfold gamescope_stage in Hscope. rewrite Hon, Hfound in Hscope. cbn [andb] in Hscope.
    apply Hshape in Hscope as (game_res & options & ->). by eexists _, _, _.
Qed.

Lemma gamescope_output_res_1920x1080_witness :
  exists la st' game_res options,
    get_gamescope_args gaming_host [VStr "/games/doom"]
      {[ "gamescope_output_res" := VStr "1920X1080"; "gamescope_window_mode" := VStr "-f" ]}
      init_state = (Ok la, st') /\
    la = VStr "gamescope" :: game_res ++ output_1920x1080 ++ options
         ++ VStr "--" :: [VStr "/games/doom"].
Proof.
  refine (proj1 (proj2 (proj2 (gamescope_output_res_1920x1080 gaming_host
    {[ "gamescope_output_res" := VStr "1920X1080"; "gamescope_window_mode" := VStr "-f" ]}
    "1920X1080" init_state (or_intror eq_refl) _))) [VStr "/games/doom"] _ _ _);
    by vm_compute.
Defined.

(** C8.  With a non-empty [fps_limit]: when [strangle] is found, the FPS
    limiter stage puts the located executable and the limit in front of the
    command vector, in this order, and they stay next to each other in
    what the call returns; when it is not found, the stage logs a warning
    and returns the vector unchanged, and the warning is in the log after
    the call.  The call never raises [MissingExecutableError], and it
    returns exactly on the launchable inputs. *)
Theorem strangle_fail_open (host : Host) (runner : Runner)
    (gameplay_info : GameplayInfo) (st : state) :
  truthy (dict_get (system_config runner) "fps_limit") = true ->
  (forall launch_arguments st0 exe,
     which host "strangle" = Some exe -> exe <> "" ->
     libstrangle_stage host (system_config runner) launch_arguments st0 =
     (Ok (VStr exe :: dict_get (system_config runner) "fps_limit" :: launch_arguments), st0)) /\
  (forall launch_arguments st0,
     can_find_executable host "strangle" = false ->
     libstrangle_stage host (system_config runner) launch_arguments st0 =
     (Ok launch_arguments, add_log [strangle_warning] st0)) /\
  (forall exec_name st',
     get_launch_parameters host runner gameplay_info st
     <> (Raise (MissingExecutableError exec_name), st')) /\
  (returns (get_launch_parameters host runner gameplay_info) st <->
   launchable host runner gameplay_info st = true) /\
  (forall args env st',
     get_launch_parameters host runner gameplay_info st = (Ok (args, env), st') ->
     exists c env0 outer,
       gi_command gameplay_info = Some c /\
       let before :=
         (mangohud_stage host (system_config runner)
            (optimus_stage host (system_config runner) c) env0).1 in
       (forall exe, which host "strangle" = Some exe -> exe <> "" ->
          args = outer ++ VStr exe :: dict_get (system_config runner) "fps_limit" :: before) /\
       (can_find_executable host "strangle" = false ->
          args = outer ++ before /\ strangle_warning ∈ log st')).
Proof.
  intros Hfps. split_and!.
  - intros launch_arguments st0 exe Hw He. by apply libstrangle_stage_found.
  - intros launch_arguments st0 Hc. by apply libstrangle_stage_missing.
  - intros exec_name st' Hrun.
    apply get_launch_parameters_raises in Hrun as [[H _]|[[H _]|[H|[H|H]]]]; discriminate H.
  - apply get_launch_parameters_returns_iff.
  - intros args env st' Hrun.
    apply get_launch_parameters_Ok_inv in Hrun
      as (c & env0 & l1 & la1 & st2 & la2 & la3 & st3 & Hc & _ & H1 & H2 & H3 & H4).
    destruct (get_launch_parameters_after_libstrangle host _ _ _ _ _ _ _ _ H2 H3 H4)
      as [[outer ->] [l Hlog]].
    exists c, env0, outer. split; [done|]. cbv zeta. split.
    + intros exe Hw He. rewrite (libstrangle_stage_found _ _ _ _ exe) in H1 by done.
      by injection H1 as <- _.
    + intros Hmissing. rewrite libstrangle_stage_missing in H1 by done.
      injection H1 as <- <-. split; [done|].
      rewrite Hlog. simpl. set_solver.
Qed.

Lemma strangle_fail_open_witness :
  libstrangle_stage gaming_host {[ "locale" := VStr ""; "fps_limit" := VStr "60" ]}
    [VStr "/games/doom"] init_state
  = (Ok [VStr "/usr/bin/strangle"; VStr "60"; VStr "/games/doom"], init_state).
Proof.
  refine (proj1 (strangle_fail_open gaming_host
    (runner_with {[ "locale" := VStr ""; "fps_limit" := VStr "60" ]})
    game init_state _) [VStr "/games/doom"] init_state "/usr/bin/strangle" _ _);
    by vm_compute.
Defined.

(** * Further properties *)

(** ** The command vector and the environment of [get_launch_parameters] *)

Section LaunchVector.
Variable host : Host.
Implicit Types (runner : Runner) (gameplay_info : GameplayInfo) (st : state).
Implicit Types (system_config : gmap string value) (launch_arguments : list value).

Lemma optimus_stage_tokens system_config launch_arguments :
  optimus_stage host system_config launch_arguments =
  optimus_tokens host system_config ++ launch_arguments.
Proof. unfold optimus_stage, optimus_tokens. by repeat case_match. Qed.

Lemma mangohud_stage_tokens system_config launch_arguments env :
  (mangohud_stage host system_config launch_arguments env).1 =
  mangohud_tokens host system_config ++ launch_arguments.
Proof.
  unfold mangohud_stage, get_mangohud_conf, mangohud_tokens.
  by destruct (truthy (dict_get system_config "mangohud") && can_find_executable host "mangohud").
Qed.

Lemma libstrangle_stage_tokens system_config launch_arguments st la st' :
  libstrangle_stage host system_config launch_arguments st = (Ok la, st') ->
  la = strangle_tokens host system_config ++ launch_arguments.
Proof.
  unfold strangle_tokens.
  destruct (truthy (dict_get system_config "fps_limit")) eqn:Hfps.
  - destruct (can_find_executable host "strangle") eqn:Hc.
    + apply can_find_executable_true in Hc as (exe & Hw & _ & He).
      rewrite (libstrangle_stage_found _ _ _ _ exe) by done. rewrite Hw.
      destruct (String.eqb_spec exe ""); [done|]. by intros [= <- _].
    + rewrite libstrangle_stage_missing by done. intros [= <- _].
      revert Hc. unfold can_find_executable. cbn [String.eqb negb andb].
      destruct (which host "strangle") as [exe|]; [|done].
      by destruct (String.eqb exe "").
  - rewrite libstrangle_stage_off by done. by intros [= <- _].
Qed.

Lemma gamemode_stage_tokens system_config launch_arguments :
  gamemode_stage host system_config launch_arguments =
  gamemode_tokens host system_config ++ launch_arguments.
Proof. unfold gamemode_stage, gamemode_tokens. by case_match. Qed.

Lemma prefix_command_stage_tokens system_config launch_arguments st la st' :
  prefix_command_stage host system_config launch_arguments st = (Ok la, st') ->
  truthy (dict_get system_config "prefix_command") = false /\ la = launch_arguments \/
  exists s tokens,
    dict_get system_config "prefix_command" = VStr s /\ s <> "" /\
    shlex_split host (expandvars host s) = Some tokens /\
    la = strs tokens ++ launch_arguments.
Proof.
  destruct (truthy (dict_get system_config "prefix_command")) eqn:Ht.
  - unfold prefix_command_stage. rewrite py_or_truthy, Ht by done.
    destruct (dict_get system_config "prefix_command") as [|[]|s]; try discriminate.
    intros H. apply bind_Ok_inv in H as (tokens & st1 & H1 & H).
    apply shlex_split_value_Ok_inv in H1 as [_ (s' & [= <-] & Hs)].
    apply mret_Ok_inv in H as [<- _]. right. exists s, tokens.
    split_and!; try done. by intros ->.
  - rewrite prefix_command_stage_off by done. intros [= <- _]. by left.
Qed.

End LaunchVector.

(** X1.  Whatever [get_launch_parameters] returns is the game's command with
    the wrappers in front of it, outermost first in the reverse order of the
    stages: gamescope and its options up to [--], [gamemoderun], [taskset],
    the tokens of the prefix command, [strangle] and the limit, [mangohud],
    and the Optimus launcher.  Nothing is put behind the command or inside
    it. *)
Theorem launch_vector_stage_order (host : Host) (runner : Runner)
    (gameplay_info : GameplayInfo) (st st' : state)
    (args : list value) (env : gmap string value) :
  get_launch_parameters host runner gameplay_info st = (Ok (args, env), st') ->
  exists c, gi_command gameplay_info = Some c /\
            stage_order host (system_config runner) c args.
Proof.
  intros Hrun.
  apply get_launch_parameters_Ok_inv in Hrun
    as (c & env0 & l1 & la1 & st2 & la2 & la3 & st3 & Hc & _ & H1 & H2 & H3 & H4).
  apply libstrangle_stage_tokens in H1.
  rewrite mangohud_stage_tokens, optimus_stage_tokens in H1. subst la1.
  rewrite gamemode_stage_tokens in H4.
  exists c. split; [done|]. unfold stage_order.
  assert (Hscope : exists gamescope,
    args = gamescope ++ gamemode_tokens host (system_config runner) ++ la3 /\
    (truthy (dict_get (system_config runner) "gamescope")
     && can_find_executable host "gamescope" = false /\ gamescope = [] \/
     truthy (dict_get (system_config runner) "gamescope")
     && can_find_executable host "gamescope" = true /\
     exists options, gamescope = VStr "gamescope" :: options ++ [VStr "--"])).
  { unfold gamescope_stage in H4.
    destruct (truthy (dict_get (system_config runner) "gamescope")
              && can_find_executable host "gamescope").
    - apply get_gamescope_args_Ok_inv in H4 as (g & o & opts & -> & _).
      exists (VStr "gamescope" :: (g ++ o ++ opts) ++ [VStr "--"]). split.
      + cbn [app]. f_equal. by rewrite <- !app_assoc.
      + right. split; [done|]. by eexists.
    - apply mret_Ok_inv in H4 as [<- _]. exists []. split; [done | by left]. }
  destruct Hscope as (gamescope & -> & Hscope).
  assert (Hcpu : exists taskset, la3 = taskset ++ la2 /\
    (truthy (dict_get (system_config runner) "single_cpu") = false /\ taskset = [] \/
     truthy (dict_get (system_config runner) "single_cpu") = true /\
     exists n, taskset = taskset_tokens n)).
  { apply single_cpu_stage_Ok_inv in H3 as [(Hf & -> & _)|(Ht & n & -> & _)].
    - exists []. split; [done | by left].
    - exists (taskset_tokens n). split; [done|]. right. split; [done | by exists n]. }
  destruct Hcpu as (taskset & -> & Hcpu).
  apply prefix_command_stage_tokens in H2.
  exists gamescope, taskset.
  destruct H2 as [[Hf ->]|(s & tokens & Hs & Hne & Hsplit & ->)].
  - exists []. split_and!; try done. by left.
  - exists (strs tokens). split_and!; try done. right. by exists s, tokens.
Qed.

Lemma launch_vector_stage_order_witness :
  exists c, gi_command game = Some c /\
    stage_order gaming_host every_stage_config c
      (strs ["gamescope"; "--"; "gamemoderun"; "taskset"; "-c"; "0-1"; "env"; "FOO=1";
             "/usr/bin/strangle"; "60"; "/games/doom"]).
Proof.
  refine (launch_vector_stage_order gaming_host (runner_with every_stage_config)
            game init_state (add_log [single_cpu_info] init_state) _
            {[ "DISABLE_LAYER_AMD_SWITCHABLE_GRAPHICS_1" := VStr "1";
               "LC_ALL" := VStr "fr_FR.UTF-8" ]} _).
  vm_compute. reflexivity.
Defined.

Section LaunchEnvironment.
Variable host : Host.
Implicit Types (runner : Runner) (gameplay_info : GameplayInfo) (st : state).

Lemma steam_stage_env (env : gmap string value) st env' st' :
  steam_stage host env st = (Ok env', st') ->
  env' = match environ host !! "SteamAppId" with
         | Some app_id => if String.eqb app_id "" then env else <["LC_ALL" := VStr ""]> env
         | None => env
         end.
Proof.
  unfold steam_stage. destruct (environ host !! "SteamAppId") as [app_id|].
  - destruct (String.eqb app_id ""); by intros [= <- _].
  - by intros [= <- _].
Qed.

(** The environment that a returning call hands to [environment_stage]. *)
Lemma get_launch_parameters_env_inv runner gameplay_info st args env st' :
  get_launch_parameters host runner gameplay_info st = (Ok (args, env), st') ->
  exists locale st1,
    system_config runner !! "locale" = Some locale /\
    environment_stage runner gameplay_info
      (staged_environment host (system_config runner) locale) st1 = (Ok env, st1).
Proof.
  unfold get_launch_parameters. intros H.
  apply bind_Ok_inv in H as (c & st0 & _ & H).
  apply bind_Ok_inv in H as (env1 & st1 & Hsteam & H).
  apply steam_stage_env in Hsteam.
  apply bind_Ok_inv in H as (env2 & st2 & Hlocale & H).
  destruct (system_config runner !! "locale") as [locale|] eqn:Hloc.
  2:{ rewrite locale_stage_None in Hlocale by done. discriminate Hlocale. }
  rewrite (locale_stage_Some _ _ _ locale) in Hlocale by done.
  injection Hlocale as <- <-.
  destruct (mangohud_stage host (system_config runner) _ _) as [la0 env3] eqn:Hmango.
  apply bind_Ok_inv in H as (la1 & st3 & _ & H).
  apply bind_Ok_inv in H as (la2 & st4 & _ & H).
  apply bind_Ok_inv in H as (la3 & st5 & _ & H).
  apply bind_Ok_inv in H as (env4 & st6 & Henv & H).
  pose proof Henv as ->%environment_stage_Ok_inv.
  apply bind_Ok_inv in H as (la4 & st7 & _ & H).
  apply mret_Ok_inv in H as [[= _ <-] _].
  exists locale, st5. split; [done|].
  assert (Hstaged : env3 = staged_environment host (system_config runner) locale).
  { apply (f_equal snd) in Hmango. cbn [snd] in Hmango. rewrite <- Hmango.
    unfold mangohud_stage, get_mangohud_conf, staged_environment. rewrite <- Hsteam.
    by destruct (truthy (dict_get (system_config runner) "mangohud")
                 && can_find_executable host "mangohud"). }
  by rewrite <- Hstaged.
Qed.

Lemma environment_stage_lookup runner gameplay_info (staged env : gmap string value) st st' k :
  environment_stage runner gameplay_info staged st = (Ok env, st') ->
  k <> "LD_LIBRARY_PATH" \/ gi_ld_library_path gameplay_info = None
  \/ gi_ld_library_path gameplay_info = Some "" ->
  env !! k =
  match gi_ld_preload gameplay_info with
  | Some p => if String.eqb p "" || negb (String.eqb k "LD_PRELOAD")
              then merged_variable runner gameplay_info staged k
              else Some (VStr p)
  | None => merged_variable runner gameplay_info staged k
  end.
Proof.
  unfold environment_stage. intros H Hk.
  assert (Hmerged : forall m : gmap string value,
    m = (VStr <$> default ∅ (gi_env gameplay_info)) ∪ ((VStr <$> get_env runner) ∪ staged) ->
    m !! k = merged_variable runner gameplay_info staged k).
  { intros m ->. unfold merged_variable. rewrite !lookup_union, !lookup_fmap.
    by destruct (default ∅ (gi_env gameplay_info) !! k), (get_env runner !! k), (staged !! k). }
  set (merged := (VStr <$> default ∅ (gi_env gameplay_info)) ∪ ((VStr <$> get_env runner) ∪ staged))
    in *.
  assert (Hpre : (match gi_ld_preload gameplay_info with
                  | Some ld_preload =>
                      if String.eqb ld_preload "" then merged
                      else <["LD_PRELOAD" := VStr ld_preload]> merged
                  | None => merged
                  end) !! k =
                 match gi_ld_preload gameplay_info with
                 | Some p => if String.eqb p "" || negb (String.eqb k "LD_PRELOAD")
                             then merged_variable runner gameplay_info staged k
                             else Some (VStr p)
                 | None => merged_variable runner gameplay_info staged k
                 end).
  { destruct (gi_ld_preload gameplay_info) as [p|]; [|by apply Hmerged].
    destruct (String.eqb p ""); cbn [orb]; [by apply Hmerged|].
    destruct (String.eqb_spec k "LD_PRELOAD") as [->|Hne]; cbn [negb].
    - by rewrite lookup_insert_eq.
    - rewrite lookup_insert_ne by done. by apply Hmerged. }
  destruct (gi_ld_library_path gameplay_info) as [g|].
  - destruct (String.eqb_spec g "") as [Heq|Hg].
    + apply mret_Ok_inv in H as [<- _]. exact Hpre.
    + destruct Hk as [Hk|[Hk|Hk]]; [|discriminate Hk|by injection Hk].
      destruct (join_values _ _); [|discriminate H].
      apply mret_Ok_inv in H as [<- _]. rewrite lookup_insert_ne by done. exact Hpre.
  - apply mret_Ok_inv in H as [<- _]. exact Hpre.
Qed.

Lemma environment_stage_library_path runner gameplay_info (staged env : gmap string value)
    st st' g :
  environment_stage runner gameplay_info staged st = (Ok env, st') ->
  gi_ld_library_path gameplay_info = Some g -> g <> "" ->
  env !! "LD_LIBRARY_PATH" =
  match merged_variable runner gameplay_info staged "LD_LIBRARY_PATH" with
  | Some (VStr existing) =>
      if String.eqb existing "" then Some (VStr g) else Some (VStr (g +:+ ":" +:+ existing))
  | Some (VBool true) => None
  | _ => Some (VStr g)
  end.
Proof.
  unfold environment_stage. intros H Hg Hne. rewrite Hg in H.
  destruct (String.eqb_spec g ""); [done|].
  set (env' := match gi_ld_preload gameplay_info with
               | Some ld_preload => _
               | None => _
               end) in *.
  assert (Hld : env' !! "LD_LIBRARY_PATH"
                = merged_variable runner gameplay_info staged "LD_LIBRARY_PATH").
  { assert (Hmerged : ((VStr <$> default ∅ (gi_env gameplay_info))
                       ∪ ((VStr <$> get_env runner) ∪ staged)) !! "LD_LIBRARY_PATH"
                      = merged_variable runner gameplay_info staged "LD_LIBRARY_PATH").
    { unfold merged_variable. rewrite !lookup_union, !lookup_fmap.
      by destruct (default ∅ (gi_env gameplay_info) !! "LD_LIBRARY_PATH"),
        (get_env runner !! "LD_LIBRARY_PATH"), (staged !! "LD_LIBRARY_PATH"). }
    unfold env'. destruct (gi_ld_preload gameplay_info) as [p|]; [|done].
    destruct (String.eqb p ""); [done|]. by rewrite lookup_insert_ne. }
  assert (Hgt : truthy (VStr g) = true) by by destruct g.
  unfold dict_get in H. rewrite Hld in H.
  destruct (merged_variable runner gameplay_info staged "LD_LIBRARY_PATH") as [[|[]|s]|];
    cbn [default from_option id] in H; rewrite filter_cons_True in H by done.
  - rewrite filter_cons_False in H by done. apply mret_Ok_inv in H as [<- _].
    by rewrite lookup_insert_eq.
  - rewrite filter_cons_True in H by done. discriminate H.
  - rewrite filter_cons_False in H by done. apply mret_Ok_inv in H as [<- _].
    by rewrite lookup_insert_eq.
  - destruct (String.eqb_spec s "") as [->|Hs].
    + rewrite filter_cons_False in H by done. apply mret_Ok_inv in H as [<- _].
      by rewrite lookup_insert_eq.
    + assert (Hst : truthy (VStr s) = true) by by destruct s.
      rewrite filter_cons_True in H by done. apply mret_Ok_inv in H as [<- _].
      by rewrite lookup_insert_eq.
  - rewrite filter_cons_False in H by done. apply mret_Ok_inv in H as [<- _].
    by rewrite lookup_insert_eq.
Qed.

End LaunchEnvironment.

(** X2.  The environment that [get_launch_parameters] returns gives every
    variable other than [LD_PRELOAD] and [LD_LIBRARY_PATH] the game's own
    value if [gameplay_info["env"]] has one, else the runner's value, else
    the value the stages set (the fixed entry, [LC_ALL], the MangoHud
    switches): the runner's environment overrides the locale and MangoHud
    settings, and the game's overrides both. *)
Theorem launch_environment_precedence (host : Host) (runner : Runner)
    (gameplay_info : GameplayInfo) (st st' : state)
    (args : list value) (env : gmap string value) :
  get_launch_parameters host runner gameplay_info st = (Ok (args, env), st') ->
  exists locale,
    system_config runner !! "locale" = Some locale /\
    forall k, k <> "LD_PRELOAD" -> k <> "LD_LIBRARY_PATH" ->
      env !! k = merged_variable runner gameplay_info
                   (staged_environment host (system_config runner) locale) k.
Proof.
  intros (locale & st1 & Hloc & Henv)%get_launch_parameters_env_inv.
  exists locale. split; [done|]. intros k Hk1 Hk2.
  rewrite (environment_stage_lookup _ _ _ _ _ _ k Henv) by by left.
  destruct (gi_ld_preload gameplay_info) as [p|]; [|done].
  destruct (String.eqb_spec k "LD_PRELOAD"); [done|]. by rewrite orb_true_r.
Qed.

Lemma launch_environment_precedence_witness :
  exists locale,
    every_stage_config !! "locale" = Some locale /\
    forall k, k <> "LD_PRELOAD" -> k <> "LD_LIBRARY_PATH" ->
      ({[ "DISABLE_LAYER_AMD_SWITCHABLE_GRAPHICS_1" := VStr "1";
          "LC_ALL" := VStr "fr_FR.UTF-8" ]} : gmap string value) !! k
      = merged_variable (runner_with every_stage_config) game
          (staged_environment gaming_host every_stage_config locale) k.
Proof.
  refine (launch_environment_precedence gaming_host (runner_with every_stage_config)
            game init_state (add_log [single_cpu_info] init_state)
            (strs ["gamescope"; "--"; "gamemoderun"; "taskset"; "-c"; "0-1"; "env"; "FOO=1";
                   "/usr/bin/strangle"; "60"; "/games/doom"]) _ _).
  vm_compute. reflexivity.
Defined.

(** X3.  In the returned environment [LD_PRELOAD] is the game's
    [ld_preload] whenever that is set, whatever the runner or the game's
    [env] say; and with a game [ld_library_path] set, [LD_LIBRARY_PATH] is
    that path, followed by a colon and the merged value when there is a
    non-empty one. *)
Theorem launch_environment_ld (host : Host) (runner : Runner)
    (gameplay_info : GameplayInfo) (st st' : state)
    (args : list value) (env : gmap string value) :
  get_launch_parameters host runner gameplay_info st = (Ok (args, env), st') ->
  ld_variables host runner gameplay_info env.
Proof.
  intros (locale & st1 & Hloc & Henv)%get_launch_parameters_env_inv.
  exists locale. split; [done|]. cbv zeta. split_and!.
  - intros p Hp Hne.
    rewrite (environment_stage_lookup _ _ _ _ _ _ "LD_PRELOAD" Henv) by by left.
    rewrite Hp. by destruct (String.eqb_spec p "").
  - intros Hp.
    rewrite (environment_stage_lookup _ _ _ _ _ _ "LD_PRELOAD" Henv) by by left.
    by destruct Hp as [-> | ->].
  - intros g Hg Hne.
    rewrite (environment_stage_library_path _ _ _ _ _ _ g Henv) by done.
    assert (Hstaged : forall b,
      merged_variable runner gameplay_info
        (staged_environment host (system_config runner) locale) "LD_LIBRARY_PATH"
      <> Some (VBool b)).
    { intros b. unfold merged_variable.
      destruct (default ∅ (gi_env gameplay_info) !! "LD_LIBRARY_PATH"); [done|].
      destruct (get_env runner !! "LD_LIBRARY_PATH"); [done|].
      unfold staged_environment.
      repeat first [ case_match | rewrite lookup_union | rewrite lookup_insert_ne by done
                   | rewrite lookup_singleton_ne by done ]; done. }
    destruct (merged_variable _ _ _ _) as [[|[]|s]|] eqn:Hm; try done.
    + by destruct (Hstaged true).
    + by destruct (String.eqb s "").
  - intros Hg.
    rewrite (environment_stage_lookup _ _ _ _ _ _ "LD_LIBRARY_PATH" Henv) by by right.
    destruct (gi_ld_preload gameplay_info) as [p|]; [|done]. by rewrite orb_true_r.
Qed.

Lemma launch_environment_ld_witness :
  ld_variables gaming_host runner_with_libraries game_with_libraries
    {[ "DISABLE_LAYER_AMD_SWITCHABLE_GRAPHICS_1" := VStr "1";
       "SDL_VIDEODRIVER" := VStr "x11";
       "LD_PRELOAD" := VStr "libgamemodeauto.so";
       "LD_LIBRARY_PATH" := VStr "/games/lib:/runtime/lib" ]}.
Proof.
  refine (launch_environment_ld gaming_host runner_with_libraries game_with_libraries
            init_state init_state [VStr "/games/doom"] _ _).
  vm_compute. reflexivity.
Defined.

(** X4.  [get_launch_parameters] returns a result exactly on the launchable
    inputs: a command and a locale are there, a prefix command that is set
    is a string that tokenizes, with [single_cpu] a CPU limit that is set is
    a string and, if numeric, made of decimal digits, and when gamescope is
    applied its flags tokenize, its resolutions have exactly one [x], and
    the FSR option is at hand.  On every other input it raises. *)
Theorem launch_returns_exactly_when_launchable (host : Host) (runner : Runner)
    (gameplay_info : GameplayInfo) (st : state) :
  (launchable host runner gameplay_info st = true <->
   exists args env st',
     get_launch_parameters host runner gameplay_info st = (Ok (args, env), st')) /\
  (launchable host runner gameplay_info st = false <->
   exists e st', get_launch_parameters host runner gameplay_info st = (Raise e, st')).
Proof.
  pose proof (get_launch_parameters_returns_iff host runner gameplay_info st) as Hiff.
  split.
  - rewrite <- Hiff. unfold returns. split.
    + intros ([args env] & st' & H). by exists args, env, st'.
    + intros (args & env & st' & H). by exists (args, env), st'.
  - split.
    + intros Hfalse.
      destruct (get_launch_parameters host runner gameplay_info st) as [[[args env]|e] st'] eqn:Hrun.
      * assert (launchable host runner gameplay_info st = true); [|congruence].
        apply Hiff. by exists (args, env), st'.
      * by exists e, st'.
    + intros (e & st' & Hrun). pose proof (proj2 Hiff) as Hret.
      destruct (launchable host runner gameplay_info st); [|done].
      destruct (Hret eq_refl) as (a & st1 & Hl). congruence.
Qed.

(** X5.  The only exceptions that leave [get_launch_parameters] are a
    [KeyError] for a missing ["command"] or ["locale"], and a [ValueError],
    [TypeError] or [AttributeError] from a value of the wrong shape; a
    missing tool or a process that cannot be started never surfaces as
    [MissingExecutableError] or [OSError]. *)
Theorem launch_exceptions (host : Host) (runner : Runner)
    (gameplay_info : GameplayInfo) (st st' : state) (e : exn) :
  get_launch_parameters host runner gameplay_info st = (Raise e, st') ->
  launch_exception runner gameplay_info e.
Proof. apply get_launch_parameters_raises. Qed.

Lemma launch_exceptions_witness :
  launch_exception (runner_with {[ "gamemode" := VBool true ]}) game (KeyError "locale").
Proof.
  refine (launch_exceptions bare_host (runner_with {[ "gamemode" := VBool true ]})
            game init_state init_state (KeyError "locale") _).
  by vm_compute.
Defined.

Section GamescopeOptions.
Variable host : Host.
Implicit Types (system_config : gmap string value) (launch_arguments : list value).
Implicit Types (st : state).

Lemma cache_single_memo st cached :
  fsr_memo st = Some cached ->
  forall host', _get_gamescope_fsr_option host' st = (Ok cached, st).
Proof.
  intros Hmemo host'. unfold _get_gamescope_fsr_option, cache_single.
  rewrite bind_run. unfold get_fsr_memo. cbn beta iota. by rewrite Hmemo.
Qed.

Lemma _get_gamescope_fsr_option_Ok_inv st fsr_option st' :
  _get_gamescope_fsr_option host st = (Ok fsr_option, st') ->
  fsr_option_from host st fsr_option /\ fsr_memo st' = Some fsr_option.
Proof.
  unfold fsr_option_from.
  destruct (fsr_memo st) as [cached|] eqn:Hmemo.
  { rewrite (cache_single_memo st cached Hmemo). intros [= <- <-]. split; [by left | done]. }
  unfold _get_gamescope_fsr_option, cache_single.
  rewrite bind_run. unfold get_fsr_memo. cbn beta iota. rewrite Hmemo.
  destruct (can_find_executable host "gamescope") eqn:Hfound.
  - unfold gamescope_help_call.
    destruct (popen host (PopenCall ["gamescope"; "--help"] false true (get_environment host)
                            None None)) as [out err| | |] eqn:Hp.
    + rewrite !bind_run. unfold execute_with_error.
      rewrite (_execute_completed _ _ _ _ _ _ _ _ out err) by done.
      cbn beta iota. rewrite bind_run. unfold unpack2, mret at 1, M_ret. cbn beta iota.
      destruct (Py.contains "-F, --filter" (Py.strip out +:+ Py.strip err)) eqn:Hc;
        intros [= <- <-]; (split; [|done]); right; (split; [done|]); right;
        (split; [done|]); exists out, err; by rewrite Hc.
    + destruct (_execute_failed_start host "gamescope" ["--help"] None None true false false
                  None st eq_refl) as (l & msg & Hrun); [intros ? ?; by rewrite Hp|].
      rewrite !bind_run. unfold execute_with_error. rewrite Hrun. discriminate.
    + destruct (_execute_failed_start host "gamescope" ["--help"] None None true false false
                  None st eq_refl) as (l & msg & Hrun); [intros ? ?; by rewrite Hp|].
      rewrite !bind_run. unfold execute_with_error. rewrite Hrun. discriminate.
    + destruct (_execute_failed_start host "gamescope" ["--help"] None None true false false
                  None st eq_refl) as (l & msg & Hrun); [intros ? ?; by rewrite Hp|].
      rewrite !bind_run. unfold execute_with_error. rewrite Hrun. discriminate.
  - intros [= <- <-]. split; [|done]. right. split; [done|]. by left.
Qed.

Lemma _get_gamescope_fsr_option_Raise_inv st e st' :
  _get_gamescope_fsr_option host st = (Raise e, st') ->
  e = ValueError /\ fsr_memo st = None /\ fsr_memo st' = None /\
  can_find_executable host "gamescope" = true /\
  forall out err, popen host (gamescope_help_call host) <> Completed out err.
Proof.
  intros Hrun.
  destruct (fsr_probe_ok host st) eqn:Hok.
  { apply _get_gamescope_fsr_option_returns in Hok as (o & st1 & Hok). congruence. }
  unfold fsr_probe_ok in Hok.
  destruct (fsr_memo st) eqn:Hmemo; [discriminate|].
  destruct (can_find_executable host "gamescope") eqn:Hfound; [|discriminate].
  cbn [negb orb] in Hok.
  assert (Hfail : forall out err, popen host (gamescope_help_call host) <> Completed out err).
  { intros out err Hp. by rewrite Hp in Hok. }
  destruct (_execute_failed_start host "gamescope" ["--help"] None None true false false
              None st eq_refl) as (l & msg & Hexec); [exact Hfail|].
  revert Hrun. unfold _get_gamescope_fsr_option, cache_single.
  rewrite bind_run. unfold get_fsr_memo. cbn beta iota. rewrite Hmemo, Hfound.
  rewrite !bind_run. unfold execute_with_error. rewrite Hexec.
  intros [= <- <-]. by split_and!.
Qed.

Lemma resolution_step_Ok_inv system_config key width_flag height_flag launch_arguments
    st la st' :
  (if truthy (dict_get system_config key) then
     res ← getitem system_config key;
     '(width, height) ← split_resolution res;
     mret (VStr width_flag :: VStr width :: VStr height_flag :: VStr height :: launch_arguments)
   else mret launch_arguments) st = (Ok la, st') ->
  exists tokens,
    la = tokens ++ launch_arguments /\
    resolution_tokens width_flag height_flag (dict_get system_config key) tokens.
Proof.
  intros H. apply optional_step_Ok_inv in H as [(Ht & -> & _)|[Ht H]].
  - exists []. split; [done | by left].
  - rewrite (getitem_truthy _ _ Ht) in H.
    apply bind_Ok_inv in H as (v & ? & Hv & H). apply mret_Ok_inv in Hv as [<- <-].
    apply bind_Ok_inv in H as ([w h] & ? & Hs & H). apply mret_Ok_inv in H as [<- _].
    apply split_resolution_Ok_inv in Hs as [_ (s & Hs & Hsplit)].
    eexists [_; _; _; _]. split; [done|]. right. by exists s, w, h.
Qed.

End GamescopeOptions.

(** X6.  What [get_gamescope_args] returns is [gamescope], then the options
    in the reverse of the order in which they are read (game resolution,
    output resolution, FPS limiter, window mode, the extra flags, the FSR
    option with its sharpness, the grab-cursor flag), then [--] and the
    command it was given, untouched. *)
Theorem gamescope_option_order (host : Host) (system_config : gmap string value)
    (launch_arguments la : list value) (st st' : state) :
  get_gamescope_args host launch_arguments system_config st = (Ok la, st') ->
  gamescope_vector host system_config st launch_arguments la.
Proof.
  unfold get_gamescope_args, gamescope_vector. intros H.
  apply bind_Ok_inv in H as (la1 & st1 & H1 & H).
  apply bind_Ok_inv in H as (la2 & st2 & H2 & H).
  apply bind_Ok_inv in H as (la3 & st3 & H3 & H).
  apply bind_Ok_inv in H as (la4 & st4 & H4 & H).
  apply bind_Ok_inv in H as (la5 & st5 & H5 & H).
  apply bind_Ok_inv in H as (la6 & st6 & H6 & H).
  apply mret_Ok_inv in H as [<- _].
  apply resolution_step_Ok_inv in H6 as (game_res & -> & Hgame).
  apply resolution_step_Ok_inv in H5 as (output_res & -> & Hout).
  assert (E4 : la4 = fps_limiter_tokens system_config ++ la3).
  { unfold fps_limiter_tokens.
    apply optional_step_Ok_inv in H4 as [(-> & -> & _)|[Ht H4]]; [done|].
    rewrite Ht. rewrite (getitem_truthy _ _ Ht) in H4.
    apply bind_Ok_inv in H4 as (v & ? & Hv & H4). apply mret_Ok_inv in Hv as [<- <-].
    by apply mret_Ok_inv in H4 as [<- _]. }
  assert (E3 : la3 = window_mode_tokens system_config ++ la2).
  { unfold window_mode_tokens.
    apply optional_step_Ok_inv in H3 as [(-> & -> & _)|[Ht H3]]; [done|].
    rewrite Ht. rewrite (getitem_truthy _ _ Ht) in H3.
    apply bind_Ok_inv in H3 as (v & ? & Hv & H3). apply mret_Ok_inv in Hv as [<- <-].
    by apply mret_Ok_inv in H3 as [<- _]. }
  assert (E2 : exists flags, la2 = flags ++ la1 /\ flags_tokens host system_config flags).
  { unfold flags_tokens.
    apply optional_step_Ok_inv in H2 as [(Ht & -> & _)|[Ht H2]].
    - exists []. split; [done | by left].
    - rewrite (getitem_truthy _ _ Ht) in H2.
      apply bind_Ok_inv in H2 as (v & ? & Hv & H2). apply mret_Ok_inv in Hv as [<- <-].
      apply bind_Ok_inv in H2 as (flags & ? & Hs & H2). apply mret_Ok_inv in H2 as [<- _].
      apply shlex_split_value_Ok_inv in Hs as [_ (s & Hs & Hsplit)].
      exists (strs flags). split; [done|]. right. by exists s, flags. }
  destruct E2 as (flags & -> & Hflags).
  assert (E1 : exists fsr,
    la1 = fsr ++ grab_cursor_tokens system_config ++ VStr "--" :: launch_arguments /\
    fsr_tokens host system_config st fsr).
  { unfold fsr_tokens, grab_cursor_tokens.
    apply optional_step_Ok_inv in H1 as [(Ht & -> & _)|[Ht H1]].
    - exists []. split; [|by left].
      by destruct (truthy (dict_get system_config "gamescope_force_grab_cursor")).
    - rewrite (getitem_truthy _ _ Ht) in H1.
      apply bind_Ok_inv in H1 as (v & ? & Hv & H1). apply mret_Ok_inv in Hv as [<- <-].
      apply bind_Ok_inv in H1 as (opt & ? & Hopt & H1). apply mret_Ok_inv in H1 as [<- _].
      apply _get_gamescope_fsr_option_Ok_inv in Hopt as [Hopt _].
      eexists. split; [|right; split; [done|]; by exists opt].
      rewrite <- !app_assoc.
      by destruct (truthy (dict_get system_config "gamescope_force_grab_cursor")). }
  destruct E1 as (fsr & -> & Hfsr). subst la3 la4.
  exists game_res, output_res, flags, fsr. by split_and!.
Qed.

Lemma gamescope_option_order_witness :
  gamescope_vector gamescope_3_12_host every_gamescope_option init_state
    [VStr "/games/doom"]
    (strs ["gamescope"; "-w"; "1280"; "-h"; "720"; "-W"; "2560"; "-H"; "1440"; "-r"; "60";
           "-f"; "--rt"; "--hdr-enabled"; "-F"; "fsr"; "--fsr-sharpness"; "3";
           "--force-grab-cursor"; "--"; "/games/doom"]).
Proof.
  refine (gamescope_option_order gamescope_3_12_host every_gamescope_option
            [VStr "/games/doom"] _ init_state
            (State [(DEBUG, "Executing %s")] (Some ["-F"; "fsr"]) (fun _ => [])) _).
  by vm_compute.
Defined.

(** X7.  [_get_gamescope_fsr_option]: when it returns, the option is the
    memoized one if there is one, else [-U] if gamescope is not found, else
    [-F fsr] or [-U] according to whether the help text (standard output
    then standard error, each stripped) contains ["-F, --filter"]; the
    option is then memoized, and every later call returns it without
    looking at the host.  When it raises, it is a [ValueError], with nothing
    memoized: gamescope was found but its help could not be run. *)
Theorem fsr_option_probe (host : Host) (st : state) :
  (forall fsr_option st',
     _get_gamescope_fsr_option host st = (Ok fsr_option, st') ->
     fsr_option_from host st fsr_option /\
     fsr_memo st' = Some fsr_option /\
     forall host', _get_gamescope_fsr_option host' st' = (Ok fsr_option, st')) /\
  (forall e st',
     _get_gamescope_fsr_option host st = (Raise e, st') ->
     e = ValueError /\ fsr_memo st = None /\ fsr_memo st' = None /\
     can_find_executable host "gamescope" = true /\
     forall out err, popen host (gamescope_help_call host) <> Completed out err).
Proof.
  split.
  - intros fsr_option st' Hrun.
    apply _get_gamescope_fsr_option_Ok_inv in Hrun as [Hfrom Hmemo].
    split_and!; [done..|]. by apply cache_single_memo.
  - intros e st'. apply _get_gamescope_fsr_option_Raise_inv.
Qed.

Lemma fsr_option_probe_witness :
  fsr_option_from gamescope_3_12_host init_state ["-F"; "fsr"] /\
  fsr_memo (State [(DEBUG, "Executing %s")] (Some ["-F"; "fsr"]) (fun _ => []))
  = Some ["-F"; "fsr"] /\
  forall host',
    _get_gamescope_fsr_option host'
      (State [(DEBUG, "Executing %s")] (Some ["-F"; "fsr"]) (fun _ => []))
    = (Ok ["-F"; "fsr"], State [(DEBUG, "Executing %s")] (Some ["-F"; "fsr"]) (fun _ => [])).
Proof.
  refine (proj1 (fsr_option_probe gamescope_3_12_host init_state) ["-F"; "fsr"] _ _).
  by vm_compute.
Defined.

(** ** lutris/util/system.py *)

Lemma rstrip_cons (c : ascii) (s : string) :
  Py.rstrip (String c s) =
  match Py.rstrip s with
  | EmptyString => if Py.isspace c then EmptyString else String c EmptyString
  | r => String c r
  end.
Proof. done. Qed.

Lemma rstrip_idempotent (s : string) : Py.rstrip (Py.rstrip s) = Py.rstrip s.
Proof.
  induction s as [|c s IH]; [done|].
  rewrite rstrip_cons. destruct (Py.rstrip s) as [|d r] eqn:E.
  - destruct (Py.isspace c) eqn:Hc; [done|]. rewrite rstrip_cons. cbn [Py.rstrip]. by rewrite Hc.
  - rewrite rstrip_cons, IH. done.
Qed.

Lemma lstrip_head (s : string) :
  Py.lstrip s = "" \/ exists c r, Py.lstrip s = String c r /\ Py.isspace c = false.
Proof.
  induction s as [|c s IH]; [by left|].
  cbn [Py.lstrip]. destruct (Py.isspace c) eqn:Hc; [done|]. right. by exists c, s.
Qed.

Lemma rstrip_head (c : ascii) (r : string) :
  Py.isspace c = false -> exists r', Py.rstrip (String c r) = String c r'.
Proof.
  intros Hc. rewrite rstrip_cons. destruct (Py.rstrip r); [|by eexists].
  rewrite Hc. by eexists.
Qed.

Lemma strip_idempotent (s : string) : Py.strip (Py.strip s) = Py.strip s.
Proof.
  unfold Py.strip.
  destruct (lstrip_head s) as [->|(c & r & -> & Hc)]; [done|].
  destruct (rstrip_head c r Hc) as (r' & Hr). rewrite Hr.
  cbn [Py.lstrip]. rewrite Hc. rewrite <- Hr. apply rstrip_idempotent.
Qed.

Section Subprocess.
Variable host : Host.

Lemma get_environment_lookup (k : string) :
  get_environment host !! k = inherited_variable host k.
Proof.
  unfold get_environment, inherited_variable.
  destruct (Py.startswith "BASH_FUNC" k) eqn:Hk.
  - apply map_lookup_filter_None. right. intros v _ Hf. cbn [fst] in Hf. by rewrite Hk in Hf.
  - destruct (environ host !! k) as [v|] eqn:Hv.
    + apply map_lookup_filter_Some. by split.
    + apply map_lookup_filter_None. by left.
Qed.

Lemma overlay_lookup (e : gmap string (option string)) (k : string) :
  (omap id e ∪ get_environment host) !! k = subprocess_variable host (Some e) k.
Proof.
  unfold subprocess_variable. change (default ∅ (Some e)) with e.
  rewrite lookup_union, lookup_omap, get_environment_lookup.
  destruct (e !! k) as [[v|]|]; cbn; by destruct (inherited_variable host k).
Qed.

Lemma subprocess_variable_none (env : option (gmap string (option string))) (k : string) :
  env = None \/ env = Some ∅ -> subprocess_variable host env k = inherited_variable host k.
Proof.
  unfold subprocess_variable. intros [-> | ->].
  - change (default ∅ None) with (∅ : gmap string (option string)). by rewrite lookup_empty.
  - change (default ∅ (Some ∅)) with (∅ : gmap string (option string)). by rewrite lookup_empty.
Qed.

(** Every way in which [_execute] ends: with [""] and one more error in the
    log, or with the stripped output of the process it started. *)
Lemma _execute_outcome command env cwd capture_stderr quiet shell timeout st :
  (exists l, _execute host command env cwd capture_stderr quiet shell timeout st
             = (Ok (RetStr ""), add_log l st)) \/
  (exists l call stdout stderr,
     _execute host command env cwd capture_stderr quiet shell timeout st
     = (Ok (RetTuple (Py.strip stdout) (if capture_stderr then Py.strip stderr else "")),
        add_log l st) /\
     subprocess_call host command env cwd capture_stderr shell timeout call /\
     popen host call = Completed stdout stderr).
Proof.
  unfold _execute. destruct command as [|command0 rest].
  { left. exists [(ERROR, "No executable provided!")]. by rewrite bind_run, logger_run. }
  rewrite bind_run.
  assert (Hmissing : exists (b : bool) l,
    (if Py.isabs command0
     then b ← path_exists host command0 false false; mret (negb b)
     else mret false) st = (Ok b, add_log l st)).
  { destruct (Py.isabs command0).
    - rewrite bind_run. unfold path_exists.
      destruct (String.eqb command0 ""); [exists true, []; by rewrite add_log_nil|].
      destruct (os_path_exists host _); [exists false, []; by rewrite add_log_nil|].
      destruct (os_path_islink host _); [|exists true, []; by rewrite add_log_nil].
      rewrite bind_run, logger_run. by eexists _, [_].
    - exists false, []. by rewrite add_log_nil. }
  destruct Hmissing as (missing & l0 & ->). cbn beta iota.
  destruct missing.
  { left. rewrite bind_run, logger_run. eexists. unfold mret, M_ret.
    by rewrite <- add_log_app. }
  rewrite bind_run.
  assert (Hquiet : exists l, (if quiet then mret tt else logger DEBUG "Executing %s")
                               (add_log l0 st) = (Ok tt, add_log l st)).
  { destruct quiet; [by exists l0|]. rewrite logger_run. eexists. by rewrite <- add_log_app. }
  destruct Hquiet as (l1 & ->). cbn beta iota. rewrite bind_run.
  assert (Henv : exists existing_env l,
    match env with
    | Some e =>
        if decide (e = ∅) then mret (get_environment host)
        else
          _ ← (if quiet then mret tt else logger DEBUG "{}={}");
          mret (omap id e ∪ get_environment host)
    | None => mret (get_environment host)
    end (add_log l1 st) = (Ok existing_env, add_log l st) /\
    forall k, existing_env !! k = subprocess_variable host env k).
  { destruct env as [e|].
    - destruct (decide (e = ∅)) as [->|Hne].
      + exists (get_environment host), l1. split; [done|]. intros k.
        rewrite get_environment_lookup, subprocess_variable_none; [done | by right].
      + rewrite bind_run. destruct quiet.
        * exists (omap id e ∪ get_environment host), l1. split; [done|]. apply overlay_lookup.
        * rewrite logger_run. eexists (omap id e ∪ get_environment host), _.
          split; [unfold mret, M_ret; by rewrite <- add_log_app|]. apply overlay_lookup.
    - exists (get_environment host), l1. split; [done|]. intros k.
      rewrite get_environment_lookup, subprocess_variable_none; [done | by left]. }
  destruct Henv as (existing_env & l2 & -> & Hlookup). cbn beta iota.
  destruct (popen host (PopenCall (command0 :: rest) shell capture_stderr existing_env cwd
                          timeout)) as [stdout stderr| | |] eqn:Hp.
  - right. exists l2, (PopenCall (command0 :: rest) shell capture_stderr existing_env cwd timeout),
      stdout, stderr.
    split_and!; [|done|done]. by destruct capture_stderr.
  - left. rewrite bind_run, logger_run. eexists. unfold mret, M_ret. by rewrite <- add_log_app.
  - left. rewrite bind_run, logger_run. eexists. unfold mret, M_ret. by rewrite <- add_log_app.
  - left. rewrite bind_run, logger_run. eexists. unfold mret, M_ret. by rewrite <- add_log_app.
Qed.

End Subprocess.

(** X8.  [can_find_executable] and [find_executable] agree: the first is
    true exactly when the second returns, and false exactly when it raises
    [MissingExecutableError]; a returned path is the non-empty one that the
    [PATH] lookup gave for a non-empty name.  Neither changes the state. *)
Theorem find_executable_agrees_with_can_find (host : Host) (exec_name : string) (st : state) :
  (can_find_executable host exec_name = true <->
   exists exe, find_executable host exec_name st = (Ok exe, st)) /\
  (can_find_executable host exec_name = false <->
   find_executable host exec_name st = (Raise (MissingExecutableError exec_name), st)) /\
  (forall exe st', find_executable host exec_name st = (Ok exe, st') ->
     st' = st /\ exec_name <> "" /\ exe <> "" /\ which host exec_name = Some exe).
Proof.
  unfold can_find_executable, find_executable.
  destruct (String.eqb_spec exec_name "") as [->|Hname]; cbn [negb andb].
  { split_and!; [split; [done|by intros [? ?]] | done | done]. }
  destruct (which host exec_name) as [exe|]; cbn.
  - destruct (String.eqb_spec exe "") as [->|Hexe]; cbn.
    + split_and!; [split; [done|by intros [? ?]] | done | done].
    + split_and!; [split; [by eexists|done] | done |].
      by intros ? ? [= <- <-].
  - split_and!; [split; [done|by intros [? ?]] | done | done].
Qed.

(** X9.  [_execute] never raises.  It returns either the [str] [""] or a
    pair of strings that carry no whitespace at either end, and all it
    changes in the state is the log, to which it only adds. *)
Theorem _execute_never_raises (host : Host) (command : list string)
    (env : option (gmap string (option string))) (cwd : option string)
    (capture_stderr quiet shell : bool) (timeout : option N) (st : state) :
  exists r l,
    _execute host command env cwd capture_stderr quiet shell timeout st = (Ok r, add_log l st) /\
    (r = RetStr "" \/
     exists stdout stderr,
       r = RetTuple stdout stderr /\ Py.strip stdout = stdout /\ Py.strip stderr = stderr /\
       (capture_stderr = false -> stderr = "")).
Proof.
  destruct (_execute_outcome host command env cwd capture_stderr quiet shell timeout st)
    as [(l & ->)|(l & call & stdout & stderr & -> & _ & _)].
  - eexists _, l. split; [done | by left].
  - eexists _, l. split; [done|]. right. eexists _, _. split; [done|].
    split_and!; [apply strip_idempotent | by destruct capture_stderr; [apply strip_idempotent|]
                | by intros ->].
Qed.

(** X10.  When [_execute] returns a pair, it has started one process, with
    the command, the shell flag, the working directory and the timeout it
    was given, and the pair is what the process wrote, stripped.  In the
    environment of the process a variable has the caller's value if the
    caller gave one; else the value of [os.environ], unless its name starts
    with [BASH_FUNC], and a caller's [None] does not unset it. *)
Theorem _execute_subprocess_environment (host : Host) (command : list string)
    (env : option (gmap string (option string))) (cwd : option string)
    (capture_stderr quiet shell : bool) (timeout : option N) (st st' : state)
    (out err : string) :
  _execute host command env cwd capture_stderr quiet shell timeout st
  = (Ok (RetTuple out err), st') ->
  exists call stdout stderr,
    subprocess_call host command env cwd capture_stderr shell timeout call /\
    popen host call = Completed stdout stderr /\
    out = Py.strip stdout /\ err = (if capture_stderr then Py.strip stderr else "").
Proof.
  intros Hrun.
  destruct (_execute_outcome host command env cwd capture_stderr quiet shell timeout st)
    as [(l & Hl)|(l & call & stdout & stderr & Hl & Hcall & Hp)];
    rewrite Hl in Hrun; [discriminate|].
  injection Hrun as <- <- _. by exists call, stdout, stderr.
Qed.

Lemma _execute_subprocess_environment_witness :
  exists call stdout stderr,
    subprocess_call bash_host ["env"] (Some {[ "HOME" := Some "/tmp"; "LANG" := None ]}) None
      false false None call /\
    popen bash_host call = Completed stdout stderr /\
    "HOME=/tmp
LANG=C" = Py.strip stdout /\ "" = (if false then Py.strip stderr else "").
Proof.
  refine (_execute_subprocess_environment bash_host ["env"]
            (Some {[ "HOME" := Some "/tmp"; "LANG" := None ]}) None false true false None
            init_state init_state _ _ _).
  by vm_compute.
Defined.

(** X11.  [execute] returns the stripped standard output of the process
    that [_execute] ran, whose standard error is discarded; in every other
    case it raises [ValueError], [_execute] having returned [""]. *)
Theorem execute_outcome (host : Host) (command : list string)
    (env : option (gmap string (option string))) (cwd : option string)
    (quiet shell : bool) (timeout : option N) (st : state) :
  (exists stdout st',
     execute host command env cwd quiet shell timeout st = (Ok stdout, st') /\
     _execute host command env cwd false quiet shell timeout st
     = (Ok (RetTuple stdout ""), st') /\
     Py.strip stdout = stdout) \/
  (exists st',
     execute host command env cwd quiet shell timeout st = (Raise ValueError, st') /\
     _execute host command env cwd false quiet shell timeout st = (Ok (RetStr ""), st')).
Proof.
  unfold execute. rewrite bind_run.
  destruct (_execute_outcome host command env cwd false quiet shell timeout st)
    as [(l & ->)|(l & call & stdout & stderr & -> & _ & _)].
  - right. by eexists.
  - left. eexists _, _. split_and!; [done..|]. apply strip_idempotent.
Qed.

(** X12.  [path_exists] never raises, and answers [False] for the empty
    path.  Its two flags can only turn a [True] into a [False]: whenever it
    answers [True] with some flags set, it answers [True] without them; and
    the flags do not change what is logged. *)
Theorem path_exists_flags (host : Host) (path : string) (check_symlinks exclude_empty : bool)
    (st : state) :
  exists (strict plain : bool) l,
    path_exists host path check_symlinks exclude_empty st = (Ok strict, add_log l st) /\
    path_exists host path false false st = (Ok plain, add_log l st) /\
    (strict = true -> plain = true) /\
    (path = "" -> plain = false) /\
    (l = [] \/ l = [(WARNING, "%s is a broken link")]).
Proof.
  unfold path_exists. destruct (String.eqb_spec path "") as [->|Hpath].
  { exists false, false, []. rewrite add_log_nil. split_and!; try done. by left. }
  set (expanded := if Py.startswith "~" path then expanduser host path else path).
  destruct (os_path_exists host expanded).
  { exists (if exclude_empty then (0 <? st_size host expanded)%N else true), true, [].
    rewrite add_log_nil. split_and!; [by destruct exclude_empty | done..| by left]. }
  destruct (os_path_islink host _).
  - rewrite !bind_run, logger_run. eexists _, _, _. split_and!; [done..| by right].
  - exists false, false, []. rewrite add_log_nil. split_and!; try done. by left.
Qed.

(** ** lutris/util/wine/wine.py *)

(** X13.  [WINE_PATHS], once the module is loaded, holds the four static
    entries unchanged, and besides them exactly one entry
    [System wine-*] for every name in [/usr/lib/] that starts with [wine-]
    and has a file [bin/wine]. *)
Theorem WINE_PATHS_entries (host : Host) (name build : string) :
  WINE_PATHS host !! name = Some build <->
  WINE_PATHS_static !! name = Some build \/ system_wine_entry host name build.
Proof.
  unfold WINE_PATHS, system_wine_entry. split.
  - destruct (listdir host "/usr/lib/") as [candidates|]; [|by left].
    intros H. apply registry_fold_inv in H as [H|(c & H)]; [by left|].
    right. by exists candidates, c.
  - intros [H|(candidates & c & -> & Hin & Hc & -> & -> & Hf)].
    + destruct (listdir host "/usr/lib/") as [candidates|]; [|done].
      rewrite registry_fold_other; [done|].
      destruct (Py.startswith "System " name) eqn:Hs; [|done].
      unfold WINE_PATHS_static in H.
      apply lookup_insert_Some in H as [[<- _]|[_ H]]; [discriminate Hs|].
      apply lookup_insert_Some in H as [[<- _]|[_ H]]; [discriminate Hs|].
      apply lookup_insert_Some in H as [[<- _]|[_ H]]; [discriminate Hs|].
      apply lookup_singleton_Some in H as [<- _]. discriminate Hs.
    + by apply registry_fold_adds.
Qed.

(** *** Computations that do not look at the state *)

Lemma stateless_ret {A : Type} (a : A) : stateless (mret a : M A).
Proof. exists (Ok a). intros st. exists []. by rewrite add_log_nil. Qed.

Lemma stateless_raise {A : Type} (e : exn) : stateless (raise e : M A).
Proof. exists (Raise e). intros st. exists []. by rewrite add_log_nil. Qed.

Lemma stateless_bind {A B : Type} (m : M A) (f : A -> M B) :
  stateless m -> (forall a, stateless (f a)) -> stateless (m ≫= f).
Proof.
  intros [[a|e] Hm] Hf.
  - destruct (Hf a) as [r Hr]. exists r. intros st.
    destruct (Hm st) as [l1 H1]. destruct (Hr (add_log l1 st)) as [l2 H2].
    exists (l1 ++ l2). by rewrite bind_run, H1, H2, add_log_app.
  - exists (Raise e). intros st. destruct (Hm st) as [l1 H1].
    exists l1. by rewrite bind_run, H1.
Qed.

Lemma stateless_for_each {A B : Type} (step : B -> A -> M B) (l : list A) (acc : B) :
  (forall acc x, stateless (step acc x)) -> stateless (for_each step l acc).
Proof.
  intros Hstep. revert acc. induction l as [|x l IH]; intros acc; cbn [for_each].
  - apply stateless_ret.
  - apply stateless_bind; [apply Hstep | apply IH].
Qed.

Lemma stateless_result {A : Type} (m : M A) st st0 r st' :
  stateless m -> m st = (r, st') -> exists l, m st0 = (r, add_log l st0).
Proof.
  intros [r0 Hm] Hrun. destruct (Hm st) as [l Hl]. rewrite Hl in Hrun.
  injection Hrun as <- _. apply Hm.
Qed.

Lemma stateless_logger lv msg : stateless (logger lv msg).
Proof. exists (Ok tt). intros st. exists [(lv, msg)]. apply logger_run. Qed.

Section ProtonStateless.
Variable host : Host.

Lemma path_exists_stateless (path : string) (check_symlinks exclude_empty : bool) :
  stateless (path_exists host path check_symlinks exclude_empty).
Proof.
  unfold path_exists. destruct (String.eqb path ""); [apply stateless_ret|].
  destruct (os_path_exists host _).
  { destruct exclude_empty; apply stateless_ret. }
  destruct (os_path_islink host _); [|apply stateless_ret].
  apply stateless_bind; [apply stateless_logger | intros; apply stateless_ret].
Qed.

Lemma get_proton_paths_stateless : stateless (get_proton_paths host).
Proof.
  unfold get_proton_paths.
  apply stateless_bind; [|intros; apply stateless_ret].
  apply stateless_for_each. intros paths path.
  destruct (listdir host path); [|apply stateless_raise].
  apply stateless_for_each. intros paths' version.
  apply stateless_bind; [apply path_exists_stateless|]. intros dist.
  apply stateless_bind; [apply path_exists_stateless|]. intros files.
  apply stateless_ret.
Qed.

End ProtonStateless.

(** X14.  Without a version, [get_wine_path_for_version] fails before it
    looks anything up: with [UnspecifiedVersionError] when there is no
    configuration, an empty one, or one whose [version] is empty, and with
    [KeyError] when a non-empty configuration has no [version] at all. *)
Theorem get_wine_path_for_version_unspecified (host : Host) (version : value)
    (config : option (gmap string value)) (st : state) :
  truthy version = false ->
  (config = None \/ config = Some ∅ ->
   get_wine_path_for_version host version config st = (Raise UnspecifiedVersionError, st)) /\
  (forall cfg, config = Some cfg -> cfg <> ∅ -> cfg !! "version" = None ->
   get_wine_path_for_version host version config st = (Raise (KeyError "version"), st)) /\
  (forall cfg v, config = Some cfg -> cfg !! "version" = Some v -> truthy v = false ->
   get_wine_path_for_version host version config st = (Raise UnspecifiedVersionError, st)).
Proof.
  intros Hversion. unfold get_wine_path_for_version. rewrite bind_run, Hversion.
  cbn [negb andb]. split_and!.
  - intros Hc. rewrite bool_decide_false by (intros [? ?]; by destruct Hc).
    unfold mret at 1, M_ret at 1. cbn beta iota. by rewrite Hversion.
  - intros cfg -> Hne Hnone. rewrite bool_decide_true by (split; congruence).
    unfold getitem. change (default ∅ (Some cfg)) with cfg. by rewrite Hnone.
  - intros cfg v -> Hv Htruthy. 
    destruct (decide (cfg = ∅)) as [->|Hne]; [by rewrite lookup_empty in Hv|].
    rewrite bool_decide_true by (split; congruence).
    unfold getitem. change (default ∅ (Some cfg)) with cfg. rewrite Hv.
    unfold mret at 1, M_ret at 1. cbn beta iota. by rewrite Htruthy.
Qed.

Lemma get_wine_path_for_version_unspecified_witness :
  get_wine_path_for_version bare_host (VStr "") (Some {[ "arch" := VStr "win64" ]}) init_state
  = (Raise (KeyError "version"), init_state).
Proof.
  refine (proj1 (proj2 (get_wine_path_for_version_unspecified bare_host (VStr "")
            (Some {[ "arch" := VStr "win64" ]}) init_state _)) _ eq_refl _ _);
    by vm_compute.
Defined.

(** X15.  The exceptions that can leave [get_wine_path_for_version]:
    [UnspecifiedVersionError], [KeyError] for the key [version],
    [MissingExecutableError] for a build that is not on the [PATH],
    [OSError] from listing a Proton location, [RuntimeError], and
    [TypeError] for a version that is no string. *)
Theorem get_wine_path_for_version_exceptions (host : Host) (version : value)
    (config : option (gmap string value)) (st st' : state) (e : exn) :
  get_wine_path_for_version host version config st = (Raise e, st') ->
  wine_path_exception host e.
Proof.
  unfold get_wine_path_for_version, wine_path_exception. intros H.
  apply bind_Raise_inv in H as [H|(v & st1 & _ & H)].
  { destruct (negb (truthy version) && _); [|discriminate H].
    unfold getitem in H. destruct (default ∅ config !! "version"); [discriminate H|].
    injection H as <- _. by right; left. }
  destruct (truthy v); cbn [negb] in H; [|injection H as <- _; by left].
  destruct (match v with VStr s => WINE_PATHS host !! s | _ => None end) as [build|].
  { apply bind_Raise_inv in H as [H|(exe & st2 & _ & H)]; [|discriminate H].
    destruct (can_find_executable host build) eqn:Hfound.
    - apply can_find_executable_true in Hfound as (exe & Hw & Hn & He).
      by rewrite (find_executable_found host build exe st1 Hw Hn He) in H.
    - rewrite find_executable_missing in H by done. injection H as <- _.
      right; right; left. by exists build. }
  destruct v as [|b|version_str]; [injection H as <- _; by do 5 right..|].
  apply bind_Raise_inv in H as [H|(found & st2 & _ & H)].
  - destruct (Py.contains "Proton" version_str); [|discriminate H].
    apply bind_Raise_inv in H as [H|(? & ? & _ & H)]; [|discriminate H].
    destruct (get_proton_paths_run host st1) as [(found & l & Hrun & _)|(l & Hrun & _)];
      rewrite Hrun in H; [discriminate H|].
    injection H as <- _. by do 3 right; left.
  - destruct found; [discriminate H|].
    destruct (String.eqb version_str "custom"); [|discriminate H].
    destruct config as [cfg|]; [|injection H as <- _; do 4 right; left; by eexists].
    destruct (negb (truthy (dict_get cfg "custom_wine_path"))); [|discriminate H].
    injection H as <- _. do 4 right; left; by eexists.
Qed.

Lemma get_wine_path_for_version_exceptions_witness :
  wine_path_exception proton_host (MissingExecutableError "/opt/wine-devel/bin/wine").
Proof.
  refine (get_wine_path_for_version_exceptions proton_host (VStr "winehq-devel") None
            init_state init_state _ _).
  by vm_compute.
Defined.

(** X16.  [get_proton_paths]: the returned list has no duplicates, and in it
    are exactly the Proton locations (all of them directories) that hold an
    entry whose name contains [Proton] with a [dist/bin/wine] or a
    [files/bin/wine] that [path_exists] accepts.  It returns when every
    location can be listed; else it raises [OSError]. *)
Theorem get_proton_paths_result (host : Host) (st : state) :
  (forall paths st',
     get_proton_paths host st = (Ok paths, st') ->
     NoDup paths /\
     (forall path, path ∈ paths <->
        path ∈ _iter_proton_locations host /\ holds_proton host path) /\
     (forall path, path ∈ paths -> os_path_isdir host path = true)) /\
  (forall e st',
     get_proton_paths host st = (Raise e, st') ->
     e = OSError /\
     exists path, path ∈ _iter_proton_locations host /\ listdir host path = None) /\
  ((forall path, path ∈ _iter_proton_locations host -> listdir host path <> None) ->
   exists paths st', get_proton_paths host st = (Ok paths, st')).
Proof.
  destruct (get_proton_paths_run host st)
    as [(found & l & Hrun & Hfound)|(l & Hrun & path & Hpath & Hnone)]; rewrite Hrun.
  - split_and!.
    + intros paths st' [= <- <-].
      assert (Hin : forall path, path ∈ list_of_set host found <->
                path ∈ _iter_proton_locations host /\ holds_proton host path).
      { intros path. by rewrite elem_of_list_of_set, Hfound. }
      split_and!; [apply NoDup_list_of_set | done |].
      intros path [Hloc _]%Hin. by apply _iter_proton_locations_isdir.
    + intros e st' [=].
    + intros _. by eexists _, _.
  - split_and!.
    + intros paths st' [=].
    + intros e st' [= <- <-]. split; [done|]. by exists path.
    + intros Hlist. by destruct (Hlist path Hpath).
Qed.

Lemma get_proton_paths_result_witness :
  NoDup ["/steam/steamapps/common"] /\
  (forall path, path ∈ ["/steam/steamapps/common"] <->
     path ∈ _iter_proton_locations proton_host /\ holds_proton proton_host path) /\
  (forall path, path ∈ ["/steam/steamapps/common"] -> os_path_isdir proton_host path = true).
Proof.
  refine (proj1 (get_proton_paths_result proton_host init_state) _ init_state _).
  by vm_compute.
Defined.

Section ProtonVersions.
Variable host : Host.

Local Notation listing_step proton_path :=
  (fun (versions : list string) version =>
     let path := Py.path_join (Py.path_join proton_path version) "dist/bin/wine" in
     let versions :=
       if os_path_isfile host path then versions ++ [version] else versions in
     let path := Py.path_join (Py.path_join proton_path version) "files/bin/wine" in
     if os_path_isfile host path then versions ++ [version] else versions).

Lemma listing_fold_inv (proton_path : string) (entries versions : list string)
    (version : string) :
  version ∈ foldl (listing_step proton_path) versions entries ->
  version ∈ versions \/
  version ∈ entries /\
  (os_path_isfile host
     (Py.path_join (Py.path_join proton_path version) "dist/bin/wine") = true \/
   os_path_isfile host
     (Py.path_join (Py.path_join proton_path version) "files/bin/wine") = true).
Proof.
  revert versions. induction entries as [|v entries IH]; intros versions; [by left|].
  cbn [foldl]. intros H. apply IH in H as [H|[H1 H2]].
  - cbv beta zeta in H.
    destruct (os_path_isfile host (Py.path_join (Py.path_join proton_path v) "dist/bin/wine"))
      eqn:Hd;
    destruct (os_path_isfile host (Py.path_join (Py.path_join proton_path v) "files/bin/wine"))
      eqn:Hf;
    rewrite ?elem_of_app, ?list_elem_of_singleton in H;
    try (destruct H as [H| ->]); try (destruct H as [H| ->]);
    first [ by left | right; split; [by left|]; first [by left | by right] ].
  - right. split; [by right | done].
Qed.

Local Notation proton_path_step :=
  (fun (versions : list string) proton_path =>
     match listdir host proton_path with
     | None => raise OSError
     | Some entries =>
         let proton_versions := filter (fun p => Py.contains "Proton" p = true) entries in
         mret (foldl (listing_step proton_path) versions proton_versions)
     end).

Lemma listing_loop_inv (proton_paths : list string) (versions result : list string) st st'
    (version : string) :
  for_each proton_path_step proton_paths versions st = (Ok result, st') ->
  version ∈ result ->
  version ∈ versions \/
  Py.contains "Proton" version = true /\
  exists proton_path,
    proton_path ∈ proton_paths /\
    (os_path_isfile host
       (Py.path_join (Py.path_join proton_path version) "dist/bin/wine") = true \/
     os_path_isfile host
       (Py.path_join (Py.path_join proton_path version) "files/bin/wine") = true).
Proof.
  revert versions st. induction proton_paths as [|p proton_paths IH]; intros versions st.
  { intros [= <- _] H. by left. }
  cbn [for_each]. intros Hrun Hin.
  apply bind_Ok_inv in Hrun as (versions1 & st1 & Hstep & Hrun).
  destruct (IH _ _ Hrun Hin) as [H|(Hc & p' & Hp' & H)].
  - destruct (listdir host p) as [entries|]; [|discriminate Hstep].
    apply mret_Ok_inv in Hstep as [<- _].
    apply listing_fold_inv in H as [H|[H1 H2]]; [by left|].
    apply list_elem_of_filter in H1 as [Hc _].
    right. split; [done|]. exists p. split; [by left | done].
  - right. split; [done|]. exists p'. split; [by right | done].
Qed.

End ProtonVersions.

(** X17.  Every version that [list_proton_versions] lists has [Proton] in
    its name, and [get_wine_path_for_version] resolves it, from any state
    and with any configuration, to a file; unless [WINE_PATHS] has an entry
    of the same name, which is looked up first. *)
Theorem list_proton_versions_resolvable (host : Host) (st st' : state)
    (versions : list string) :
  list_proton_versions host st = (Ok versions, st') ->
  forall version, version ∈ versions ->
    Py.contains "Proton" version = true /\
    (WINE_PATHS host !! version = None ->
     forall config st0, exists path st1,
       get_wine_path_for_version host (VStr version) config st0 = (Ok (VStr path), st1) /\
       os_path_isfile host path = true).
Proof.
  unfold list_proton_versions. intros Hrun version Hin.
  apply bind_Ok_inv in Hrun as (proton_paths & st1 & Hpaths & Hrun).
  destruct (listing_loop_inv host _ _ _ _ _ _ Hrun Hin)
    as [H|(Hc & proton_path & Hp & Hfile)]; [by apply elem_of_nil in H|].
  split; [done|]. intros Hreg config st0.
  destruct (stateless_result _ st st0 _ _ (get_proton_paths_stateless host) Hpaths)
    as [l Hpaths0].
  destruct (find_proton_wine_complete host proton_paths proton_path version Hp Hfile)
    as [path Hfound].
  exists path, (add_log l st0). split.
  - unfold get_wine_path_for_version.
    assert (Hne : version <> "").
    { apply (contains_nonempty "Proton" version); [done | exact Hc]. }
    assert (Htruthy : truthy (VStr version) = true).
    { cbn. by destruct (String.eqb_spec version ""). }
    rewrite Htruthy. cbn [negb andb]. rewrite bind_run.
    unfold mret at 1, M_ret at 1. cbn beta iota. rewrite Htruthy. cbn [negb].
    rewrite Hreg, Hc, !bind_run, Hpaths0. cbn beta iota.
    unfold mret at 1, M_ret at 1. cbn beta iota. by rewrite Hfound.
  - by apply find_proton_wine_Some in Hfound as [? _].
Qed.

Lemma list_proton_versions_resolvable_witness :
  forall version, version ∈ ["Proton 8.0"; "Proton - Experimental"] ->
    Py.contains "Proton" version = true /\
    (WINE_PATHS proton_host !! version = None ->
     forall config st0, exists path st1,
       get_wine_path_for_version proton_host (VStr version) config st0
       = (Ok (VStr path), st1) /\
       os_path_isfile proton_host path = true).
Proof.
  refine (list_proton_versions_resolvable proton_host init_state init_state _ _).
  by vm_compute.
Defined.

(** X18.  [is_installed_systemwide] is true exactly when some name of
    [WINE_PATHS] is resolved by [get_wine_path_for_version], that is when
    the build of some entry is found on the [PATH]. *)
Theorem is_installed_systemwide_resolves (host : Host) (st : state) :
  is_installed_systemwide host = true <->
  exists name build exe,
    WINE_PATHS host !! name = Some build /\
    get_wine_path_for_version host (VStr name) None st = (Ok (VStr exe), st).
Proof.
  assert (Hrun : forall name build,
    WINE_PATHS host !! name = Some build ->
    get_wine_path_for_version host (VStr name) None st
    = (exe ← find_executable host build; mret (VStr exe)) st).
  { intros name build Hreg. unfold get_wine_path_for_version.
    assert (Htruthy : truthy (VStr name) = true).
    { cbn. destruct (String.eqb_spec name "") as [->|]; [|done].
      apply WINE_PATHS_keys in Hreg as [H|H]; [|discriminate H].
      vm_compute in H. discriminate H. }
    rewrite Htruthy. cbn [negb andb]. rewrite bind_run.
    unfold mret at 1, M_ret at 1. cbn beta iota. rewrite Htruthy. cbn [negb].
    by rewrite Hreg. }
  unfold is_installed_systemwide. rewrite existsb_exists. split.
  - intros (build & Hin & Hfound).
    apply list_elem_of_In, list_elem_of_fmap in Hin as ([name build'] & -> & Hin).
    apply elem_of_map_to_list in Hin. cbn [snd] in Hfound.
    apply can_find_executable_true in Hfound as (exe & Hw & Hn & He).
    exists name, build', exe. split; [done|].
    rewrite (Hrun name build' Hin), bind_run.
    by rewrite (find_executable_found host build' exe st Hw Hn He).
  - intros (name & build & exe & Hreg & Hres).
    exists build. split.
    + apply list_elem_of_In, list_elem_of_fmap. exists (name, build). split; [done|].
      by apply elem_of_map_to_list.
    + rewrite (Hrun name build Hreg), bind_run in Hres.
      destruct (can_find_executable host build) eqn:Hfound; [done|].
      by rewrite find_executable_missing in Hres.
Qed.

(** *** [sorted] on strings *)

Lemma string_compare_trans (s1 s2 s3 : string) :
  String.compare s1 s2 <> Gt -> String.compare s2 s3 <> Gt -> String.compare s1 s3 <> Gt.
Proof.
  revert s2 s3. induction s1 as [|c1 s1 IH]; intros [|c2 s2] [|c3 s3]; simpl; try done.
  unfold Ascii.compare.
  destruct (N.compare_spec (N_of_ascii c1) (N_of_ascii c2)) as [E12|L12|L12];
    destruct (N.compare_spec (N_of_ascii c2) (N_of_ascii c3)) as [E23|L23|L23];
    destruct (N.compare_spec (N_of_ascii c1) (N_of_ascii c3)) as [E13|L13|L13];
    try done; try lia.
  apply IH.
Qed.

#[local] Instance string_leb_trans : Transitive (fun a b => String.leb a b = true).
Proof.
  intros a b c. unfold String.leb. intros Hab Hbc.
  pose proof (string_compare_trans a b c) as H.
  destruct (String.compare a b), (String.compare b c), (String.compare a c);
    try done; exfalso; by apply H.
Qed.

#[local] Instance string_leb_antisym : AntiSymm eq (fun a b => String.leb a b = true).
Proof. intros a b. apply String.leb_antisym. Qed.

Lemma insert_sorted_Permutation (x : string) (l : list string) : Py.insert_sorted x l ≡ₚ x :: l.
Proof.
  induction l as [|y l IH]; [done|]. cbn [Py.insert_sorted].
  destruct (String.leb x y); [done|]. rewrite IH. apply perm_swap.
Qed.

Lemma sorted_Permutation (l : list string) : Py.sorted l ≡ₚ l.
Proof.
  induction l as [|x l IH]; [done|]. unfold Py.sorted. cbn [foldr].
  rewrite insert_sorted_Permutation. by apply perm_skip.
Qed.

Lemma insert_sorted_Sorted (x : string) (l : list string) :
  Sorted (fun a b => String.leb a b = true) l ->
  Sorted (fun a b => String.leb a b = true) (Py.insert_sorted x l).
Proof.
  induction 1 as [|y l Hl IH Hhd]; cbn [Py.insert_sorted]; [by repeat constructor|].
  destruct (String.leb x y) eqn:Hxy.
  - constructor; [by constructor | by constructor].
  - constructor; [exact IH|].
    destruct l as [|z l]; cbn [Py.insert_sorted].
    + constructor. by destruct (String.leb_total x y) as [H|H]; [rewrite H in Hxy|].
    + destruct (String.leb x z); constructor.
      * by destruct (String.leb_total x y) as [H|H]; [rewrite H in Hxy|].
      * by inversion Hhd.
Qed.

Lemma sorted_Sorted (l : list string) : Sorted (fun a b => String.leb a b = true) (Py.sorted l).
Proof.
  induction l as [|x l IH]; [constructor|]. by apply insert_sorted_Sorted.
Qed.

(** [sorted] gives the same list for every order of the same strings. *)
Lemma sorted_unique (l1 l2 : list string) : l1 ≡ₚ l2 -> Py.sorted l1 = Py.sorted l2.
Proof.
  intros Hperm. apply (Sorted_unique (fun a b => String.leb a b = true));
    [apply sorted_Sorted..|].
  by rewrite !sorted_Permutation.
Qed.

(** *** The order of the overrides *)

Lemma odict_setitem_Permutation {V : Type} (k : string) (v : V) (d : list (string * V)) :
  NoDup d.*1 -> odict_setitem k v d ≡ₚ (k, v) :: filter (fun kv => kv.1 <> k) d.
Proof.
  induction d as [|[k' v'] d IH]; [done|].
  rewrite fmap_cons. intros [Hk' Hd]%NoDup_cons. cbn [odict_setitem].
  destruct (String.eqb_spec k k') as [<-|Hne].
  - rewrite filter_cons_False by (cbn; by intros ?).
    assert (Hsame : filter (fun kv : string * V => kv.1 <> k) d = d).
    { clear -Hk'. induction d as [|[k2 v2] d IHd]; [done|].
      rewrite fmap_cons in Hk'. apply not_elem_of_cons in Hk' as [Hne Hk'].
      rewrite filter_cons_True by (cbn in *; congruence). by rewrite IHd. }
    by rewrite Hsame.
  - rewrite filter_cons_True by (cbn; congruence).
    rewrite (IH Hd). apply perm_swap.
Qed.

Lemma odict_update_default_Permutation (d1 d2 : list (string * option string)) :
  NoDup d1.*1 -> d1 ≡ₚ d2 ->
  odict_update d1 default_overrides ≡ₚ odict_update d2 default_overrides.
Proof.
  intros Hnodup Hperm. unfold odict_update, default_overrides. cbn [foldl fst snd].
  rewrite !odict_setitem_Permutation; [by rewrite Hperm | by rewrite <- Hperm | done].
Qed.

Lemma serialize_overrides_Permutation (items1 items2 : list (string * option string)) :
  items1 ≡ₚ items2 -> serialize_overrides items1 = serialize_overrides items2.
Proof.
  intros Hperm. unfold serialize_overrides. f_equal.
  apply list_omap_ext, Forall2_same_length_lookup_2; [done|].
  intros i mode mode' Hm Hm'. assert (mode' = mode) as -> by congruence.
  unfold serialize_bucket.
  assert (Hmembers : bucket_members items1 mode ≡ₚ bucket_members items2 mode).
  { unfold bucket_members. by rewrite Hperm. }
  destruct (bucket_members items1 mode) as [|dll1 dlls1] eqn:E1;
    destruct (bucket_members items2 mode) as [|dll2 dlls2] eqn:E2.
  - done.
  - by apply Permutation_nil_cons in Hmembers.
  - symmetry in Hmembers. by apply Permutation_nil_cons in Hmembers.
  - by rewrite (sorted_unique _ _ Hmembers).
Qed.

(** X19.  The string that [get_overrides_env] returns does not depend on
    the order in which the caller's mapping holds its entries. *)
Theorem get_overrides_env_order_independent (overrides1 overrides2 : ref) (st1 st2 : state) :
  NoDup (dicts st1 overrides1).*1 ->
  dicts st1 overrides1 ≡ₚ dicts st2 overrides2 ->
  fst (get_overrides_env overrides1 st1) = fst (get_overrides_env overrides2 st2).
Proof.
  intros Hnodup Hperm. rewrite !get_overrides_env_run. cbn [fst]. f_equal.
  by apply serialize_overrides_Permutation, odict_update_default_Permutation.
Qed.

Lemma get_overrides_env_order_independent_witness :
  fst (get_overrides_env 0
         (State [] None (fun _ => [("d3d9", Some "native"); ("dxgi", Some "n");
                                   ("mscoree", Some "disabled"); ("winemenubuilder", None)])))
  = fst (get_overrides_env 1
           (State [] None (fun _ => [("winemenubuilder", None); ("mscoree", Some "disabled");
                                     ("dxgi", Some "n"); ("d3d9", Some "native")]))).
Proof.
  refine (get_overrides_env_order_independent 0 1 _ _ _ _).
  - apply (bool_decide_unpack _). by vm_compute.
  - exact (Permutation_rev [("d3d9", Some "native"); ("dxgi", Some "n");
                            ("mscoree", Some "disabled"); ("winemenubuilder", None)]).
Defined.

(** X20.  Whatever the caller asks for, [winemenubuilder] is disabled: the
    returned string ends with the group of the empty mode, and
    [winemenubuilder] is one of the DLLs of that group. *)
Theorem get_overrides_env_disables_winemenubuilder (overrides : ref) (st : state) :
  exists groups dlls st',
    get_overrides_env overrides st
    = (Ok (Py.join ";" (groups ++ [Py.join "," (Py.sorted dlls) +:+ "="])), st') /\
    dlls = bucket_members (dicts st' overrides) "" /\
    "winemenubuilder" ∈ dlls.
Proof.
  set (items := odict_update (dicts st overrides) default_overrides).
  assert (Hitems : odict_lookup "winemenubuilder" items = Some (Some "")).
  { unfold items, odict_update, default_overrides. cbn [foldl fst snd].
    rewrite odict_lookup_setitem. by rewrite decide_True. }
  assert (Hin : "winemenubuilder" ∈ bucket_members items "").
  { unfold bucket_members. apply list_elem_of_fmap.
    exists ("winemenubuilder", Some ""). split; [done|].
    apply list_elem_of_filter. split; [done|].
    clear -Hitems. induction items as [|[k v] items IH]; [discriminate|].
    cbn [odict_lookup] in Hitems.
    destruct (String.eqb_spec "winemenubuilder" k) as [<-|Hne].
    - injection Hitems as ->. by left.
    - right. by apply IH. }
  exists (omap (serialize_bucket items) ["n,b"; "b,n"; "b"; "n"; "d"]),
    (bucket_members items ""),
    (add_log (invalid_override_log items) (set_dict overrides items st)).
  split; [|split; [|done]].
  - rewrite get_overrides_env_run. fold items.
    assert (Hlast : omap (serialize_bucket items) [""]
                    = [Py.join "," (Py.sorted (bucket_members items "")) +:+ "="]).
    { cbn [omap list_omap]. unfold serialize_bucket.
      destruct (bucket_members items "") as [|dll dlls] eqn:E; [by apply elem_of_nil in Hin|].
      done. }
    unfold serialize_overrides, bucket_order.
    change ["n,b"; "b,n"; "b"; "n"; "d"; ""] with (["n,b"; "b,n"; "b"; "n"; "d"] ++ [""]).
    by rewrite omap_app, Hlast.
  - cbn [dicts add_log set_dict]. by rewrite Nat.eqb_refl.
Qed.

(** ** lutris/util/system.py, [python_identifier] *)

(** The cases of tests/test_utils.py. *)
Example python_identifier_tests :
  sub_identifier 0 "foo-bar" = "foo-bar" /\
  sub_identifier 0 "${foo-bar}" = "${foo_bar}" /\
  sub_identifier 0 "${foo-bar} ${a-b}" = "${foo_bar} ${a_b}" /\
  sub_identifier 0 "${foo-bar} a-b" = "${foo_bar} a-b" /\
  sub_identifier 0 "${foo-bar-bang}" = "${foo_bar_bang}" /\
  sub_identifier 0 "${foo-bar bang}" = "${foo-bar bang}".
Proof. by vm_compute. Qed.

(** Replacing one character by one is a map over the characters. *)
Lemma replace_dash_chars (s : string) :
  Py.replace "-" "_" s
  = (fix go s := match s with
                 | EmptyString => EmptyString
                 | String c s' => String (_dashrepl c) (go s')
                 end) s.
Proof.
  unfold Py.replace. induction s as [|c s IH]; [done|].
  cbn [Py.replace_from Py.startswith String.length Nat.sub]. unfold _dashrepl at 1.
  rewrite Ascii.eqb_sym. destruct (Ascii.eqb c "-"); cbn [andb]; by rewrite IH.
Qed.

Lemma _dashrepl_idempotent (c : ascii) : _dashrepl (_dashrepl c) = _dashrepl c.
Proof. unfold _dashrepl. destruct (Ascii.eqb_spec c "-") as [->|Hc]; [done|]. by rewrite (proj2 (Ascii.eqb_neq _ _) Hc). Qed.

Lemma _dashrepl_identifier_char (c : ascii) :
  is_identifier_char (_dashrepl c) = is_identifier_char c.
Proof. unfold _dashrepl. by destruct (Ascii.eqb_spec c "-") as [->|Hc]. Qed.

Lemma dashes_replaced_refl (s : string) : dashes_replaced s s.
Proof. induction s; by constructor. Qed.

Lemma dashes_replaced_dashrepl (c : ascii) (s t : string) :
  dashes_replaced s t -> dashes_replaced (String c s) (String (_dashrepl c) t).
Proof.
  intros H. unfold _dashrepl. destruct (Ascii.eqb_spec c "-") as [->|Hc]; by constructor.
Qed.

Lemma dashes_replaced_length (s t : string) :
  dashes_replaced s t -> String.length t = String.length s.
Proof. induction 1; cbn; congruence. Qed.

Lemma dashes_replaced_run (s t : string) :
  dashes_replaced s t ->
  identifier_run t = identifier_run s /\
  forall n, (String.get n t = Some "}"%char <-> String.get n s = Some "}"%char).
Proof.
  induction 1 as [|c s t H [IHrun IHget]|s t H [IHrun IHget]]; [done|..].
  - cbn [identifier_run]. rewrite IHrun. split; [done|]. by intros [|n]; cbn [String.get].
  - change (identifier_run (String "_" t)) with (S (identifier_run t)).
    change (identifier_run (String "-" s)) with (S (identifier_run s)).
    rewrite IHrun. split; [done|]. by intros [|n]; cbn [String.get].
Qed.

Lemma closing_brace_decide {A : Type} (o : option ascii) (a b : A) :
  match o with Some "}"%char => a | _ => b end
  = if decide (o = Some "}"%char) then a else b.
Proof.
  destruct o as [c|]; [|done].
  destruct (decide (Some c = Some "}"%char)) as [[= ->]|Hc]; [done|].
  destruct c as [[] [] [] [] [] [] [] []]; done.
Qed.

(** Where a match starts, and how long it is, does not depend on whether a
    dash is still a dash. *)
Lemma match_identifier_dashes_replaced (s t : string) :
  dashes_replaced s t -> match_identifier t = match_identifier s.
Proof.
  assert (Hmatch : forall s t, dashes_replaced s t ->
    match_identifier (String "$" (String "{" t)) = match_identifier (String "$" (String "{" s))).
  { clear. intros s t [Hrun Hget]%dashes_replaced_run. cbn [match_identifier]. rewrite Hrun.
    rewrite !closing_brace_decide. specialize (Hget (identifier_run s)).
    destruct (decide (String.get (identifier_run s) t = Some "}"%char)) as [Ht|Ht];
      destruct (decide (String.get (identifier_run s) s = Some "}"%char)) as [Hs|Hs];
      tauto. }
  intros H. inversion H as [|c s1 t1 H1|s1 t1 H1]; subst; [done| |done].
  inversion H1 as [|c2 s2 t2 H2|s2 t2 H2]; subst.
  - by destruct c as [[] [] [] [] [] [] [] []].
  - destruct (Ascii.eqb_spec c "$") as [->|Hc];
      [|clear -Hc; by destruct c as [[] [] [] [] [] [] [] []]].
    destruct (Ascii.eqb_spec c2 "{") as [->|Hc2];
      [|clear -Hc2; by destruct c2 as [[] [] [] [] [] [] [] []]].
    by apply Hmatch.
  - by destruct c as [[] [] [] [] [] [] [] []].
Qed.

Lemma sub_identifier_dashes_replaced (inside : nat) (s : string) :
  dashes_replaced s (sub_identifier inside s).
Proof.
  revert inside. induction s as [|c s IH]; intros inside; [constructor|].
  cbn [sub_identifier]. destruct inside as [|k].
  - destruct (match_identifier (String c s)).
    + apply dashes_replaced_dashrepl, IH.
    + constructor. apply IH.
  - apply dashes_replaced_dashrepl, IH.
Qed.

Lemma match_identifier_dollar (c : ascii) (s : string) (n : nat) :
  match_identifier (String c s) = Some n -> c = "$"%char.
Proof.
  intros H. destruct (Ascii.eqb_spec c "$") as [->|Hc]; [done|].
  clear -Hc H. by destruct c as [[] [] [] [] [] [] [] []].
Qed.

Lemma sub_identifier_idempotent (inside : nat) (s : string) :
  sub_identifier inside (sub_identifier inside s) = sub_identifier inside s.
Proof.
  revert inside. induction s as [|c s IH]; intros inside; [done|].
  destruct inside as [|k].
  - cbn [sub_identifier].
    destruct (match_identifier (String c s)) as [n|] eqn:Hm.
    + pose proof (match_identifier_dollar c s n Hm) as ->.
      change (_dashrepl "$") with "$"%char.
      assert (Hm' : match_identifier (String "$" (sub_identifier (n - 1) s)) = Some n).
      { rewrite <- Hm. apply match_identifier_dashes_replaced.
        constructor. apply sub_identifier_dashes_replaced. }
      cbn [sub_identifier]. rewrite Hm'. change (_dashrepl "$") with "$"%char.
      by rewrite IH.
    + assert (Hm' : match_identifier (String c (sub_identifier 0 s)) = None).
      { rewrite <- Hm. apply match_identifier_dashes_replaced.
        constructor. apply sub_identifier_dashes_replaced. }
      cbn [sub_identifier]. rewrite Hm'. by rewrite IH.
  - cbn [sub_identifier]. by rewrite _dashrepl_idempotent, IH.
Qed.

Lemma match_identifier_contains (s : string) (n : nat) :
  match_identifier s = Some n -> Py.startswith "${" s = true.
Proof.
  destruct s as [|c s]; [done|]. intros H.
  pose proof (match_identifier_dollar c s n H) as ->.
  destruct s as [|c2 s]; [done|].
  destruct (Ascii.eqb_spec c2 "{") as [->|Hc2]; [done|].
  clear -Hc2 H. by destruct c2 as [[] [] [] [] [] [] [] []].
Qed.

Lemma sub_identifier_without_match (s : string) :
  Py.contains "${" s = false -> sub_identifier 0 s = s.
Proof.
  induction s as [|c s IH]; [done|]. intros Hc.
  cbn [Py.contains] in Hc. apply orb_false_iff in Hc as [Hstart Hrest].
  cbn [sub_identifier].
  destruct (match_identifier (String c s)) as [n|] eqn:Hm.
  - apply match_identifier_contains in Hm. congruence.
  - by rewrite IH.
Qed.

(** X21.  On a string, [python_identifier] returns a string of the same
    length that differs from it only in that some dashes have become
    underscores, and it returns the string itself when [${] does not occur
    in it.  On anything else it logs an error and returns [None].  It never
    raises. *)
Theorem python_identifier_only_replaces_dashes (unsafe_string : value) (st : state) :
  (forall s, unsafe_string = VStr s ->
     exists r,
       python_identifier unsafe_string st = (Ok (VStr r), st) /\
       dashes_replaced s r /\ String.length r = String.length s /\
       (Py.contains "${" s = false -> r = s)) /\
  ((forall s, unsafe_string <> VStr s) ->
   python_identifier unsafe_string st
   = (Ok VNone, add_log [(ERROR, "Cannot convert %s to a python identifier")] st)).
Proof.
  split.
  - intros s ->. exists (sub_identifier 0 s). split_and!; [done|..].
    + apply sub_identifier_dashes_replaced.
    + apply dashes_replaced_length, sub_identifier_dashes_replaced.
    + apply sub_identifier_without_match.
  - intros Hns. destruct unsafe_string as [|b|s]; [done..|]. by destruct (Hns s).
Qed.

(** X22.  [python_identifier] is idempotent on strings: applied to its own
    result, it returns it unchanged. *)
Theorem python_identifier_idempotent (s : string) (r : value) (st st' : state) :
  python_identifier (VStr s) st = (Ok r, st') ->
  python_identifier r st' = (Ok r, st').
Proof.
  intros [= <- <-]. cbn. by rewrite sub_identifier_idempotent.
Qed.

Lemma python_identifier_idempotent_witness :
  python_identifier (VStr "${foo_bar} a-b") init_state
  = (Ok (VStr "${foo_bar} a-b"), init_state).
Proof.
  refine (python_identifier_idempotent "${foo-bar} a-b" _ init_state _ _).
  by vm_compute.
Defined.

Lemma _dashrepl_no_dash (c : ascii) : Ascii.eqb "-" (_dashrepl c) = false.
Proof.
  unfold _dashrepl. destruct (Ascii.eqb_spec c "-") as [->|Hc]; [done|].
  apply Ascii.eqb_neq. congruence.
Qed.

(** The characters that are rewritten as part of a match carry no dash
    afterwards. *)
Lemma sub_identifier_inside_dash_free (k : nat) (s : string) :
  Py.contains "-" (String.substring 0 k (sub_identifier k s)) = false.
Proof.
  revert s. induction k as [|k IH]; intros s; [by destruct (sub_identifier 0 s)|].
  destruct s as [|c s]; [done|].
  cbn [sub_identifier String.substring Py.contains Py.startswith].
  by rewrite _dashrepl_no_dash, IH.
Qed.

Lemma identifier_run_get (s : string) (i : nat) :
  i < identifier_run s -> exists c, String.get i s = Some c /\ is_identifier_char c = true.
Proof.
  revert i. induction s as [|c s IH]; intros i; cbn [identifier_run]; [lia|].
  destruct (is_identifier_char c) eqn:Hc; [|lia].
  destruct i as [|i]; [by exists c|]. intros Hi. cbn [String.get]. apply IH. lia.
Qed.

(** No match starts inside another one. *)
Lemma match_identifier_no_dollar_inside (c : ascii) (s : string) (n i : nat) :
  match_identifier (String c s) = Some n -> i < n - 1 -> String.get i s <> Some "$"%char.
Proof.
  intros Hm Hi. pose proof (match_identifier_dollar c s n Hm) as ->.
  destruct s as [|c2 rest]; [done|].
  destruct (Ascii.eqb_spec c2 "{") as [->|Hc2];
    [|clear -Hc2 Hm; by destruct c2 as [[] [] [] [] [] [] [] []]].
  cbn [match_identifier] in Hm. rewrite closing_brace_decide in Hm.
  destruct (decide (String.get (identifier_run rest) rest = Some "}"%char)) as [Hclose|];
    [|done].
  injection Hm as <-. destruct i as [|i]; [done|]. cbn [String.get].
  destruct (decide (i < identifier_run rest)) as [Hrun|Hrun].
  - apply identifier_run_get in Hrun as (ch & -> & Hch). by intros [= ->].
  - assert (i = identifier_run rest) as -> by lia. by rewrite Hclose.
Qed.

Lemma sub_identifier_matches_dash_free (s : string) (inside : nat) (pre rest : string)
    (n : nat) :
  (forall i, i < inside -> String.get i s <> Some "$"%char) ->
  sub_identifier inside s = pre +:+ rest ->
  match_identifier rest = Some n ->
  Py.contains "-" (String.substring 0 n rest) = false.
Proof.
  revert inside pre. induction s as [|c s IH]; intros inside pre Hinside Hsub Hm.
  { destruct pre; [|discriminate Hsub]. change ("" +:+ rest) with rest in Hsub.
    by subst rest. }
  destruct pre as [|p pre].
  - change ("" +:+ rest) with rest in Hsub. subst rest.
    assert (Hsame : match_identifier (String c s) = Some n).
    { rewrite <- Hm. symmetry. apply match_identifier_dashes_replaced,
        sub_identifier_dashes_replaced. }
    pose proof (match_identifier_dollar c s n Hsame) as ->.
    destruct inside as [|k]; [|by destruct (Hinside 0 ltac:(lia))].
    cbn [sub_identifier]. rewrite Hsame.
    assert (Hn : n = S (n - 1)).
    { destruct s as [|c2 s]; [done|]. cbn [match_identifier] in Hsame.
      destruct c2 as [[] [] [] [] [] [] [] []]; try done.
      rewrite closing_brace_decide in Hsame. case_decide; [|done].
      injection Hsame as <-. lia. }
    rewrite Hn at 1. cbn [String.substring Py.contains Py.startswith].
    change (_dashrepl "$") with "$"%char. cbn [Ascii.eqb Bool.eqb andb orb].
    apply sub_identifier_inside_dash_free.
  - change (String p pre +:+ rest) with (String p (pre +:+ rest)) in Hsub.
    cbn [sub_identifier] in Hsub. destruct inside as [|k].
    + destruct (match_identifier (String c s)) as [m|] eqn:Hhere.
      * injection Hsub as _ Hsub. apply (IH (m - 1) pre); [|done..].
        intros i Hi. by eapply match_identifier_no_dollar_inside.
      * injection Hsub as _ Hsub. apply (IH 0 pre); [|done..]. intros i Hi. lia.
    + injection Hsub as _ Hsub. apply (IH k pre); [|done..].
      intros i Hi. apply (Hinside (S i)). lia.
Qed.

(** X23.  In the string that [python_identifier] returns, no match of the
    pattern contains a dash: wherever [${], a run of word characters and
    dashes, and [}] follow each other, the run has none. *)
Theorem python_identifier_matches_dash_free (s pre rest : string) (n : nat)
    (st st' : state) :
  python_identifier (VStr s) st = (Ok (VStr (pre +:+ rest)), st') ->
  match_identifier rest = Some n ->
  Py.contains "-" (String.substring 0 n rest) = false.
Proof.
  intros [= Hsub _] Hm. apply (sub_identifier_matches_dash_free s 0 pre rest n); [|done..].
  intros i Hi. lia.
Qed.

Lemma python_identifier_matches_dash_free_witness :
  Py.contains "-" (String.substring 0 10 "${foo_bar} a-b") = false.
Proof.
  refine (python_identifier_matches_dash_free "a-b ${foo-bar} a-b" "a-b " "${foo_bar} a-b" 10
            init_state init_state _ _); by vm_compute.
Defined.

(** ** lutris/util/wine/wine.py, prefixes and executables *)

Section PrefixArch.
Variable host : Host.
Variable open_text : string -> read_outcome.

Lemma scan_registry_arch (line_count : nat) (lines : list string) (arch : string) :
  scan_registry line_count lines = Some arch -> arch = "win32" \/ arch = "win64".
Proof.
  revert lines. induction line_count as [|n IH]; intros lines; [done|].
  cbn [scan_registry].
  destruct (Py.contains "win64" (hd "" lines)); [intros [= <-]; by right|].
  destruct (Py.contains "win32" (hd "" lines)); [intros [= <-]; by left|].
  apply IH.
Qed.

Lemma contains_empty_line (sub : string) : sub <> "" -> Py.contains sub "" = false.
Proof. by destruct sub. Qed.

Lemma scan_registry_Some (line_count : nat) (lines : list string) (arch : string) :
  scan_registry line_count lines = Some arch <->
  exists i, i < line_count /\ first_marker lines i arch.
Proof.
  revert lines. induction line_count as [|n IH]; intros lines.
  { split; [done | intros (i & Hi & _); lia]. }
  cbn [scan_registry]. destruct lines as [|line lines]; cbn [hd tl].
  - rewrite !contains_empty_line by done. rewrite IH. split.
    + intros (i & _ & line & Hline & _). by rewrite lookup_nil in Hline.
    + intros (i & _ & line & Hline & _). by rewrite lookup_nil in Hline.
  - destruct (Py.contains "win64" line) eqn:H64.
    { split.
      - intros [= <-]. exists 0. split; [lia|]. exists line.
        split_and!; [done | by left | intros; lia].
      - intros ([|i] & Hi & l & Hl & Harch & Hearlier).
        + injection Hl as <-. destruct Harch as [[-> _]|(_ & ? & _)]; [done | congruence].
        + destruct (Hearlier 0 line ltac:(lia) eq_refl). congruence. }
    destruct (Py.contains "win32" line) eqn:H32.
    { split.
      - intros [= <-]. exists 0. split; [lia|]. exists line.
        split_and!; [done | by right | intros; lia].
      - intros ([|i] & Hi & l & Hl & Harch & Hearlier).
        + injection Hl as <-. destruct Harch as [[_ ?]|(-> & _)]; [congruence | done].
        + destruct (Hearlier 0 line ltac:(lia) eq_refl). congruence. }
    rewrite IH. split.
    + intros (i & Hi & l & Hl & Harch & Hearlier). exists (S i). split; [lia|].
      exists l. split_and!; [done..|].
      intros [|j] earlier Hj Hlookup; [by injection Hlookup as <-|].
      apply (Hearlier j); [lia | done].
    + intros ([|i] & Hi & l & Hl & Harch & Hearlier).
      * injection Hl as <-. destruct Harch as [[_ ?]|(_ & _ & ?)]; congruence.
      * exists i. split; [lia|]. exists l. split_and!; [done..|].
        intros j earlier Hj Hlookup. apply (Hearlier (S j)); [lia | done].
Qed.

End PrefixArch.

Lemma detect_prefix_arch_Raise_inv (host : Host) (open_text : string -> read_outcome)
    (prefix_path : string) (st st' : state) (e : exn) :
  detect_prefix_arch host open_text prefix_path st = (Raise e, st') ->
  is_prefix_directory host prefix_path = false /\
  e = RuntimeError ("Prefix not found: " +:+ prefix_path) \/
  is_prefix_directory host prefix_path = true /\
  open_text (registry_path host prefix_path) = ReadError e.
Proof.
  unfold detect_prefix_arch, registry_path.
  destruct (is_prefix_directory host prefix_path); cbn [negb].
  - destruct (open_text _) as [lines|e']; [|intros [= -> _]; by right].
    destruct (scan_registry 5 lines); [done|]. by rewrite bind_run, logger_run.
  - intros [= <- _]. by left.
Qed.

(** X24.  [detect_prefix_arch] raises [RuntimeError] when the path is no
    prefix directory, and otherwise only what reading the registry raises.
    On a prefix directory whose registry can be read, it returns the
    architecture that the first of the first five lines with [win64] or
    [win32] in it names, [win64] going first within a line; when none of
    the five has one, it logs an error and returns [win32]. *)
Theorem detect_prefix_arch_first_five_lines (host : Host)
    (open_text : string -> read_outcome) (prefix_path : string) (st : state) :
  (is_prefix_directory host prefix_path = false ->
   detect_prefix_arch host open_text prefix_path st
   = (Raise (RuntimeError ("Prefix not found: " +:+ prefix_path)), st)) /\
  (forall e st',
     detect_prefix_arch host open_text prefix_path st = (Raise e, st') ->
     is_prefix_directory host prefix_path = false /\
     e = RuntimeError ("Prefix not found: " +:+ prefix_path) \/
     is_prefix_directory host prefix_path = true /\
     open_text (registry_path host prefix_path) = ReadError e) /\
  (forall lines,
     is_prefix_directory host prefix_path = true ->
     open_text (registry_path host prefix_path) = ReadLines lines ->
     (forall arch,
        (exists i, i < 5 /\ first_marker lines i arch) ->
        detect_prefix_arch host open_text prefix_path st = (Ok arch, st)) /\
     ((forall i arch, i < 5 -> ~ first_marker lines i arch) ->
      detect_prefix_arch host open_text prefix_path st
      = (Ok "win32",
         add_log [(ERROR, "Failed to detect Wine prefix architecture in %s; defaulting to 32-bit.")]
           st))).
Proof.
  split_and!; [| |unfold detect_prefix_arch, registry_path].
  - unfold detect_prefix_arch. by intros ->.
  - intros e st'. apply detect_prefix_arch_Raise_inv.
  - intros lines -> ->. cbn [negb]. split.
    + intros arch Hmarker. apply scan_registry_Some in Hmarker. by rewrite Hmarker.
    + intros Hnone. destruct (scan_registry 5 lines) as [arch|] eqn:Hscan.
      * apply scan_registry_Some in Hscan as (i & Hi & Hmarker). by destruct (Hnone i arch).
      * by rewrite bind_run, logger_run.
Qed.

Lemma detect_prefix_arch_first_five_lines_witness :
  detect_prefix_arch prefix_host prefix_registry "/games/prefix" init_state
  = (Ok "win64", init_state).
Proof.
  refine (proj1 (proj2 (proj2 (detect_prefix_arch_first_five_lines prefix_host prefix_registry
            "/games/prefix" init_state)) _ eq_refl eq_refl) "win64" _).
  exists 3. split; [lia|]. exists "#arch=win64". split_and!; [done | by left |].
  intros [|[|[|j]]] earlier Hj Hl; [vm_compute in Hl; injection Hl as <-; done..|lia].
Defined.

(** X25.  [detect_arch] returns [win32] or [win64] and nothing else.  With
    a prefix directory it is [detect_prefix_arch] of that directory,
    whatever the Wine path; it never raises the [RuntimeError] of
    [detect_prefix_arch], only what reading the registry raises.  Without
    one, it answers [win64] exactly when the Wine path with [64] appended
    exists. *)
Theorem detect_arch_result (host : Host) (open_text : string -> read_outcome)
    (prefix_path wine_path : option string) (st : state) :
  (forall arch st',
     detect_arch host open_text prefix_path wine_path st = (Ok arch, st') ->
     arch = "win32" \/ arch = "win64") /\
  (forall e st',
     detect_arch host open_text prefix_path wine_path st = (Raise e, st') ->
     exists prefix,
       prefix_path = Some prefix /\ is_prefix_directory host prefix = true /\
       open_text (registry_path host prefix) = ReadError e) /\
  (forall prefix,
     prefix_path = Some prefix -> is_prefix_directory host prefix = true ->
     detect_arch host open_text prefix_path wine_path st
     = detect_prefix_arch host open_text prefix st) /\
  (is_prefix_directory host (default "" prefix_path) = false ->
   exists l,
     detect_arch host open_text prefix_path wine_path st
     = (Ok (if present host (default "" wine_path +:+ "64")
               && negb (String.eqb (default "" wine_path) "")
            then "win64" else "win32"),
        add_log l st)).
Proof.
  assert (Hprefix : forall prefix,
    is_prefix_directory host prefix = true ->
    detect_arch host open_text (Some prefix) wine_path st
    = detect_prefix_arch host open_text prefix st).
  { intros prefix Hp. unfold detect_arch. cbn [default from_option id]. rewrite Hp.
    destruct (String.eqb_spec prefix "") as [->|]; [done|]. done. }
  assert (Hnone : is_prefix_directory host (default "" prefix_path) = false ->
    exists l,
      detect_arch host open_text prefix_path wine_path st
      = (Ok (if present host (default "" wine_path +:+ "64")
                && negb (String.eqb (default "" wine_path) "")
             then "win64" else "win32"),
         add_log l st)).
  { intros Hp. unfold detect_arch. cbv zeta. rewrite Hp, andb_false_r, bind_run.
    destruct (String.eqb (default "" wine_path) "").
    - exists []. by rewrite add_log_nil, andb_false_r.
    - destruct (path_exists_present host (default "" wine_path +:+ "64") st) as [l ->].
      exists l. by rewrite andb_true_r. }
  split_and!; [| |intros prefix ->; apply Hprefix|done].
  - intros arch st' Hrun.
    destruct (is_prefix_directory host (default "" prefix_path)) eqn:Hp.
    + destruct prefix_path as [prefix|]; [|done]. rewrite (Hprefix prefix Hp) in Hrun.
      unfold detect_prefix_arch in Hrun. cbn [default from_option id] in Hp.
      rewrite Hp in Hrun. cbn [negb] in Hrun.
      destruct (open_text _) as [lines|e]; [|done].
      destruct (scan_registry 5 lines) as [a|] eqn:Hscan.
      * injection Hrun as <- _. by apply scan_registry_arch in Hscan.
      * rewrite bind_run, logger_run in Hrun. injection Hrun as <- _. by left.
    + destruct (Hnone eq_refl) as [l Hl]. rewrite Hl in Hrun. injection Hrun as <- _.
      destruct (_ && _); [by right | by left].
  - intros e st' Hrun.
    destruct (is_prefix_directory host (default "" prefix_path)) eqn:Hp.
    + destruct prefix_path as [prefix|]; [|done]. rewrite (Hprefix prefix Hp) in Hrun.
      exists prefix. split_and!; [done..|].
      apply (detect_prefix_arch_Raise_inv host open_text) in Hrun as [[? _]|[_ ?]];
        [|done]. cbn [default from_option id] in Hp. congruence.
    + destruct (Hnone eq_refl) as [l Hl]. by rewrite Hl in Hrun.
Qed.

(** X26.  [get_real_executable] never changes a working directory that is
    given (neither [None] nor empty).  The program it names is the
    executable itself, without arguments, or one of [msiexec], [cmd] and
    [start] with its flag and the executable; a batch file is named by its
    base name exactly when the working directory returned is its
    directory. *)
Theorem get_real_executable_working_dir (windows_executable : string)
    (working_dir : option string) :
  let '(program, args, returned_dir) := get_real_executable windows_executable working_dir in
  (working_dir <> None -> working_dir <> Some "" -> returned_dir = working_dir) /\
  (program = windows_executable /\ args = [] /\ returned_dir = working_dir \/
   exists flag target,
     (program, flag) ∈ [("msiexec", "/i"); ("cmd", "/C"); ("start", "/unix")] /\
     args = [flag; target] /\
     (target = windows_executable /\ returned_dir = working_dir \/
      program = "cmd" /\ target = PosixPath.basename windows_executable /\
      returned_dir = Some (PosixPath.dirname windows_executable))).
Proof.
  unfold get_real_executable.
  destruct (PosixPath.endswith ".msi" (Py.lower windows_executable)).
  { split; [done|]. right. exists "/i", windows_executable.
    split_and!; [by left | done | by left]. }
  destruct (PosixPath.endswith ".bat" (Py.lower windows_executable)).
  { destruct (decide (working_dir = None \/ working_dir = Some "")) as [Hempty|Hempty].
    - rewrite (bool_decide_true _ Hempty). cbn [orb].
      split; [tauto|].
      right. exists "/C", (PosixPath.basename windows_executable).
      split_and!; [right; by left | done | by right].
    - rewrite (bool_decide_false _ Hempty). cbn [orb].
      destruct (decide (Some (PosixPath.dirname windows_executable) = working_dir))
        as [Hsame|Hsame].
      + rewrite (bool_decide_true _ Hsame). split; [done|].
        right. exists "/C", (PosixPath.basename windows_executable).
        split_and!; [right; by left | done | by right].
      + rewrite (bool_decide_false _ Hsame). split; [done|].
        right. exists "/C", windows_executable.
        split_and!; [right; by left | done | by left]. }
  destruct (PosixPath.endswith ".lnk" (Py.lower windows_executable)).
  { split; [done|]. right. exists "/unix", windows_executable.
    split_and!; [right; right; by left | done | by left]. }
  split; [done | by left].
Qed.

(** ** Paths *)

Lemma startswith_refl (s : string) : Py.startswith s s = true.
Proof. induction s as [|c s IH]; [done|]. cbn. by rewrite Ascii.eqb_refl. Qed.

Lemma startswith_trans (a b c : string) :
  Py.startswith a b = true -> Py.startswith b c = true -> Py.startswith a c = true.
Proof.
  revert b c. induction a as [|x a IH]; intros [|y b] [|z c]; cbn; try done.
  intros [Hxy Hab]%andb_true_iff [Hyz Hbc]%andb_true_iff.
  apply Ascii.eqb_eq in Hxy as ->. rewrite Hyz. by apply (IH b c).
Qed.

Lemma startswith_length (a b : string) :
  Py.startswith a b = true -> String.length a <= String.length b.
Proof.
  revert b. induction a as [|x a IH]; intros [|y b]; cbn; try done; [lia|].
  intros [_ Hab]%andb_true_iff. apply IH in Hab. lia.
Qed.

Lemma startswith_same_length (a b : string) :
  Py.startswith a b = true -> String.length a = String.length b -> a = b.
Proof.
  revert b. induction a as [|x a IH]; intros [|y b]; cbn; try done.
  intros [Hxy Hab]%andb_true_iff [= Hlen]. apply Ascii.eqb_eq in Hxy as ->.
  by rewrite (IH b Hab Hlen).
Qed.

Lemma dir_head_cons (c : ascii) (p : string) :
  PosixPath.dir_head (String c p) =
  match PosixPath.dir_head p with
  | EmptyString => if Ascii.eqb c "/" then "/" else EmptyString
  | head => String c head
  end.
Proof. done. Qed.

Lemma rstrip_char_cons (ch c : ascii) (s : string) :
  PosixPath.rstrip_char ch (String c s) =
  match PosixPath.rstrip_char ch s with
  | EmptyString => if Ascii.eqb c ch then EmptyString else String c EmptyString
  | r => String c r
  end.
Proof. done. Qed.

Lemma dir_head_prefix (p : string) : Py.startswith (PosixPath.dir_head p) p = true.
Proof.
  induction p as [|c p IH]; [done|]. rewrite dir_head_cons.
  destruct (PosixPath.dir_head p) as [|d head].
  - destruct (Ascii.eqb_spec c "/") as [->|]; done.
  - cbn [Py.startswith]. cbn [Py.startswith] in IH. by rewrite Ascii.eqb_refl, IH.
Qed.

Lemma rstrip_char_prefix (ch : ascii) (s : string) :
  Py.startswith (PosixPath.rstrip_char ch s) s = true.
Proof.
  induction s as [|c s IH]; [done|]. rewrite rstrip_char_cons.
  destruct (PosixPath.rstrip_char ch s) as [|d r].
  - destruct (Ascii.eqb c ch); [done|]. cbn. by rewrite Ascii.eqb_refl.
  - cbn [Py.startswith]. cbn [Py.startswith] in IH. by rewrite Ascii.eqb_refl, IH.
Qed.

(** The directory of a path is a prefix of it. *)
Lemma dirname_prefix (p : string) : Py.startswith (PosixPath.dirname p) p = true.
Proof.
  unfold PosixPath.dirname. destruct (_ && _); [|apply dir_head_prefix].
  eapply startswith_trans; [apply rstrip_char_prefix | apply dir_head_prefix].
Qed.

Lemma rstrip_dir_head_shorter (p : string) :
  PosixPath.dir_head p <> "" ->
  String.length (PosixPath.rstrip_char "/" (PosixPath.dir_head p))
  < String.length (PosixPath.dir_head p).
Proof.
  induction p as [|c p IH]; [done|]. rewrite dir_head_cons.
  destruct (PosixPath.dir_head p) as [|d head] eqn:Hhead.
  - destruct (Ascii.eqb_spec c "/") as [->|]; [|done]. intros _. cbn. lia.
  - intros _. rewrite rstrip_char_cons.
    specialize (IH ltac:(done)).
    destruct (PosixPath.rstrip_char "/" (String d head)) as [|e r].
    + destruct (Ascii.eqb c "/"); cbn; lia.
    + cbn [String.length] in *. lia.
Qed.

Lemma all_slashes_dir_head (p : string) :
  PosixPath.all_slashes p = true -> PosixPath.dir_head p = p.
Proof.
  induction p as [|c p IH]; [done|]. unfold PosixPath.all_slashes. cbn [Py.all_chars].
  intros [Hc Hp]%andb_true_iff. apply Ascii.eqb_eq in Hc as ->.
  rewrite dir_head_cons, (IH Hp). by destruct p.
Qed.

Lemma dirname_all_slashes (p : string) :
  PosixPath.all_slashes p = true -> PosixPath.dirname p = p.
Proof.
  intros Hp. unfold PosixPath.dirname. rewrite (all_slashes_dir_head p Hp), Hp.
  by rewrite andb_false_r.
Qed.

(** Unless it consists of slashes only, a path is longer than its
    directory. *)
Lemma dirname_shorter (p : string) :
  PosixPath.all_slashes p = false ->
  String.length (PosixPath.dirname p) < String.length p.
Proof.
  intros Hp. unfold PosixPath.dirname.
  pose proof (startswith_length _ _ (dir_head_prefix p)) as Hlen.
  destruct (String.eqb_spec (PosixPath.dir_head p) "") as [Hhead|Hhead]; cbn [negb andb].
  - rewrite Hhead. destruct p; [done | cbn; lia].
  - destruct (PosixPath.all_slashes (PosixPath.dir_head p)) eqn:Hall; cbn [negb].
    + destruct (decide (String.length (PosixPath.dir_head p) = String.length p)) as [Heq|];
        [|lia].
      apply (startswith_same_length _ _ (dir_head_prefix p)) in Heq. congruence.
    + pose proof (rstrip_dir_head_shorter p Hhead). lia.
Qed.

Lemma rstrip_char_nonempty (s : string) :
  PosixPath.all_slashes s = false -> PosixPath.rstrip_char "/" s <> "".
Proof.
  induction s as [|c s IH]; [done|]. unfold PosixPath.all_slashes. cbn [Py.all_chars].
  rewrite rstrip_char_cons. intros H.
  destruct (PosixPath.rstrip_char "/" s) as [|d r] eqn:Hr; [|done].
  destruct (Ascii.eqb c "/"); [|done]. cbn [andb] in H. by destruct (IH H).
Qed.

Lemma isabs_cons (c : ascii) (p : string) : Py.isabs (String c p) = Ascii.eqb "/" c.
Proof. unfold Py.isabs. cbn [Py.startswith]. apply andb_true_r. Qed.

Lemma startswith_isabs (a b : string) :
  a <> "" -> Py.startswith a b = true -> Py.isabs a = Py.isabs b.
Proof.
  destruct a as [|x a]; [done|]. destruct b as [|y b]; [done|]. intros _.
  cbn [Py.startswith]. intros [Hxy _]%andb_true_iff. apply Ascii.eqb_eq in Hxy as ->.
  by rewrite !isabs_cons.
Qed.

(** The directory of an absolute path is absolute. *)
Lemma dirname_isabs (p : string) : Py.isabs p = true -> Py.isabs (PosixPath.dirname p) = true.
Proof.
  intros Hp. rewrite (startswith_isabs (PosixPath.dirname p) p); [done| |apply dirname_prefix].
  unfold PosixPath.dirname.
  assert (Hhead : PosixPath.dir_head p <> "").
  { destruct p as [|c p]; [done|]. rewrite isabs_cons in Hp.
    apply Ascii.eqb_eq in Hp as <-. rewrite dir_head_cons.
    by destruct (PosixPath.dir_head p). }
  destruct (String.eqb_spec (PosixPath.dir_head p) ""); [done|]. cbn [negb andb].
  destruct (PosixPath.all_slashes (PosixPath.dir_head p)) eqn:Hall; cbn [negb]; [done|].
  by apply rstrip_char_nonempty.
Qed.

Lemma isabs_not_all_slashes (p : string) :
  p <> "" -> Py.isabs p = false -> PosixPath.all_slashes p = false.
Proof.
  destruct p as [|c p]; [done|]. intros _. rewrite isabs_cons.
  unfold PosixPath.all_slashes. cbn [Py.all_chars].
  rewrite Ascii.eqb_sym. by intros ->.
Qed.

(** ** lutris/util/system.py, [get_existing_parent] *)

Section ExistingParent.
Variable host : Host.

Lemma get_existing_parent_step (depth : nat) (path : string) :
  get_existing_parent host (S depth) path =
  if String.eqb path "" then mret None
  else if existing_folder host path then mret (Some path)
  else get_existing_parent host depth (PosixPath.dirname path).
Proof. done. Qed.

Lemma get_existing_parent_Some (depth : nat) (path parent : string) st st' :
  get_existing_parent host depth path st = (Ok (Some parent), st') ->
  existing_folder host parent = true /\ Py.startswith parent path = true /\
  parent <> "" /\ st' = st.
Proof.
  revert path. induction depth as [|depth IH]; intros path; [done|].
  rewrite get_existing_parent_step.
  destruct (String.eqb_spec path "") as [->|Hpath]; [done|].
  destruct (existing_folder host path) eqn:Hfolder.
  - intros [= <- <-]. split_and!; [done | apply startswith_refl | done..].
  - intros (? & Hprefix & ? & ?)%IH. split_and!; [done| |done..].
    eapply startswith_trans; [exact Hprefix | apply dirname_prefix].
Qed.

Lemma get_existing_parent_None (depth : nat) (path : string) st st' :
  get_existing_parent host depth path st = (Ok None, st') -> Py.isabs path = false.
Proof.
  revert path. induction depth as [|depth IH]; intros path; [done|].
  rewrite get_existing_parent_step.
  destruct (String.eqb_spec path "") as [->|Hpath]; [done|].
  destruct (existing_folder host path); [done|].
  intros Hrun%IH. destruct (Py.isabs path) eqn:Habs; [|done].
  by rewrite (dirname_isabs path Habs) in Hrun.
Qed.

Lemma get_existing_parent_relative (depth : nat) (path : string) st :
  Py.isabs path = false -> String.length path < depth ->
  exists parent, get_existing_parent host depth path st = (Ok parent, st).
Proof.
  revert path. induction depth as [|depth IH]; intros path Hrel Hlen; [lia|].
  rewrite get_existing_parent_step.
  destruct (String.eqb_spec path "") as [->|Hpath]; [by eexists|].
  destruct (existing_folder host path); [by eexists|].
  apply IH.
  - destruct (String.eqb_spec (PosixPath.dirname path) "") as [->|Hdir]; [done|].
    by rewrite (startswith_isabs _ path Hdir (dirname_prefix path)).
  - pose proof (dirname_shorter path (isabs_not_all_slashes path Hpath Hrel)). lia.
Qed.

Lemma get_existing_parent_absolute (depth : nat) (path : string) st :
  (forall root, root <> "" -> PosixPath.all_slashes root = true ->
                existing_folder host root = true) ->
  Py.isabs path = true -> String.length path < depth ->
  exists parent, get_existing_parent host depth path st = (Ok (Some parent), st).
Proof.
  intros Hroot. revert path. induction depth as [|depth IH]; intros path Habs Hlen; [lia|].
  rewrite get_existing_parent_step.
  destruct (String.eqb_spec path "") as [->|Hpath]; [done|].
  destruct (existing_folder host path) eqn:Hfolder; [by eexists|].
  destruct (PosixPath.all_slashes path) eqn:Hall.
  { rewrite (Hroot path Hpath Hall) in Hfolder. done. }
  apply IH; [by apply dirname_isabs|].
  pose proof (dirname_shorter path Hall). lia.
Qed.

Lemma get_existing_parent_endless (depth : nat) (path : string) st :
  Py.isabs path = true ->
  (forall parent, Py.startswith parent path = true -> existing_folder host parent = false) ->
  get_existing_parent host depth path st
  = (Raise (RuntimeError "maximum recursion depth exceeded"), st).
Proof.
  revert path. induction depth as [|depth IH]; intros path Habs Hnone; [done|].
  rewrite get_existing_parent_step.
  destruct (String.eqb_spec path "") as [->|Hpath]; [done|].
  rewrite (Hnone path (startswith_refl path)).
  apply IH; [by apply dirname_isabs|].
  intros parent Hparent. apply Hnone.
  eapply startswith_trans; [exact Hparent | apply dirname_prefix].
Qed.

End ExistingParent.

(** X27.  What [get_existing_parent] returns, if not [None], exists, is no
    file, and is a leading part of the path it was given; [None] is only
    returned for a relative path.  The state is not changed. *)
Theorem get_existing_parent_sound (host : Host) (depth : nat) (path : string)
    (result : option string) (st st' : state) :
  get_existing_parent host depth path st = (Ok result, st') ->
  st' = st /\
  match result with
  | Some parent =>
      os_path_exists host parent = true /\ os_path_isfile host parent = false /\
      Py.startswith parent path = true /\ parent <> ""
  | None => Py.isabs path = false
  end.
Proof.
  destruct result as [parent|]; intros Hrun.
  - apply get_existing_parent_Some in Hrun as (Hfolder & ? & ? & ?).
    apply andb_true_iff in Hfolder as [? ?%negb_true_iff]. done.
  - split; [|by eapply get_existing_parent_None].
    clear -Hrun. revert path Hrun. induction depth as [|depth IH]; intros path; [done|].
    rewrite get_existing_parent_step.
    destruct (String.eqb path ""); [by intros [= <-]|].
    destruct (existing_folder host path); [done | apply IH].
Qed.

Lemma get_existing_parent_sound_witness :
  init_state = init_state /\
  os_path_exists home_host "/home" = true /\ os_path_isfile home_host "/home" = false /\
  Py.startswith "/home" "/home/user/Games/doom" = true /\ "/home" <> "".
Proof.
  refine (get_existing_parent_sound home_host 1000 "/home/user/Games/doom" (Some "/home")
            init_state init_state _).
  by vm_compute.
Defined.

(** X28.  When the recursion limit allows more nested calls than the path
    has characters, [get_existing_parent] returns for every relative path,
    and for every absolute path if the root is an existing folder; it then
    returns a folder and not [None].  For an absolute path none of whose
    leading parts is an existing folder the calls never end, whatever the
    limit: the directory of [/] is [/] again. *)
Theorem get_existing_parent_terminates (host : Host) (depth : nat) (path : string)
    (st : state) :
  (String.length path < depth -> Py.isabs path = false ->
   exists parent, get_existing_parent host depth path st = (Ok parent, st)) /\
  (String.length path < depth -> Py.isabs path = true ->
   (forall root, root <> "" -> PosixPath.all_slashes root = true ->
                 existing_folder host root = true) ->
   exists parent, get_existing_parent host depth path st = (Ok (Some parent), st)) /\
  (Py.isabs path = true ->
   (forall parent, Py.startswith parent path = true -> existing_folder host parent = false) ->
   get_existing_parent host depth path st
   = (Raise (RuntimeError "maximum recursion depth exceeded"), st)).
Proof.
  split_and!.
  - intros Hlen Hrel. by apply get_existing_parent_relative.
  - intros Hlen Habs Hroot. by apply get_existing_parent_absolute.
  - intros Habs Hnone. by apply get_existing_parent_endless.
Qed.

(** ** lutris/util/system.py, [path_contains] and [is_removeable] *)

Lemma parents_elem_of (parent child : PurePath.t) :
  parent ∈ PurePath.parents child <->
  parent.1 = child.1 /\ exists n, n < length child.2 /\ parent.2 = take n child.2.
Proof.
  unfold PurePath.parents. rewrite list_elem_of_fmap. split.
  - intros (n & -> & Hn). rewrite elem_of_reverse, elem_of_seq in Hn.
    split; [done|]. exists n. split; [lia | done].
  - intros (Hroot & n & Hn & Hparts). exists n. split.
    + destruct parent as [root parts]. cbn in *. by subst.
    + rewrite elem_of_reverse, elem_of_seq. lia.
Qed.

(** The test at the end of [path_contains]: the roots are the same and the
    components of the parent begin those of the child. *)
Lemma contains_prefix (parent child : PurePath.t) :
  bool_decide (child = parent) || bool_decide (parent ∈ PurePath.parents child) = true <->
  parent.1 = child.1 /\ parent.2 `prefix_of` child.2.
Proof.
  rewrite orb_true_iff, !bool_decide_eq_true, parents_elem_of. split.
  - intros [->|(Hroot & n & Hn & Hparts)]; [done|]. split; [done|].
    rewrite Hparts. apply prefix_take.
  - intros [Hroot [rest Hparts]]. destruct rest as [|part rest].
    + left. rewrite app_nil_r in Hparts. destruct parent, child. cbn in *. by subst.
    + right. split; [done|]. exists (length parent.2). rewrite Hparts.
      split; [rewrite length_app; cbn; lia | by rewrite take_app_length].
Qed.

Section PathContains.
Variable host : Host.
Variable getcwd : string.
Variable realpath : string -> string.

Lemma path_contains_strings (parent child : string) (resolve_symlinks : bool) st :
  path_contains host getcwd realpath (VStr parent) (VStr child) resolve_symlinks st
  = (Ok (let resolved_parent :=
           PurePath.parse (abspath getcwd (expanduser host parent)) in
         let resolved_child :=
           PurePath.parse (abspath getcwd (expanduser host child)) in
         let resolved_parent :=
           if resolve_symlinks then resolve realpath resolved_parent else resolved_parent in
         let resolved_child :=
           if resolve_symlinks then resolve realpath resolved_child else resolved_child in
         bool_decide (resolved_child = resolved_parent)
         || bool_decide (resolved_parent ∈ PurePath.parents resolved_child)), st).
Proof.
  unfold path_contains. rewrite bool_decide_false; [done|]. by intros [?|?].
Qed.

Lemma path_contains_true_inv (parent child : value) (resolve_symlinks : bool) st st' :
  path_contains host getcwd realpath parent child resolve_symlinks st = (Ok true, st') ->
  exists p c, parent = VStr p /\ child = VStr c.
Proof.
  unfold path_contains. case_bool_decide as Hnone; [done|].
  destruct parent as [|?|p]; [by destruct Hnone; left | done |].
  destruct child as [|?|c]; [by destruct Hnone; right | done |].
  intros _. by exists p, c.
Qed.

End PathContains.

(** X29.  [path_contains] is a preorder on paths: a path contains itself,
    and a path that contains a second one contains what the second one
    contains.  With [None] for either path the answer is [False].  On two
    strings it returns without raising, and it never changes the state. *)
Theorem path_contains_preorder (host : Host) (getcwd : string) (realpath : string -> string)
    (resolve_symlinks : bool) (st : state) :
  (forall path,
     path_contains host getcwd realpath (VStr path) (VStr path) resolve_symlinks st
     = (Ok true, st)) /\
  (forall a b c,
     path_contains host getcwd realpath a b resolve_symlinks st = (Ok true, st) ->
     path_contains host getcwd realpath b c resolve_symlinks st = (Ok true, st) ->
     path_contains host getcwd realpath a c resolve_symlinks st = (Ok true, st)) /\
  (forall other,
     path_contains host getcwd realpath VNone other resolve_symlinks st = (Ok false, st) /\
     path_contains host getcwd realpath other VNone resolve_symlinks st = (Ok false, st)) /\
  (forall parent child, exists inside,
     path_contains host getcwd realpath (VStr parent) (VStr child) resolve_symlinks st
     = (Ok inside, st)).
Proof.
  split_and!.
  - intros path. rewrite path_contains_strings. cbv zeta.
    by rewrite bool_decide_true.
  - intros a b c Hab Hbc.
    destruct (path_contains_true_inv _ _ _ _ _ _ _ _ Hab) as (pa & pb & -> & ->).
    destruct (path_contains_true_inv _ _ _ _ _ _ _ _ Hbc) as (pb' & pc & [= <-] & ->).
    rewrite path_contains_strings in Hab, Hbc |- *. cbv zeta in Hab, Hbc |- *.
    injection Hab as Hab. injection Hbc as Hbc. do 2 f_equal.
    apply contains_prefix in Hab as [Hroot1 Hparts1].
    apply contains_prefix in Hbc as [Hroot2 Hparts2].
    apply contains_prefix. split; [congruence|].
    destruct Hparts1 as [k1 H1], Hparts2 as [k2 H2]. exists (k1 ++ k2).
    by rewrite H2, H1, app_assoc.
  - intros other. unfold path_contains. split.
    + rewrite bool_decide_true; [done | by left].
    + rewrite bool_decide_true; [done | by right].
  - intros parent child. eexists. apply path_contains_strings.
Qed.

(** *** The components of a path *)

Lemma append_cons (c : ascii) (s t : string) : String c s +:+ t = String c (s +:+ t).
Proof. done. Qed.

Lemma append_nil_r (s : string) : s +:+ "" = s.
Proof. induction s as [|c s IH]; [done|]. by rewrite append_cons, IH. Qed.

Lemma append_assoc (a b c : string) : (a +:+ b) +:+ c = a +:+ (b +:+ c).
Proof. induction a as [|x a IH]; [done|]. by rewrite !append_cons, IH. Qed.

Lemma component_cons (c : ascii) (s : string) :
  component (String c s) <-> c <> "/"%char /\ component s.
Proof.
  unfold component. cbn [Py.contains Py.startswith]. rewrite andb_true_r, orb_false_iff.
  rewrite Ascii.eqb_neq. split; intros [? ?]; split; congruence.
Qed.

Lemma rstrip_char_other (c : ascii) (s : string) :
  c <> "/"%char ->
  PosixPath.rstrip_char "/" (String c s) = String c (PosixPath.rstrip_char "/" s).
Proof.
  intros Hc%Ascii.eqb_neq. rewrite rstrip_char_cons, Hc.
  by destruct (PosixPath.rstrip_char "/" s).
Qed.

Lemma rstrip_char_component (w s : string) :
  component w -> PosixPath.rstrip_char "/" (w +:+ s) = w +:+ PosixPath.rstrip_char "/" s.
Proof.
  induction w as [|c w IH]; [done|]. intros [Hc Hw]%component_cons.
  by rewrite !append_cons, rstrip_char_other, IH.
Qed.

(** Nothing is stripped from a string that ends in a component. *)
Lemma rstrip_char_ends_component (s name : string) :
  component name -> name <> "" ->
  PosixPath.rstrip_char "/" (s +:+ name) = s +:+ name.
Proof.
  intros Hname Hne. induction s as [|c s IH].
  - change ("" +:+ name) with name.
    rewrite <- (append_nil_r name) at 1. rewrite rstrip_char_component by done.
    apply append_nil_r.
  - rewrite append_cons, rstrip_char_cons, IH.
    destruct (s +:+ name) eqn:E; [|done].
    destruct s; [by destruct name | discriminate E].
Qed.

Lemma lstrip_char_component (w s : string) :
  component w -> w <> "" -> PosixPath.lstrip_char "/" (w +:+ s) = w +:+ s.
Proof.
  destruct w as [|c w]; [done|]. intros [Hc%Ascii.eqb_neq _]%component_cons _.
  rewrite append_cons. cbn [PosixPath.lstrip_char]. by rewrite Hc.
Qed.

Lemma split_component (w s : string) :
  component w -> Py.split "/" (w +:+ String "/" s) = w :: Py.split "/" s.
Proof.
  induction w as [|c w IH]; [done|]. intros [Hc%Ascii.eqb_neq Hw]%component_cons.
  rewrite append_cons. cbn [Py.split]. by rewrite Hc, IH.
Qed.

Lemma split_one_component (w : string) : component w -> Py.split "/" w = [w].
Proof.
  induction w as [|c w IH]; [done|]. intros [Hc%Ascii.eqb_neq Hw]%component_cons.
  cbn [Py.split]. by rewrite Hc, IH.
Qed.

(** The first component of [/w] and of [/w/...] is [w]. *)
Lemma path_parts_first (w rest : string) :
  component w -> w <> "" ->
  hd "" (path_parts ("/" +:+ w)) = w /\
  hd "" (path_parts ("/" +:+ w +:+ "/" +:+ rest)) = w.
Proof.
  intros Hw Hne. unfold path_parts, PosixPath.strip_char.
  change ("/" +:+ w) with (String "/" w).
  change ("/" +:+ w +:+ "/" +:+ rest) with (String "/" (w +:+ String "/" rest)).
  cbn [PosixPath.lstrip_char Ascii.eqb Bool.eqb]. split.
  - rewrite <- (append_nil_r w) at 1.
    rewrite lstrip_char_component, rstrip_char_component, !append_nil_r by done.
    by rewrite split_one_component.
  - rewrite lstrip_char_component, rstrip_char_component by done.
    rewrite rstrip_char_cons.
    destruct (PosixPath.rstrip_char "/" rest) as [|c r]; cbn [Ascii.eqb Bool.eqb].
    + by rewrite append_nil_r, split_one_component.
    + by rewrite split_component.
Qed.

Lemma path_parts_home_user (user : string) :
  component user ->
  hd "" (path_parts ("/home/" +:+ user)) = "home" /\
  length (path_parts ("/home/" +:+ user)) <= 2.
Proof.
  intros Huser. split.
  - by apply (path_parts_first "home" user).
  - unfold path_parts, PosixPath.strip_char.
    change ("/home/" +:+ user) with (String "/" ("home" +:+ String "/" user)).
    cbn [PosixPath.lstrip_char Ascii.eqb Bool.eqb].
    rewrite lstrip_char_component, rstrip_char_component by done.
    rewrite rstrip_char_cons. rewrite <- (append_nil_r user) at 1.
    rewrite rstrip_char_component, append_nil_r by done. cbn [PosixPath.rstrip_char].
    destruct user as [|c user]; cbn [Ascii.eqb Bool.eqb].
    + change (length ["home"] <= 2). cbn. lia.
    + rewrite split_component, split_one_component by done. cbn. lia.
Qed.

Lemma path_parts_home_folder (user name : string) :
  component user -> component name -> name <> "" ->
  path_parts ("/home/" +:+ user +:+ "/" +:+ name) = ["home"; user; name].
Proof.
  intros Huser Hname Hne. unfold path_parts, PosixPath.strip_char.
  change ("/home/" +:+ user +:+ "/" +:+ name)
    with (String "/" ("home" +:+ String "/" (user +:+ String "/" name))).
  cbn [PosixPath.lstrip_char Ascii.eqb Bool.eqb].
  rewrite lstrip_char_component by done.
  assert (Hassoc : ("home/" +:+ user +:+ "/") +:+ name
                   = "home" +:+ String "/" (user +:+ String "/" name)).
  { by rewrite !append_assoc. }
  rewrite <- Hassoc, rstrip_char_ends_component, Hassoc by done.
  rewrite !split_component, split_one_component by done. done.
Qed.

Lemma system_folders_component (folder : string) :
  folder ∈ system_folders -> component folder /\ folder <> "".
Proof.
  unfold system_folders. rewrite !elem_of_cons, elem_of_nil.
  intros [->|[->|[->|[->|[->|[->|[->|[]]]]]]]]; by split.
Qed.

Section Removeable.
Variable host : Host.
Variable getcwd : string.
Variable realpath : string -> string.
Variable gettext : string -> string.

(** What [is_removeable] does once the path is known to exist. *)
Lemma is_removeable_run (path : string) (system_config : gmap string value) st :
  exists l,
    is_removeable host getcwd realpath gettext path system_config st
    = (if negb (present host path) then mret false
       else
         if bool_decide (hd "" (path_parts path) ∈ system_folders) then mret false
         else if String.eqb (hd "" (path_parts path)) "home"
                 && ((length (path_parts path) <=? 2)
                     || (length (path_parts path) =? 3)
                        && bool_decide (default "" (path_parts path !! 2)
                                        ∈ PROTECTED_HOME_FOLDERS gettext))
         then mret false
         else if bool_decide (system_config <> ∅) then
           inside ← path_contains host getcwd realpath (VStr path)
                      (dict_get system_config "game_path") false;
           if (inside : bool) then mret false else mret true
         else mret true) (add_log l st).
Proof.
  destruct (path_exists_present host path st) as [l Hl]. exists l.
  unfold is_removeable. by rewrite bind_run, Hl.
Qed.

Lemma is_removeable_protected (path : string) (system_config : gmap string value) st :
  protected_path gettext path ->
  exists l,
    is_removeable host getcwd realpath gettext path system_config st
    = (Ok false, add_log l st).
Proof.
  intros Hprotected. destruct (is_removeable_run path system_config st) as [l ->].
  exists l. destruct (present host path); cbn [negb]; [|done].
  destruct Hprotected as [(folder & Hin & Hpath)|[->|[(user & Huser & ->)|Hfolder]]].
  - destruct (system_folders_component folder Hin) as [Hc Hne].
    destruct (path_parts_first folder "" Hc Hne) as [Hfirst _].
    assert (Hhd : hd "" (path_parts path) = folder).
    { destruct Hpath as [->|[rest ->]]; [done|]. by apply path_parts_first. }
    by rewrite Hhd, bool_decide_true.
  - by destruct (bool_decide _).
  - destruct (path_parts_home_user user Huser) as [-> Hlen].
    destruct (bool_decide _); [done|].
    apply Nat.leb_le in Hlen. by rewrite Hlen.
  - destruct Hfolder as (user & name & Huser & Hname & Hne & Hin & ->).
    rewrite (path_parts_home_folder user name Huser Hname Hne).
    destruct (bool_decide _); [done|]. cbn [hd length lookup list_lookup default].
    change (default "" (Some name)) with name.
    by rewrite (bool_decide_true _ Hin).
Qed.

End Removeable.

(** The checks are made on the path as it is written: on a host where
    every path exists, and with no configuration, the root and a path that
    leaves the home through [..] pass them. *)
Example is_removeable_unnormalized :
  fst (is_removeable full_host "/tmp" id id "/" ∅ init_state) = Ok true /\
  fst (is_removeable full_host "/tmp" id id "/home/user/../../etc" ∅ init_state) = Ok true /\
  fst (is_removeable full_host "/tmp" id id "/home/user/Games/doom" ∅ init_state) = Ok true /\
  fst (is_removeable full_host "/tmp" id id "/home/user/Games"
         {[ "game_path" := VStr "~/Games/doom" ]} init_state) = Ok false.
Proof. by vm_compute. Qed.

(** X30.  [is_removeable] answers [False], without raising, for a system
    folder and everything in it, for [/home], for a home folder, for the
    protected folders of a home, for a path that does not exist, and for
    the configured game path itself. *)
Theorem is_removeable_protects (host : Host) (getcwd : string) (realpath : string -> string)
    (gettext : string -> string) (path : string) (system_config : gmap string value)
    (st : state) :
  protected_path gettext path \/ present host path = false \/
  system_config !! "game_path" = Some (VStr path) ->
  exists l,
    is_removeable host getcwd realpath gettext path system_config st
    = (Ok false, add_log l st).
Proof.
  intros [Hprotected|[Hmissing|Hgame]]; [by apply is_removeable_protected| |].
  - destruct (is_removeable_run host getcwd realpath gettext path system_config st) as [l ->].
    exists l. by rewrite Hmissing.
  - destruct (is_removeable_run host getcwd realpath gettext path system_config st) as [l ->].
    exists l. destruct (negb _); [done|].
    destruct (bool_decide (hd "" (path_parts path) ∈ system_folders)); [done|].
    destruct (_ && _); [done|].
    rewrite bool_decide_true by (intros ->; by rewrite lookup_empty in Hgame).
    unfold dict_get. rewrite Hgame. change (default VNone (Some (VStr path))) with (VStr path).
    rewrite bind_run, path_contains_strings. cbv zeta.
    by rewrite bool_decide_true.
Qed.

Lemma is_removeable_protects_witness :
  exists l,
    is_removeable full_host "/tmp" id id "/usr/lib/wine" ∅ init_state
    = (Ok false, add_log l init_state).
Proof.
  refine (is_removeable_protects full_host "/tmp" id id "/usr/lib/wine" ∅ init_state
            (or_introl (or_introl (ex_intro _ "usr"
               (conj _ (or_intror (ex_intro _ "lib/wine" eq_refl))))))).
  by left.
Defined.
